(** * Cyrnel Origin sale pipeline: process-sale and get-dashboard

    A shallow embedding of the two Netlify functions of the repository:
    the sale processor ([ProcessSale], the webhook handler with
    [generateAIaudit] and [sendAuditEmail]) and the dashboard reader
    ([GetDashboard]).

    Conventions of the embedding:
    - a JavaScript string is kept as the [string] of its UTF-8 bytes;
    - a JavaScript number is an IEEE binary64 value, Rocq's primitive
      [float]; counters that only ever hold small integers are [Z];
    - an object read by fixed field names is a record whose fields are
      [option]s ([None] is JavaScript's [undefined]);
    - asynchronous calls run to completion one after the other (every call
      is awaited in the source), so a function is a state transformer over
      the [world] that returns a value or throws;
    - what the outside services answer during one invocation is given by an
      environment record, one field per call site. *)

From Stdlib Require Import ZArith List String Ascii Bool Lia.
From Stdlib Require Import Floats.
From stdpp Require Import base gmap strings.

Set Warnings "-register-all".
Local Open Scope Z_scope.

(** ** Text *)

Module Text.

Definition byte_of (c : ascii) : N := N_of_ascii c.
Definition char_of (n : N) : ascii := ascii_of_N n.

Definition in_range (lo hi : N) (c : ascii) : bool :=
  (N.leb lo (byte_of c) && N.leb (byte_of c) hi)%bool.

(** [strip_prefix p s] is [Some rest] when [s] is [p] followed by [rest]. *)
Fixpoint strip_prefix (p s : string) : option string :=
  match p with
  | EmptyString => Some s
  | String c p' =>
      match s with
      | EmptyString => None
      | String d s' => if Ascii.eqb c d then strip_prefix p' s' else None
      end
  end.

Definition is_empty (s : string) : bool :=
  match s with EmptyString => true | _ => false end.

(** Decimal digits of a natural number, most significant first. *)
Definition digit_char (d : N) : ascii := char_of (48 + d).

Fixpoint digits_fuel (fuel : nat) (n : N) (acc : string) : string :=
  match fuel with
  | O => acc
  | S fuel' =>
      let acc' := String (digit_char (n mod 10)) acc in
      if N.eqb (n / 10) 0 then acc' else digits_fuel fuel' (n / 10) acc'
  end.

Definition decimal_N (n : N) : string :=
  digits_fuel (S (N.to_nat (N.log2 n))) n EmptyString.

(** [String(z)] for an integer-valued number. *)
Definition decimal_Z (z : Z) : string :=
  match z with
  | Z0 => "0"
  | Zpos p => decimal_N (Npos p)
  | Zneg p => String "-" (decimal_N (Npos p))
  end.

Fixpoint repeat_char (c : ascii) (n : nat) : string :=
  match n with O => EmptyString | S n' => String c (repeat_char c n') end.

(** [contains needle s]: [needle] occurs somewhere in [s]. *)
Fixpoint contains (needle s : string) : bool :=
  match strip_prefix needle s with
  | Some _ => true
  | None =>
      match s with
      | EmptyString => false
      | String _ s' => contains needle s'
      end
  end.

(** The UTF-8 bytes of one code point, given its lead byte: the number of
    continuation bytes that follow it. *)
Definition continuation_count (lead : ascii) : nat :=
  if N.ltb (byte_of lead) 192 then 0%nat
  else if N.ltb (byte_of lead) 224 then 1%nat
  else if N.ltb (byte_of lead) 240 then 2%nat
  else 3%nat.

Fixpoint drop (n : nat) (s : string) : string :=
  match n, s with
  | O, _ => s
  | S n', String _ s' => drop n' s'
  | S _, EmptyString => EmptyString
  end.

Fixpoint take (n : nat) (s : string) : string :=
  match n, s with
  | S n', String c s' => String c (take n' s')
  | _, _ => EmptyString
  end.

End Text.

(** ** Regular expressions and [String.prototype.replace]

    The three patterns of the source: [/^(https?:\/\/)?(www\.)?/] is run by
    a backtracking matcher over its syntax tree; the two global patterns
    [/[^a-zA-Z0-9-_]/g] and [/\n/g] replace single code units and are maps
    over the string. *)

Module Regex.

Inductive regex : Type :=
| Chars (s : string)          (* a literal sequence of characters *)
| Seq (r1 r2 : regex)         (* r1 r2 *)
| Opt (r : regex).            (* (r)? , greedy *)

(** [rmatch r s k]: match [r] at the start of [s], then hand the rest to
    the continuation [k]; a [None] from [k] makes the matcher backtrack. *)
Fixpoint rmatch (r : regex) (s : string) (k : string -> option string)
  : option string :=
  match r with
  | Chars p =>
      match Text.strip_prefix p s with
      | Some rest => k rest
      | None => None
      end
  | Seq r1 r2 => rmatch r1 s (fun s1 => rmatch r2 s1 k)
  | Opt r1 =>
      match rmatch r1 s k with
      | Some out => Some out
      | None => k s
      end
  end.

(** [s.replace(/^r/, by)] without the [g] flag: the pattern is anchored,
    so the only candidate position is the start of the string. *)
Definition replace_at_start (r : regex) (by_ : string) (s : string) : string :=
  match rmatch r s Some with
  | Some rest => by_ +:+ rest
  | None => s
  end.

(** [/^(https?:\/\/)?(www\.)?/] *)
Definition scheme_www : regex :=
  Seq (Opt (Seq (Chars "http") (Seq (Opt (Chars "s")) (Chars "://"))))
      (Opt (Chars "www.")).

(** The class [a-zA-Z0-9-_]. *)
Definition tag_safe (c : ascii) : bool :=
  (Text.in_range 97 122 c || Text.in_range 65 90 c || Text.in_range 48 57 c
   || Ascii.eqb c "-" || Ascii.eqb c "_")%bool.

(** [s.replace(/[^a-zA-Z0-9-_]/g, '_')]: one ["_"] per UTF-16 code unit
    outside the class, so one for a character of up to three UTF-8 bytes
    and two for a character of four. [skip] counts the continuation bytes
    of a character already replaced. *)
Fixpoint replace_unsafe (skip : nat) (s : string) : string :=
  match s with
  | EmptyString => EmptyString
  | String c s' =>
      match skip with
      | S k => replace_unsafe k s'
      | O =>
          if N.ltb (Text.byte_of c) 128 then
            String (if tag_safe c then c else "_"%char) (replace_unsafe 0 s')
          else if N.ltb (Text.byte_of c) 240 then
            String "_" (replace_unsafe (Text.continuation_count c) s')
          else
            String "_" (String "_" (replace_unsafe 3 s'))
      end
  end.

(** [s.replace(/\n/g, '<br>')] *)
Fixpoint replace_newlines (s : string) : string :=
  match s with
  | EmptyString => EmptyString
  | String c s' =>
      if N.eqb (Text.byte_of c) 10
      then "<br>" +:+ replace_newlines s'
      else String c (replace_newlines s')
  end.

End Regex.

(** ** [URLSearchParams] and [Object.fromEntries]

    [new URLSearchParams(body)] runs the application/x-www-form-urlencoded
    parser: split on ["&"], split each piece at its first ["="], turn ["+"]
    into a space, percent-decode, and decode the bytes as UTF-8 with the
    replacement character for what is not UTF-8. *)

Module Url.

Definition hex_value (c : ascii) : option N :=
  if Text.in_range 48 57 c then Some (Text.byte_of c - 48)%N
  else if Text.in_range 65 70 c then Some (Text.byte_of c - 55)%N
  else if Text.in_range 97 102 c then Some (Text.byte_of c - 87)%N
  else None.

(** Percent-decoding; [skip] counts the hex digits of an escape already
    decoded. *)
Fixpoint percent_decode (skip : nat) (s : string) : string :=
  match s with
  | EmptyString => EmptyString
  | String c s' =>
      match skip with
      | S k => percent_decode k s'
      | O =>
          if Ascii.eqb c "%" then
            match s' with
            | String h (String l _) =>
                match hex_value h, hex_value l with
                | Some a, Some b =>
                    String (Text.char_of (16 * a + b)) (percent_decode 2 s')
                | _, _ => String c (percent_decode 0 s')
                end
            | _ => String c (percent_decode 0 s')
            end
          else String c (percent_decode 0 s')
      end
  end.

(** U+FFFD in UTF-8. *)
Definition replacement : string :=
  String (Text.char_of 239) (String (Text.char_of 191)
    (String (Text.char_of 189) EmptyString)).

(** The UTF-8 decoder of the Encoding standard, writing its output back
    as UTF-8: [needed] continuation bytes are still expected, the next one
    within [lower..upper]; [pending] holds the bytes of the character read
    so far. A byte that cannot continue the character ends it with U+FFFD
    and is read again as the start of a new one. *)
Fixpoint utf8_decode (needed : nat) (lower upper : N) (pending : string)
         (s : string) : string :=
  match s with
  | EmptyString =>
      match needed with O => EmptyString | S _ => replacement end
  | String c s' =>
      let b := Text.byte_of c in
      let one := String c EmptyString in
      let fresh :=
        if N.leb b 127 then String c (utf8_decode 0 128 191 EmptyString s')
        else if (N.leb 194 b && N.leb b 223)%bool then
          utf8_decode 1 128 191 one s'
        else if (N.leb 224 b && N.leb b 239)%bool then
          utf8_decode 2 (if N.eqb b 224 then 160 else 128)
                        (if N.eqb b 237 then 159 else 191) one s'
        else if (N.leb 240 b && N.leb b 244)%bool then
          utf8_decode 3 (if N.eqb b 240 then 144 else 128)
                        (if N.eqb b 244 then 143 else 191) one s'
        else replacement +:+ utf8_decode 0 128 191 EmptyString s' in
      match needed with
      | O => fresh
      | S n =>
          if (N.leb lower b && N.leb b upper)%bool then
            match n with
            | O => pending +:+ one +:+ utf8_decode 0 128 191 EmptyString s'
            | S _ => utf8_decode n 128 191 (pending +:+ one) s'
            end
          else replacement +:+ fresh
      end
  end.

Fixpoint split_on (sep : ascii) (s : string) : list string :=
  match s with
  | EmptyString => [EmptyString]
  | String c s' =>
      if Ascii.eqb c sep then EmptyString :: split_on sep s'
      else
        match split_on sep s' with
        | h :: t => String c h :: t
        | [] => [String c EmptyString]
        end
  end.

(** Name and value of one piece: split at the first ["="]; a piece
    without ["="] is a name with the empty value. *)
Fixpoint split_pair (s : string) : string * string :=
  match s with
  | EmptyString => (EmptyString, EmptyString)
  | String c s' =>
      if Ascii.eqb c "=" then (EmptyString, s')
      else let '(n, v) := split_pair s' in (String c n, v)
  end.

Fixpoint plus_to_space (s : string) : string :=
  match s with
  | EmptyString => EmptyString
  | String c s' =>
      String (if Ascii.eqb c "+" then " "%char else c) (plus_to_space s')
  end.

Definition decode_component (s : string) : string :=
  utf8_decode 0 128 191 EmptyString (percent_decode 0 (plus_to_space s)).

Definition parse_urlencoded (input : string) : list (string * string) :=
  map (fun piece =>
         let '(n, v) := split_pair piece in
         (decode_component n, decode_component v))
      (List.filter (fun piece => negb (Text.is_empty piece))
                   (split_on "&" input)).

(** [new URLSearchParams(init).entries()]. A leading ["?"] of a string is
    dropped; Node's constructor gives no entries for [null]. *)
Definition URLSearchParams_entries (init : option string)
  : list (string * string) :=
  match init with
  | None => []
  | Some s =>
      parse_urlencoded
        match s with
        | String c s' => if Ascii.eqb c "?" then s' else s
        | EmptyString => s
        end
  end.

(** [Object.fromEntries]: a later entry replaces an earlier one with the
    same key. *)
Definition fromEntries (entries : list (string * string))
  : gmap string string :=
  fold_left (fun (m : gmap string string) kv => <[kv.1 := kv.2]> m)
            entries ∅.

End Url.

(** ** Numbers: [parseInt], [parseFloat], [Number.prototype.toFixed] *)

Module Number.

(** The binary64 value nearest to an integer. *)
Definition of_Z (z : Z) : float :=
  SF2Prim (binary_normalize prec emax z 0 false).

(** The binary64 value nearest to [n / d], with the sign [neg]. *)
Definition of_ratio (neg : bool) (n : N) (d : positive) : float :=
  match n with
  | N0 => if neg then neg_zero else zero
  | Npos p =>
      SF2Prim (SFdiv prec emax (S754_finite neg p 0) (S754_finite false d 0))
  end.

(** [ToBoolean] of a number: [0], [-0] and [NaN] are falsy. *)
Definition truthy (x : float) : bool :=
  negb (PrimFloat.eqb x zero || is_nan x).

(** The text of a number. The characters are [Known], except for a finite
    number of magnitude at least 10^21, where [toFixed] hands over to
    [Number::toString]: that text is kept as [Shortest neg x], standing
    for an optional ["-"] followed by the shortest decimal that reads
    back as [x]. *)
Inductive number_text : Type :=
| Known (s : string)
| Shortest (neg : bool) (x : float).

(** The digits of [n] with a point before the last [f] of them, padded
    with zeros on the left to at least [f + 1] digits. *)
Definition layout (f : nat) (n : N) : string :=
  let m := Text.decimal_N n in
  match f with
  | O => m
  | S _ =>
      let m' := Text.repeat_char "0" (S f - String.length m) +:+ m in
      let k := String.length m' in
      Text.take (k - f) m' +:+ "." +:+ Text.drop (k - f) m'
  end.

(** The integer [n] for which [n / 10^f] is nearest to [m * 2^e], the
    larger one of two. *)
Definition nearest_scaled (f : nat) (m : positive) (e : Z) : N :=
  let scaled := Zpos m * 10 ^ Z.of_nat f in
  Z.to_N (if 0 <=? e then scaled * 2 ^ e
          else (2 * scaled + 2 ^ (- e)) / (2 * 2 ^ (- e))).

Definition at_least_1e21 (m : positive) (e : Z) : bool :=
  if 0 <=? e then 10 ^ 21 <=? Zpos m * 2 ^ e
  else 10 ^ 21 * 2 ^ (- e) <=? Zpos m.

(** [x.toFixed(f)] *)
Definition toFixed (f : nat) (x : float) : number_text :=
  match Prim2SF x with
  | S754_nan => Known "NaN"
  | S754_infinity s => Known (if s then "-Infinity" else "Infinity")
  | S754_zero _ => Known (layout f 0)
  | S754_finite s m e =>
      if at_least_1e21 m e then Shortest s (abs x)
      else Known ((if s then "-" else "") +:+ layout f (nearest_scaled f m e))
  end.

(** White space that [parseInt] and [parseFloat] skip: TAB, LF, VT, FF,
    CR, SP, then (as UTF-8) U+00A0, U+1680, U+2000..U+200A, U+2028,
    U+2029, U+202F, U+205F, U+3000 and U+FEFF. *)
Definition skip_one_space (s : string) : option string :=
  match s with
  | String a r1 =>
      let x := Text.byte_of a in
      if (Text.in_range 9 13 a || N.eqb x 32)%bool then Some r1
      else
        match r1 with
        | String b r2 =>
            let y := Text.byte_of b in
            if (N.eqb x 194 && N.eqb y 160)%bool then Some r2
            else
              match r2 with
              | String c r3 =>
                  let z := Text.byte_of c in
                  if (N.eqb x 225 && N.eqb y 154 && N.eqb z 128
                      || N.eqb x 226 && N.eqb y 128
                         && (Text.in_range 128 138 c || Text.in_range 168 169 c
                             || N.eqb z 175)
                      || N.eqb x 226 && N.eqb y 129 && N.eqb z 159
                      || N.eqb x 227 && N.eqb y 128 && N.eqb z 128
                      || N.eqb x 239 && N.eqb y 187 && N.eqb z 191)%bool
                  then Some r3 else None
              | EmptyString => None
              end
        | EmptyString => None
        end
  | EmptyString => None
  end.

Fixpoint trim_start_fuel (fuel : nat) (s : string) : string :=
  match fuel with
  | O => s
  | S fuel' =>
      match skip_one_space s with
      | Some rest => trim_start_fuel fuel' rest
      | None => s
      end
  end.

Definition trim_start (s : string) : string :=
  trim_start_fuel (String.length s) s.

(** An optional sign: is it ["-"], and what follows it. *)
Definition take_sign (s : string) : bool * string :=
  match s with
  | String c rest =>
      if Ascii.eqb c "-" then (true, rest)
      else if Ascii.eqb c "+" then (false, rest)
      else (false, s)
  | EmptyString => (false, s)
  end.

Definition digit_value (radix : N) (c : ascii) : option N :=
  match Url.hex_value c with
  | Some d => if N.ltb d radix then Some d else None
  | None => None
  end.

(** The longest run of digits at the start of [s]: its value, its length
    and the rest of the string. *)
Fixpoint take_digits (radix : N) (s : string) (acc : N) (len : nat)
  : N * nat * string :=
  match s with
  | String c rest =>
      match digit_value radix c with
      | Some d => take_digits radix rest (radix * acc + d) (S len)
      | None => (acc, len, s)
      end
  | EmptyString => (acc, len, s)
  end.

Definition signed (neg : bool) (x : float) : float :=
  if neg then (- x)%float else x.

(** [parseInt(s)], no radix given. *)
Definition parseInt (s : string) : float :=
  let '(neg, s1) := take_sign (trim_start s) in
  let '(radix, s2) :=
    match s1 with
    | String z (String x rest) =>
        if (Ascii.eqb z "0" && (Ascii.eqb x "x" || Ascii.eqb x "X"))%bool
        then (16%N, rest) else (10%N, s1)
    | _ => (10%N, s1)
    end in
  let '(value, len, _) := take_digits radix s2 0 0 in
  match len with
  | O => nan
  | S _ => signed neg (of_Z (Z.of_N value))
  end.

(** The value of a decimal literal [n * 10^e10]. *)
Definition of_decimal (neg : bool) (n : N) (e10 : Z) : float :=
  if 0 <=? e10 then signed neg (of_Z (Z.of_N n * 10 ^ e10))
  else of_ratio neg n (Z.to_pos (10 ^ (- e10))).

(** The exponent part of a literal, when one is there. *)
Definition take_exponent (s : string) : Z :=
  match s with
  | String c rest =>
      if (Ascii.eqb c "e" || Ascii.eqb c "E")%bool then
        let '(eneg, rest') := take_sign rest in
        let '(v, len, _) := take_digits 10 rest' 0 0 in
        match len with
        | O => 0
        | S _ => if eneg then - Z.of_N v else Z.of_N v
        end
      else 0
  | EmptyString => 0
  end.

(** [parseFloat(s)] *)
Definition parseFloat (s : string) : float :=
  let '(neg, s1) := take_sign (trim_start s) in
  match Text.strip_prefix "Infinity" s1 with
  | Some _ => signed neg infinity
  | None =>
      let '(ip, ilen, s2) := take_digits 10 s1 0 0 in
      let '(mant, flen, s3) :=
        match s2 with
        | String c rest =>
            if Ascii.eqb c "." then take_digits 10 rest ip 0
            else (ip, 0%nat, s2)
        | EmptyString => (ip, 0%nat, s2)
        end in
      match (ilen + flen)%nat with
      | O => nan
      | S _ => of_decimal neg mant (take_exponent s3 - Z.of_nat flen)
      end
  end.

(** [parseFloat] of the text of a number. *)
Definition parseFloat_text (t : number_text) : float :=
  match t with
  | Known s => parseFloat s
  | Shortest neg x => signed neg x
  end.

End Number.

(** ** JavaScript values

    What [response.json()] can produce, with [Undefined] for what a lookup
    can add to it. *)

Module Js.

Inductive value : Type :=
| Undefined
| Null
| Bool (b : bool)
| Num (x : float)
| Str (s : string)
| Arr (items : list value)
| Obj (fields : list (string * value)).

Definition ToBoolean (v : value) : bool :=
  match v with
  | Undefined | Null => false
  | Bool b => b
  | Num x => Number.truthy x
  | Str s => negb (Text.is_empty s)
  | Arr _ | Obj _ => true
  end.

Definition nullish (v : value) : bool :=
  match v with Undefined | Null => true | _ => false end.

Fixpoint own (fields : list (string * value)) (key : string) : value :=
  match fields with
  | [] => Undefined
  | (k, v) :: rest => if String.eqb k key then v else own rest key
  end.

(** [v.key] for a [v] that is neither [null] nor [undefined], and a key
    that no prototype defines (["choices"], ["message"], ["content"]). *)
Definition member (key : string) (v : value) : value :=
  match v with
  | Obj fields => own fields key
  | _ => Undefined
  end.

(** [v[0]] for a [v] that is neither [null] nor [undefined]. *)
Definition index0 (v : value) : value :=
  match v with
  | Arr (x :: _) => x
  | Obj fields => own fields "0"
  | Str (String c rest) =>
      Str (String c (Text.take (Text.continuation_count c) rest))
  | _ => Undefined
  end.

(** [a || b] *)
Definition or (a b : value) : value := if ToBoolean a then a else b.

End Js.

(** ** Effects

    A computation transforms the [world] and returns a value or throws an
    [Error] object, of which the source reads only [message]. The world
    holds the [sales] collection of the document store and the [trace] of
    the calls made to the outside, oldest first. *)

Module Effect.

Record Error : Type := { message : string }.

Inductive result (A : Type) : Type :=
| Returned (a : A)
| Thrown (e : Error).
Arguments Returned {A} a.
Arguments Thrown {A} e.

(** A document of the [sales] collection, and the object handed to
    [set]. A field the document lacks is [None]. *)
Inductive timestamp_value : Type :=
| ServerTimestamp             (* FieldValue.serverTimestamp(), before the write *)
| Timestamp (millis : Z).     (* what the server stored *)

Record sale : Type := {
  orderId : option string;
  customerEmail : option string;
  businessUrl : option string;
  amount : option float;
  currency : option string;
  auditGenerated : option bool;
  emailDelivered : option bool;
  timestamp : option timestamp_value
}.

(** The request of [fetch] to the completion service; [body] keeps the
    object given to [JSON.stringify]. *)
Record chat_body : Type := {
  model : string;
  messages : list (string * string);      (* role, content *)
  temperature : float;
  max_tokens : Z
}.

Record fetch_request : Type := {
  req_url : string;
  req_method : string;
  req_Authorization : string;
  req_Content_Type : string;
  req_body : chat_body
}.

(** What [fetch] resolves to: the status, and what [response.json()]
    will give. *)
Record fetch_response : Type := {
  status : Z;
  json : result Js.value
}.

Definition ok (r : fetch_response) : bool :=
  (200 <=? status r) && (status r <=? 299).

Record email_message : Type := {
  from : string;
  to : list (option string);
  subject : string;
  html : string;
  text : string;
  tags : list (string * string)           (* name, value *)
}.

(** What [resend.emails.send] resolves to: [{ data, error }], [data]
    carrying the message id. *)
Record send_response : Type := {
  data : option string;
  error : option Error
}.

Inductive level : Type := log | error_level.

Inductive call : Type :=
| Console (l : level) (args : list string)
| Fetch (req : fetch_request)
| EmailsSend (msg : email_message)
| DocSet (collection id : string) (fields : sale)
| QueryGet (collection orderBy direction : string) (limit : nat).

Record world : Type := {
  sales : gmap string sale;
  trace : list call
}.

Definition M (A : Type) : Type := world -> result A * world.

Definition ret {A} (a : A) : M A := fun w => (Returned a, w).

Definition throw {A} (e : Error) : M A := fun w => (Thrown e, w).

Definition bind {A B} (c : M A) (k : A -> M B) : M B :=
  fun w =>
    match c w with
    | (Returned a, w') => k a w'
    | (Thrown e, w') => (Thrown e, w')
    end.

(** [try { c } catch (e) { h e }] *)
Definition try_catch {A} (c : M A) (h : Error -> M A) : M A :=
  fun w =>
    match c w with
    | (Returned a, w') => (Returned a, w')
    | (Thrown e, w') => h e w'
    end.

(** A value that is already there or already thrown. *)
Definition lift {A} (r : result A) : M A := fun w => (r, w).

Definition record (c : call) : M unit :=
  fun w => (Returned tt, {| sales := sales w; trace := trace w ++ [c] |}).

Definition console_log (args : list string) : M unit :=
  record (Console log args).

Definition console_error (args : list string) : M unit :=
  record (Console error_level args).

End Effect.

Declare Scope effect_scope.
Delimit Scope effect_scope with effect.
Notation "x <- c ;; k" := (Effect.bind c (fun x => k))
  (at level 100, c at next level, right associativity) : effect_scope.
Notation "c ;;; k" := (Effect.bind c (fun _ => k))
  (at level 100, right associativity) : effect_scope.

(** ** The Netlify event *)

Module Event.

Record t : Type := {
  httpMethod : string;
  body : option string;                          (* [null] without a body *)
  queryStringParameters : option (gmap string string)
}.

End Event.

(** ** process-sale: the sale processor *)

Module ProcessSale.
Import Effect.
Local Open Scope effect_scope.

(** What the outside answers during one invocation. *)
Record env : Type := {
  now : Z;                                 (* Date.now() *)
  GROQ_API_KEY : option string;            (* process.env.GROQ_API_KEY *)
  fetch_answer : result fetch_response;    (* fetch(...): resolves or rejects *)
  send_answer : result send_response;      (* resend.emails.send(...) *)
  set_answer : result Z                    (* doc.set(...): the server's time, or the fault *)
}.

(** [`${x}`] for a string that may be [undefined]. *)
Definition show (x : option string) : string := default "undefined" x.

(** [x || d] for a string that may be [undefined]: the empty string is
    falsy too. *)
Definition or_else (x : option string) (d : string) : string :=
  match x with
  | Some s => if Text.is_empty s then d else s
  | None => d
  end.

Definition dquote : string := String (Text.char_of 34) EmptyString.

Definition TypeError_read (of_ : Js.value) (key : string) : Error :=
  {| message :=
       "Cannot read properties of "
       +:+ match of_ with Js.Null => "null" | _ => "undefined" end
       +:+ " (reading '" +:+ key +:+ "')" |}.

(** [v.key] or [v[0]], which throws a TypeError on [null] and
    [undefined]. *)
Definition read (key : string) (get : Js.value -> Js.value) (v : Js.value)
  : M Js.value :=
  if Js.nullish v then throw (TypeError_read v key) else ret (get v).

(** [v?.key] *)
Definition read_opt (get : Js.value -> Js.value) (v : Js.value) : Js.value :=
  if Js.nullish v then Js.Undefined else get v.

(** The document as the server stores it: the [serverTimestamp()]
    sentinel becomes the server's time. *)
Definition stored (server_time : Z) (fields : sale) : sale :=
  {| orderId := orderId fields;
     customerEmail := customerEmail fields;
     businessUrl := businessUrl fields;
     amount := amount fields;
     currency := currency fields;
     auditGenerated := auditGenerated fields;
     emailDelivered := emailDelivered fields;
     timestamp :=
       match timestamp fields with
       | Some ServerTimestamp => Some (Timestamp server_time)
       | other => other
       end |}.

Section Invocation.
Variable E : env.

Definition fetch (req : fetch_request) : M fetch_response :=
  record (Fetch req) ;;; lift (fetch_answer E).

Definition emails_send (msg : email_message) : M send_response :=
  record (EmailsSend msg) ;;; lift (send_answer E).

(** [db.collection('sales').doc(id).set(fields)]: the document replaces
    whatever the collection held under [id]. *)
Definition sales_doc_set (id : string) (fields : sale) : M unit :=
  record (DocSet "sales" id fields) ;;;
  fun w =>
    match set_answer E with
    | Returned server_time =>
        (Returned tt,
         {| sales := <[id := stored server_time fields]> (sales w);
            trace := trace w |})
    | Thrown e => (Thrown e, w)
    end.

Definition groqPrompt (businessUrl : string) : string :=
  "As a senior automation consultant, analyze " +:+ businessUrl
  +:+ " and create a detailed " +:+ dquote
  +:+ "AI-Powered Business Automation Audit" +:+ dquote
  +:+ ". Focus on executive summary, processes to automate, quick wins, technology recommendations, a 90-day roadmap, and ROI analysis. Tone: Professional and actionable.".

Definition placeholder (businessUrl : string) : string :=
  "**AI-Powered Business Automation Audit for " +:+ businessUrl +:+ "**"
  +:+ String (Text.char_of 10) (String (Text.char_of 10)
        "Your audit is being finalized and will be delivered shortly.").

(** Generates AI Audit using Groq *)
Definition generateAIaudit (businessUrl : string) : M Js.value :=
  console_log ["🤖 AI analyzing: " +:+ businessUrl] ;;;
  try_catch
    (response <- fetch
       {| req_url := "https://api.groq.com/openai/v1/chat/completions";
          req_method := "POST";
          req_Authorization := "Bearer " +:+ show (GROQ_API_KEY E);
          req_Content_Type := "application/json";
          req_body :=
            {| model := "llama-3.3-70b-versatile";
               messages := [("user", groqPrompt businessUrl)];
               temperature := 0x1.6666666666666p-1%float;     (* 0.7 *)
               max_tokens := 2500 |} |} ;;
     if negb (ok response)
     then throw {| message := "Groq API error: "
                              +:+ Text.decimal_Z (status response) |}
     else
       data <- lift (json response) ;;
       choices <- read "choices" (Js.member "choices") data ;;
       first <- read "0" Js.index0 choices ;;
       ret (Js.or (read_opt (Js.member "content")
                     (read_opt (Js.member "message") first))
                  (Js.Str "Audit generation completed.")))
    (fun error =>
       console_error ["❌ Audit generation failed:"; message error] ;;;
       ret (Js.Str (placeholder businessUrl))).

Record email_result : Type := {
  success : bool;
  emailId : option string;
  error : option string
}.

(** Sends Audit Email via Resend *)
Definition sendAuditEmail (customerEmail : option string)
           (businessUrl : string) (auditContent : Js.value)
           (orderId : string) : M email_result :=
  let sanitizedOrderId := Regex.replace_unsafe 0 orderId in
  try_catch
    (content <-
       match auditContent with
       | Js.Str s => ret s
       | _ => throw {| message := "auditContent.replace is not a function" |}
       end ;;
     answer <- emails_send
       {| from := "Cyrnel Origin <audits@cyrnelorigin.online>";
          to := [customerEmail];
          subject := "Your AI-Powered Business Automation Audit for "
                     +:+ businessUrl +:+ " | Cyrnel Origin";
          html := "<html><body><h1>Your AI Audit</h1><p>Analysis for <strong>"
                  +:+ businessUrl +:+ "</strong>:</p><div>"
                  +:+ Regex.replace_newlines content
                  +:+ "</div></body></html>";
          text := "AI Audit for " +:+ businessUrl
                  +:+ String (Text.char_of 10) (String (Text.char_of 10) content);
          tags := [("audit", sanitizedOrderId)] |} ;;
     match Effect.error answer with
     | Some error => throw error
     | None =>
         id <- match data answer with
               | Some id => ret id
               | None => throw (TypeError_read Js.Null "id")
               end ;;
         console_log ["✅ Email sent. Resend ID: " +:+ id] ;;;
         ret {| success := true; emailId := Some id; error := None |}
     end)
    (fun error =>
       console_error ["❌ Email failed:"; message error] ;;;
       ret {| success := false; emailId := None;
              error := Some (message error) |}).

(** The response; [body] keeps the object given to [JSON.stringify]. *)
Inductive response_body : Type :=
| Failure (error : string)
| Complete (success : bool) (message : string) (order_id : string).

Record response : Type := {
  statusCode : Z;
  body : response_body
}.

(** 2. Parse Gumroad data *)
Record parsed : Type := {
  p_email : option string;
  p_orderId : string;
  p_businessUrl : string;
  p_amount : Number.number_text;
  p_currency : string
}.

Definition parse (event_body : option string) : parsed :=
  let params := Url.URLSearchParams_entries event_body in
  let saleData := Url.fromEntries params in
  let email := saleData !! "email" in
  let orderId := or_else (saleData !! "sale_id")
                         ("ORD-" +:+ Text.decimal_Z (now E)) in
  let businessUrl :=
    or_else (saleData !! "custom_fields[website]")
            (or_else (saleData !! "website") "Not provided") in
  let businessUrl :=
    Regex.replace_at_start Regex.scheme_www "" businessUrl in
  let amount :=
    match saleData !! "price" with
    | Some (String c p) =>
        Number.toFixed 2 (Number.parseInt (String c p) / 100)%float
    | _ => Number.Known "0.00"
    end in
  {| p_email := email; p_orderId := orderId; p_businessUrl := businessUrl;
     p_amount := amount;
     p_currency := or_else (saleData !! "currency") "ZAR" |}.

(** The object handed to [set]. *)
Definition sale_fields (p : parsed) (emailResult : email_result) : sale :=
  {| Effect.orderId := Some (p_orderId p);
     Effect.customerEmail := p_email p;
     Effect.businessUrl := Some (p_businessUrl p);
     Effect.amount := Some (Number.parseFloat_text (p_amount p));
     Effect.currency := Some (p_currency p);
     Effect.auditGenerated := Some true;
     Effect.emailDelivered := Some (success emailResult);
     Effect.timestamp := Some ServerTimestamp |}.

(** The [try] block of [handler]. *)
Definition handler_try (event : Event.t) : M response :=
  (* 2. Parse Gumroad data *)
  let p := parse (Event.body event) in
  console_log ["✅ Processing Order: " +:+ p_orderId p +:+ " for "
               +:+ show (p_email p)] ;;;
  (* 3. Generate & Send Audit *)
  auditContent <- generateAIaudit (p_businessUrl p) ;;
  emailResult <- sendAuditEmail (p_email p) (p_businessUrl p)
                                auditContent (p_orderId p) ;;
  (* 4. LOG TO FIREBASE (Critical) *)
  try_catch
    (sales_doc_set (p_orderId p) (sale_fields p emailResult) ;;;
     console_log ["📊 Sale logged to Firebase"])
    (fun firebaseError =>
       console_error ["Firebase log error:"; message firebaseError]) ;;;
  (* 5. Return success *)
  ret {| statusCode := 200;
         body := Complete (success emailResult)
                          "Cyrnel Origin audit workflow complete."
                          (p_orderId p) |}.

(** Netlify Function Handler *)
Definition handler (event : Event.t) : M response :=
  console_log ["🚀 Cyrnel Origin Process-Sale Triggered"] ;;;
  (* 1. Only accept POST *)
  if negb (String.eqb (Event.httpMethod event) "POST") then
    ret {| statusCode := 405; body := Failure "Method not allowed" |}
  else
    try_catch
      (handler_try event)
      (fun error =>
         console_error ["❌ Handler error:"; message error] ;;;
         ret {| statusCode := 500; body := Failure "Internal server error" |}).

End Invocation.

End ProcessSale.

(** ** get-dashboard: the dashboard reader *)

Module GetDashboard.
Import Effect.
Local Open Scope effect_scope.

Record env : Type := {
  DASHBOARD_SECRET_KEY : option string;    (* process.env.DASHBOARD_SECRET_KEY *)
  (** [get()] of the query: the documents of the collection in the order
      of [orderBy('timestamp', 'desc')], each with its id, or the fault. *)
  get_answer : result (list (string * sale))
}.

(** The text of a timestamp: [LocaleString t] stands for what
    [toLocaleString('en-ZA')] prints for the instant [t], a text that is
    never empty. *)
Inductive timestamp_text : Type :=
| NotAvailable                 (* 'N/A' *)
| LocaleString (millis : Z).

Record sale_view : Type := {
  id : string;
  orderId : string;
  customerEmail : string;
  businessUrl : string;
  amount : float;
  currency : string;
  auditGenerated : bool;
  emailDelivered : bool;
  timestamp : timestamp_text
}.

(** [successRate] is the number [0] or the text of [toFixed(1)]. *)
Inductive rate : Type :=
| RateNumber (n : Z)
| RateText (t : Number.number_text).

Record summary : Type := {
  totalRevenue : Number.number_text;
  totalSales : Z;
  successRate : rate;
  successfulDeliveries : Z
}.

Inductive response_body : Type :=
| Failure (error : string) (message : option string)
| Dashboard (summary_ : summary) (recentSales : list sale_view).

Record response : Type := {
  statusCode : Z;
  headers : list (string * string);
  body : response_body
}.

(** [x || d] for a number that may be [undefined]. *)
Definition number_or (x : option float) (d : float) : float :=
  match x with
  | Some v => if Number.truthy v then v else d
  | None => d
  end.

(** The three variables the [forEach] callback updates. *)
Record totals : Type := {
  t_recentSales : list sale_view;
  t_totalRevenue : float;
  t_successfulDeliveries : Z
}.

(** The object pushed on [recentSales] for one document. *)
Definition view (doc_id : string) (sale : Effect.sale) : sale_view :=
  {| id := doc_id;
     orderId := ProcessSale.or_else (Effect.orderId sale) doc_id;
     customerEmail := ProcessSale.or_else (Effect.customerEmail sale) "N/A";
     businessUrl := ProcessSale.or_else (Effect.businessUrl sale) "N/A";
     amount := number_or (Effect.amount sale) 0;
     currency := ProcessSale.or_else (Effect.currency sale) "ZAR";
     auditGenerated := default false (Effect.auditGenerated sale);
     emailDelivered := default false (Effect.emailDelivered sale);
     timestamp :=
       match Effect.timestamp sale with
       | Some (Timestamp t) => LocaleString t
       | _ => NotAvailable
       end |}.

(** The body of [salesSnap.forEach(doc => ...)] for one document. *)
Definition visit (acc : totals) (doc : string * sale) : totals :=
  let '(doc_id, sale) := doc in
  {| t_recentSales := t_recentSales acc ++ [view doc_id sale];
     t_totalRevenue :=
       match Effect.amount sale with
       | Some v =>
           if Number.truthy v then (t_totalRevenue acc + v)%float
           else t_totalRevenue acc
       | None => t_totalRevenue acc
       end;
     t_successfulDeliveries :=
       match Effect.emailDelivered sale with
       | Some true => t_successfulDeliveries acc + 1
       | _ => t_successfulDeliveries acc
       end |}.

Definition summarize (docs : list (string * sale)) : response_body :=
  let acc := fold_left visit docs
               {| t_recentSales := []; t_totalRevenue := 0;
                  t_successfulDeliveries := 0 |} in
  let totalSales := Z.of_nat (length (t_recentSales acc)) in
  let successRate :=
    if 0 <? totalSales then
      RateText (Number.toFixed 1
                  (Number.of_Z (t_successfulDeliveries acc)
                   / Number.of_Z totalSales * 100)%float)
    else RateNumber 0 in
  Dashboard
    {| totalRevenue := Number.toFixed 2 (t_totalRevenue acc);
       totalSales := totalSales;
       successRate := successRate;
       successfulDeliveries := t_successfulDeliveries acc |}
    (t_recentSales acc).

Section Invocation.
Variable E : env.

(** [db.collection('sales').orderBy('timestamp', 'desc').limit(50).get()] *)
Definition sales_query_get : M (list (string * sale)) :=
  record (QueryGet "sales" "timestamp" "desc" 50) ;;;
  docs <- lift (get_answer E) ;;
  ret (firstn 50 docs).

Definition handler (event : Event.t) : M response :=
  (* SECURITY CHECK *)
  if negb (bool_decide
             ((Event.queryStringParameters event ≫= (.!! "key"%string))
              = DASHBOARD_SECRET_KEY E))
  then ret {| statusCode := 401; headers := [];
              body := Failure "Unauthorized" None |}
  else
    try_catch
      (console_log ["📊 Dashboard data fetch requested"] ;;;
       (* Fetch last 50 sales *)
       salesSnap <- sales_query_get ;;
       (* Return the exact data structure the dashboard expects *)
       ret {| statusCode := 200;
              headers := [("Content-Type", "application/json")];
              body := summarize salesSnap |})
      (fun error =>
         console_error ["❌ Dashboard function error:"; Effect.message error] ;;;
         ret {| statusCode := 500; headers := [];
                body := Failure "Failed to fetch data"
                                (Some (Effect.message error)) |}).

End Invocation.

End GetDashboard.

(** ** Module initialisation: the service account

    Both files build the same object from the process environment before
    they hand it to [admin.credential.cert]. The environment is a map from
    variable names to strings; a variable that is not set is
    [undefined]. *)

Module Init.

(** [s.replace(/\\n/g, '\n')]: every backslash followed by ["n"] becomes a
    line feed; [skip] counts the characters of a match already replaced. *)
Fixpoint unescape_newlines (skip : nat) (s : string) : string :=
  match s with
  | EmptyString => EmptyString
  | String c s' =>
      match skip with
      | S k => unescape_newlines k s'
      | O =>
          if Ascii.eqb c "\" then
            match s' with
            | String d _ =>
                if Ascii.eqb d "n"
                then String (Text.char_of 10) (unescape_newlines 1 s')
                else String c (unescape_newlines 0 s')
            | EmptyString => String c (unescape_newlines 0 s')
            end
          else String c (unescape_newlines 0 s')
      end
  end.

Record service_account : Type := {
  type : option string;
  project_id : option string;
  private_key_id : option string;
  private_key : option string;
  client_email : option string;
  client_id : option string;
  auth_uri : option string;
  token_uri : option string;
  auth_provider_x509_cert_url : option string;
  client_x509_cert_url : option string;
  universe_domain : string
}.

Definition serviceAccount (env : gmap string string) : service_account :=
  {| type := env !! "FIREBASE_TYPE";
     project_id := env !! "FIREBASE_PROJECT_ID";
     private_key_id := env !! "FIREBASE_PRIVATE_KEY_ID";
     private_key := unescape_newlines 0 <$> env !! "FIREBASE_PRIVATE_KEY";
     client_email := env !! "FIREBASE_CLIENT_EMAIL";
     client_id := env !! "FIREBASE_CLIENT_ID";
     auth_uri := env !! "FIREBASE_AUTH_URI";
     token_uri := env !! "FIREBASE_TOKEN_URI";
     auth_provider_x509_cert_url := env !! "FIREBASE_AUTH_PROVIDER_X509_CERT_URL";
     client_x509_cert_url := env !! "FIREBASE_CLIENT_X509_CERT_URL";
     universe_domain :=
       ProcessSale.or_else (env !! "FIREBASE_UNIVERSE_DOMAIN") "googleapis.com" |}.

End Init.

(** * Specification-side definitions *)

(** The world after some more calls, the store untouched. *)
Definition extend (w : Effect.world) (calls : list Effect.call) : Effect.world :=
  {| Effect.sales := Effect.sales w; Effect.trace := Effect.trace w ++ calls |}.

(** The success envelope of the completion service exposes
    [choices[0].message.content]: the text found there, if the body has
    that shape. *)
Definition envelope_content (data : Js.value) : option string :=
  match data with
  | Js.Obj fields =>
      match Js.own fields "choices" with
      | Js.Arr (Js.Obj first :: _) =>
          match Js.own first "message" with
          | Js.Obj message =>
              match Js.own message "content" with
              | Js.Str content => Some content
              | _ => None
              end
          | _ => None
          end
      | _ => None
      end
  | _ => None
  end.

(** The last call of an invocation that reached the persistence step: the
    success line, or the line that reports the fault. *)
Definition persistence_line (answer : Effect.result Z) : Effect.call :=
  match answer with
  | Effect.Returned _ => Effect.Console Effect.log ["📊 Sale logged to Firebase"]
  | Effect.Thrown e =>
      Effect.Console Effect.error_level ["Firebase log error:"; Effect.message e]
  end.

(** The same invocation with another answer of the store to [set]. *)
Definition with_set_answer (answer : Effect.result Z) (E : ProcessSale.env)
  : ProcessSale.env :=
  {| ProcessSale.now := ProcessSale.now E;
     ProcessSale.GROQ_API_KEY := ProcessSale.GROQ_API_KEY E;
     ProcessSale.fetch_answer := ProcessSale.fetch_answer E;
     ProcessSale.send_answer := ProcessSale.send_answer E;
     ProcessSale.set_answer := answer |}.

(** The first line every invocation of the sale processor prints. *)
Definition triggered_line : Effect.call :=
  Effect.Console Effect.log ["🚀 Cyrnel Origin Process-Sale Triggered"].

(** Fixtures: an empty world, the notification of the end-to-end scenario,
    and an invocation in which generation fails, delivery succeeds and the
    write succeeds. *)
Definition empty_world : Effect.world :=
  {| Effect.sales := ∅; Effect.trace := [] |}.

Definition sample_event : Event.t :=
  {| Event.httpMethod := "POST";
     Event.body :=
       Some "email=a@b.com&sale_id=ORD-1&custom_fields[website]=https://www.acme.io&price=5000";
     Event.queryStringParameters := None |}.

Definition sample_get_event : Event.t :=
  {| Event.httpMethod := "GET";
     Event.body := None;
     Event.queryStringParameters := None |}.

Definition sample_env : ProcessSale.env :=
  {| ProcessSale.now := 1700000000000;
     ProcessSale.GROQ_API_KEY := Some "gsk";
     ProcessSale.fetch_answer := Effect.Thrown {| Effect.message := "fetch failed" |};
     ProcessSale.send_answer :=
       Effect.Returned {| Effect.data := Some "re_1"; Effect.error := None |};
     ProcessSale.set_answer := Effect.Returned 1700000000500 |}.

Definition sample_fault : Effect.Error :=
  {| Effect.message := "7 PERMISSION_DENIED" |}.


(** An invocation in which the completion service answers 200 with a body
    that has no choice in it. *)
Definition empty_choices : Js.value := Js.Obj [("choices"%string, Js.Arr [])].

Definition empty_choices_env : ProcessSale.env :=
  {| ProcessSale.now := 1700000000000;
     ProcessSale.GROQ_API_KEY := Some "gsk";
     ProcessSale.fetch_answer :=
       Effect.Returned {| Effect.status := 200;
                          Effect.json := Effect.Returned empty_choices |};
     ProcessSale.send_answer :=
       Effect.Returned {| Effect.data := Some "re_1"; Effect.error := None |};
     ProcessSale.set_answer := Effect.Returned 1700000000500 |}.

(** The key the request supplies: [event.queryStringParameters?.key]. *)
Definition supplied_key (event : Event.t) : option string :=
  Event.queryStringParameters event ≫= (.!! "key"%string).

(** A document with no field at all, and a dashboard invocation with no
    secret configured whose store holds only that document. *)
Definition bare_sale : Effect.sale :=
  {| Effect.orderId := None; Effect.customerEmail := None;
     Effect.businessUrl := None; Effect.amount := None;
     Effect.currency := None; Effect.auditGenerated := None;
     Effect.emailDelivered := None; Effect.timestamp := None |}.

Definition open_dashboard_env : GetDashboard.env :=
  {| GetDashboard.DASHBOARD_SECRET_KEY := None;
     GetDashboard.get_answer := Effect.Returned [("d1"%string, bare_sale)] |}.

Definition locked_dashboard_env : GetDashboard.env :=
  {| GetDashboard.DASHBOARD_SECRET_KEY := Some "s3cret"%string;
     GetDashboard.get_answer := Effect.Returned [("d1"%string, bare_sale)] |}.

Definition wrong_key_event : Event.t :=
  {| Event.httpMethod := "GET";
     Event.body := None;
     Event.queryStringParameters := Some {[ "key"%string := "guess"%string ]} |}.

(** The aggregates in the words of the specification. The amount of a
    record defaults to 0; the revenue is the sum of the amounts, added in
    the order of the records; a record counts as delivered when its
    [emailDelivered] is [true]; the rate is the percentage rounded to one
    decimal, half up, computed on integers: the number of tenths of a
    percent is [1000 * part / whole] rounded, and it is written with its
    last digit behind the point. *)
Definition amount_or_zero (r : Effect.sale) : float :=
  default 0%float (Effect.amount r).

Definition sum_amounts (records : list Effect.sale) : float :=
  fold_left (fun acc r => (acc + amount_or_zero r)%float) records 0%float.

Definition delivered (r : Effect.sale) : bool :=
  match Effect.emailDelivered r with
  | Some true => true
  | _ => false
  end.

Definition count_delivered (records : list Effect.sale) : Z :=
  Z.of_nat (length (List.filter delivered records)).

Definition one_decimal (tenths : N) : string :=
  Text.decimal_N (tenths / 10) +:+ "." +:+
  String (Text.digit_char (tenths mod 10)) EmptyString.

Definition percent_one_decimal (part whole : Z) : string :=
  one_decimal (Z.to_N ((2000 * part + whole) / (2 * whole))).

(** Two numbers that are the same but for the sign of a zero. *)
Definition zeroish (x : float) : bool :=
  match Prim2SF x with
  | S754_zero _ => true
  | _ => false
  end.

Definition same_number (x y : float) : Prop :=
  x = y \/ (zeroish x = true /\ zeroish y = true).

(** The rate computed in binary64, as the handler does, agrees with the
    rate computed on integers. *)
Definition rate_agrees (part whole : Z) : bool :=
  match Number.toFixed 1 (Number.of_Z part / Number.of_Z whole * 100)%float with
  | Number.Known s => String.eqb s (percent_one_decimal part whole)
  | Number.Shortest _ _ => false
  end.

(** Three records, two of them delivered. *)
Definition two_of_three : list (string * Effect.sale) :=
  let record (delivered : bool) (cents : float) : Effect.sale :=
    {| Effect.orderId := None; Effect.customerEmail := None;
       Effect.businessUrl := None; Effect.amount := Some cents;
       Effect.currency := None; Effect.auditGenerated := Some true;
       Effect.emailDelivered := Some delivered; Effect.timestamp := None |} in
  [("a"%string, record true 0x1.3fd70a3d70a3dp+4%float);     (* 19.99 *)
   ("b"%string, record false 0x1.9p+5%float);                (* 50 *)
   ("c"%string, record true 0x1.999999999999ap-4%float)].    (* 0.1 *)

Definition two_of_three_env : GetDashboard.env :=
  {| GetDashboard.DASHBOARD_SECRET_KEY := None;
     GetDashboard.get_answer := Effect.Returned two_of_three |}.

Definition empty_store_env : GetDashboard.env :=
  {| GetDashboard.DASHBOARD_SECRET_KEY := None;
     GetDashboard.get_answer := Effect.Returned [] |}.

(** The normalisation of businessUrl in the words of the specification:
    drop one leading scheme, ["https://"] or ["http://"], if there is one,
    then a leading ["www."], if there is one. *)
Definition without_prefix (prefix s : string) : string :=
  match Text.strip_prefix prefix s with
  | Some rest => rest
  | None => s
  end.

Definition without_scheme (s : string) : string :=
  match Text.strip_prefix "https://" s with
  | Some rest => rest
  | None => without_prefix "http://" s
  end.

Definition normalized (s : string) : string :=
  without_prefix "www." (without_scheme s).

(** The first of the candidates that is there and not empty. *)
Fixpoint first_present (candidates : list (option string)) (otherwise : string)
  : string :=
  match candidates with
  | [] => otherwise
  | Some (String c s) :: _ => String c s
  | _ :: rest => first_present rest otherwise
  end.

(** The amount in the words of the specification: the integer price in
    minor units divided by 100, written with 2 decimals. *)
Definition two_decimals (n : N) : string :=
  Text.decimal_N (n / 100) +:+ "." +:+
  String (Text.digit_char (n / 10 mod 10))
         (String (Text.digit_char (n mod 10)) EmptyString).

(** A string of decimal digits. *)
Fixpoint all_digits (s : string) : bool :=
  match s with
  | EmptyString => true
  | String c s' => Text.in_range 48 57 c && all_digits s'
  end.

(** A notification that carries only a price. *)
Definition price_only_body : option string := Some "price=1999"%string.

(** ** Definitions for the further properties *)

(** The calls of a trace that reach an outside service: everything but the
    console lines. *)
Definition is_console (c : Effect.call) : bool :=
  match c with
  | Effect.Console _ _ => true
  | _ => false
  end.

Definition service_calls (calls : list Effect.call) : list Effect.call :=
  List.filter (fun c => negb (is_console c)) calls.

(** The number of emails handed to the provider. *)
Definition is_send (c : Effect.call) : bool :=
  match c with
  | Effect.EmailsSend _ => true
  | _ => false
  end.

Definition emails_sent (calls : list Effect.call) : nat :=
  length (List.filter is_send calls).

(** The report is a JavaScript string. *)
Definition is_text (v : Js.value) : bool :=
  match v with
  | Js.Str _ => true
  | _ => false
  end.

(** The provider resolved with data and without an error. *)
Definition provider_accepts (answer : Effect.result Effect.send_response) : bool :=
  match answer with
  | Effect.Returned {| Effect.data := Some _; Effect.error := None |} => true
  | _ => false
  end.

(** Every character is a letter, a digit, ["-"] or ["_"]. *)
Fixpoint all_tag_safe (s : string) : bool :=
  match s with
  | EmptyString => true
  | String c s' => Regex.tag_safe c && all_tag_safe s'
  end.

(** The line feed, and a string without one. *)
Definition line_feed : ascii := Text.char_of 10.

Fixpoint no_line_feed (s : string) : bool :=
  match s with
  | EmptyString => true
  | String c s' => negb (Ascii.eqb c line_feed) && no_line_feed s'
  end.

(** Writing a text on one line, as an environment variable holds a key:
    each line feed becomes a backslash followed by ["n"]. *)
Fixpoint escape_newlines (s : string) : string :=
  match s with
  | EmptyString => EmptyString
  | String c s' =>
      if Ascii.eqb c line_feed
      then String "\" (String "n" (escape_newlines s'))
      else String c (escape_newlines s')
  end.

(** No backslash is followed by ["n"]. *)
Fixpoint no_backslash_n (s : string) : bool :=
  match s with
  | EmptyString => true
  | String c s' =>
      negb (Ascii.eqb c "\"
            && match s' with
               | String d _ => Ascii.eqb d "n"
               | EmptyString => false
               end)
      && no_backslash_n s'
  end.

(** The prefixes the normalisation of businessUrl can remove. *)
Definition removable_prefixes : list string :=
  [""; "www."; "http://"; "http://www."; "https://"; "https://www."]%string.


(** A field of the notification that is absent or empty. *)
Definition absent (x : option string) : bool :=
  match x with
  | Some (String _ _) => false
  | _ => true
  end.

(** An ASCII letter. *)
Definition is_letter (c : ascii) : bool :=
  (Text.in_range 65 90 c || Text.in_range 97 122 c)%bool.

(** A notification whose price is not a number, and the document the
    sample notification leaves in the store. *)
Definition letter_price_body : option string := Some "price=free"%string.

Definition sample_recorded : Effect.sale :=
  {| Effect.orderId := Some "ORD-1"%string;
     Effect.customerEmail := Some "a@b.com"%string;
     Effect.businessUrl := Some "acme.io"%string;
     Effect.amount := Some 50%float;
     Effect.currency := Some "ZAR"%string;
     Effect.auditGenerated := Some true;
     Effect.emailDelivered := Some true;
     Effect.timestamp := Some (Effect.Timestamp 1700000000500) |}.

(** A dashboard invocation, no secret configured, whose query returns the
    given documents. *)
Definition reading (docs : list (string * Effect.sale)) : GetDashboard.env :=
  {| GetDashboard.DASHBOARD_SECRET_KEY := None;
     GetDashboard.get_answer := Effect.Returned docs |}.

(** A string in which [sep] does not occur. *)
Fixpoint free_of (sep : ascii) (s : string) : bool :=
  match s with
  | EmptyString => true
  | String c s' => negb (Ascii.eqb c sep) && free_of sep s'
  end.

(** A name or value that the form encoding leaves as it is: ASCII
    characters other than ["+"], ["%"], ["&"] and ["="]. *)
Definition plain_char (c : ascii) : bool :=
  (N.leb (Text.byte_of c) 127
   && negb (Ascii.eqb c "+") && negb (Ascii.eqb c "%")
   && negb (Ascii.eqb c "&") && negb (Ascii.eqb c "="))%bool.

Fixpoint plain (s : string) : bool :=
  match s with
  | EmptyString => true
  | String c s' => plain_char c && plain s'
  end.

(** A key text of two lines, and a process environment that holds it on
    one line. *)
Definition sample_key : string :=
  "-----BEGIN KEY-----" +:+ String line_feed "-----END KEY-----".

Definition sample_process_env : gmap string string :=
  {[ "FIREBASE_PRIVATE_KEY"%string := escape_newlines sample_key ]}.

(** The amended reading of the revenue: an amount that is missing or NaN
    counts as 0. *)
Definition counted_amount (r : Effect.sale) : float :=
  match Effect.amount r with
  | Some v => if is_nan v then 0%float else v
  | None => 0%float
  end.

Definition sum_counted (records : list Effect.sale) : float :=
  fold_left (fun acc r => (acc + counted_amount r)%float) records 0%float.

(** Two records, the first with the amount NaN (as the sale processor
    writes it for a price that is not a number), the second with 19.99. *)
Definition nan_then_19_99 : list (string * Effect.sale) :=
  let record (cents : float) : Effect.sale :=
    {| Effect.orderId := None; Effect.customerEmail := None;
       Effect.businessUrl := None; Effect.amount := Some cents;
       Effect.currency := None; Effect.auditGenerated := Some true;
       Effect.emailDelivered := Some true; Effect.timestamp := None |} in
  [("a"%string, record nan);
   ("b"%string, record 0x1.3fd70a3d70a3dp+4%float)].             (* 19.99 *)

Definition nan_then_19_99_env : GetDashboard.env :=
  {| GetDashboard.DASHBOARD_SECRET_KEY := None;
     GetDashboard.get_answer := Effect.Returned nan_then_19_99 |}.

(** The form encoding in the words of the URL standard: the
    application/x-www-form-urlencoded serializer. A byte that is a letter,
    a digit or one of ["*"], ["-"], ["."], ["_"] is written as it is, a
    space as ["+"], and every other byte as ["%"] followed by its two
    hexadecimal digits; a field is its name, ["="] and its value; fields are
    joined by ["&"]. *)
Definition hex_digit (d : N) : ascii :=
  Text.char_of (if N.ltb d 10 then 48 + d else 55 + d).

Definition unreserved (c : ascii) : bool :=
  (Text.in_range 48 57 c || Text.in_range 65 90 c || Text.in_range 97 122 c
   || Ascii.eqb c "*" || Ascii.eqb c "-" || Ascii.eqb c "." || Ascii.eqb c "_")%bool.

Definition encode_byte (c : ascii) : string :=
  if unreserved c then String c EmptyString
  else if Ascii.eqb c " " then "+"
  else String "%" (String (hex_digit (Text.byte_of c / 16))
                     (String (hex_digit (Text.byte_of c mod 16)) EmptyString)).

Fixpoint encode_component (s : string) : string :=
  match s with
  | EmptyString => EmptyString
  | String c s' => encode_byte c +:+ encode_component s'
  end.

Definition encode_field (field : string * string) : string :=
  encode_component field.1 +:+ String "=" (encode_component field.2).

Fixpoint form_encode (fields : list (string * string)) : string :=
  match fields with
  | [] => EmptyString
  | field :: rest =>
      match rest with
      | [] => encode_field field
      | _ :: _ => encode_field field +:+ String "&" (form_encode rest)
      end
  end.

(** Well-formed UTF-8, by the table of the Unicode standard: one byte up to
    0x7F; a lead byte 0xC2..0xDF and one continuation byte; a lead byte
    0xE0..0xEF and two (the first from 0xA0 after 0xE0 and up to 0x9F after
    0xED); a lead byte 0xF0..0xF4 and three (the first from 0x90 after 0xF0
    and up to 0x8F after 0xF4). *)
Fixpoint well_formed (s : string) : bool :=
  match s with
  | EmptyString => true
  | String a r1 =>
      let x := Text.byte_of a in
      if N.leb x 127 then well_formed r1
      else
        match r1 with
        | String b r2 =>
            if Text.in_range 194 223 a then
              Text.in_range 128 191 b && well_formed r2
            else
              match r2 with
              | String c r3 =>
                  if Text.in_range 224 239 a then
                    Text.in_range (if N.eqb x 224 then 160 else 128)
                                  (if N.eqb x 237 then 159 else 191) b
                    && Text.in_range 128 191 c && well_formed r3
                  else
                    match r3 with
                    | String d r4 =>
                        Text.in_range 240 244 a
                        && Text.in_range (if N.eqb x 240 then 144 else 128)
                                         (if N.eqb x 244 then 143 else 191) b
                        && Text.in_range 128 191 c && Text.in_range 128 191 d
                        && well_formed r4
                    | EmptyString => false
                    end
              | EmptyString => false
              end
        | EmptyString => false
        end
  end.

Definition well_formed_field (field : string * string) : bool :=
  well_formed field.1 && well_formed field.2.

(** The value of a name among the fields: that of the last field with the
    name. *)
Fixpoint field_value (fields : list (string * string)) (name : string)
  : option string :=
  match fields with
  | [] => None
  | (n, v) :: rest =>
      match field_value rest name with
      | Some later => Some later
      | None => if String.eqb n name then Some v else None
      end
  end.

(** A notification as Gumroad posts it, and a price no binary64 number
    holds. *)
Definition posted_fields : list (string * string) :=
  [("email", "a b@c.com"); ("sale_id", "ORD-1");
   ("custom_fields[website]", "https://www.acme.io/?q=1&r=2");
   ("price", "1999")]%string.

Definition large_price_body : option string :=
  Some "price=9007199254740993"%string.

(** * Worked examples *)

Example decimal_Z_ex : Text.decimal_Z 1700000000123 = "1700000000123"%string.
Proof. vm_compute. reflexivity. Qed.

Example parse_urlencoded_ex :
  Url.parse_urlencoded "a=1&&b=x+y%21&c&a=2=3&d=%C3%A9%FF"
  = [("a", "1"); ("b", "x y!"); ("c", ""); ("a", "2=3");
     ("d", String (Text.char_of 195) (String (Text.char_of 169) Url.replacement))]%string.
Proof. vm_compute. reflexivity. Qed.

Example fromEntries_last_wins :
  Url.fromEntries [("a", "1"); ("b", "2"); ("a", "3")]%string !! "a"%string
  = Some "3"%string.
Proof. vm_compute. reflexivity. Qed.

Example toFixed_19_99 :
  Number.toFixed 2 (Number.parseInt "1999" / 100)%float = Number.Known "19.99".
Proof. vm_compute. reflexivity. Qed.

Example toFixed_ties_and_signs :
  Number.toFixed 0 0x1.4p+1%float = Number.Known "3"            (* 2.5 *)
  /\ Number.toFixed 2 0x1.0147ae147ae14p+0%float = Number.Known "1.00"   (* 1.005 *)
  /\ Number.toFixed 2 (- 0)%float = Number.Known "0.00"
  /\ Number.toFixed 2 (Number.parseInt "abc" / 100)%float = Number.Known "NaN".
Proof. vm_compute. repeat split; reflexivity. Qed.

(** * Text lemmas *)

Lemma strip_prefix_app (p s : string) : Text.strip_prefix p (p +:+ s) = Some s.
Proof.
  induction p as [|c p IH]; simpl; [reflexivity|].
  rewrite Ascii.eqb_refl. exact IH.
Qed.

Lemma contains_app (needle a b : string) :
  Text.contains needle (a +:+ needle +:+ b) = true.
Proof.
  induction a as [|c a IH].
  - simpl. destruct (needle +:+ b) eqn:Hs; simpl;
      rewrite <- Hs, strip_prefix_app; reflexivity.
  - simpl. destruct (Text.strip_prefix needle (String c (a +:+ needle +:+ b)));
      [reflexivity | exact IH].
Qed.

(** * The report generator *)

(** Unfolds the operations of the effect monad, so that a computation
    becomes a function of the world that can be run by case analysis on
    the answers of the outside. *)
Ltac run_effects :=
  unfold Effect.try_catch, Effect.bind, Effect.console_log,
    Effect.console_error, Effect.record, Effect.lift, Effect.ret,
    Effect.throw, extend.

(** Closes a goal [exists v calls, (forall w, c w = (Returned v, extend w
    calls)) /\ v = ...] once [c w] has been computed: the calls are read off
    the trace. *)
Ltac read_off_run :=
  eexists _, _; split; [intros ?w; repeat rewrite <- app_assoc|]; reflexivity.

Section ReportGenerator.
Import Effect ProcessSale.
Variable E : env.

Lemma placeholder_embeds (businessUrl : string) :
  Text.contains businessUrl (placeholder businessUrl) = true.
Proof.
  exact (contains_app businessUrl
           "**AI-Powered Business Automation Audit for "
           ("**" +:+ String (Text.char_of 10) (String (Text.char_of 10)
              "Your audit is being finalized and will be delivered shortly."))).
Qed.

(** What [generateAIaudit] returns, read off the answer of the service. *)
Lemma generateAIaudit_runs (businessUrl : string) :
  exists v calls,
    (forall w, generateAIaudit E businessUrl w = (Returned v, extend w calls))
    /\ v = match fetch_answer E with
           | Thrown _ => Js.Str (placeholder businessUrl)
           | Returned response =>
               if negb (ok response) then Js.Str (placeholder businessUrl)
               else
                 match json response with
                 | Thrown _ => Js.Str (placeholder businessUrl)
                 | Returned data =>
                     if (Js.nullish data
                         || Js.nullish (Js.member "choices" data))%bool
                     then Js.Str (placeholder businessUrl)
                     else
                       Js.or (read_opt (Js.member "content")
                                (read_opt (Js.member "message")
                                   (Js.index0 (Js.member "choices" data))))
                             (Js.Str "Audit generation completed.")
                 end
           end.
Proof.
  remember (placeholder businessUrl) as ph eqn:Hph.
  unfold generateAIaudit, fetch, read. run_effects. rewrite <- Hph.
  destruct (fetch_answer E) as [response|e]; simpl; [|read_off_run].
  destruct (ok response); simpl; [|read_off_run].
  destruct (json response) as [data|e]; simpl; [|read_off_run].
  destruct (Js.nullish data) eqn:Hd; simpl; [read_off_run|].
  destruct (Js.nullish (Js.member "choices" data)) eqn:Hc; simpl; read_off_run.
Qed.

(** C2 (amended): for every businessUrl, whatever the completion service
    does, [generateAIaudit] returns and never throws, and leaves the store
    alone. It returns the templated placeholder, which embeds businessUrl,
    when [fetch] rejects, when the status is not a success, when the body
    does not parse, and when the parsed body is [null] or has no [choices]
    to index. Otherwise it returns [choices[0]?.message?.content] when that
    is truthy and the fixed text "Audit generation completed." when it is
    absent or falsy. *)
Theorem generateAIaudit_never_throws (businessUrl : string) (w : world) :
  exists v calls,
    generateAIaudit E businessUrl w = (Returned v, extend w calls)
    /\ Text.contains businessUrl (placeholder businessUrl) = true
    /\ v = match fetch_answer E with
           | Thrown _ => Js.Str (placeholder businessUrl)
           | Returned response =>
               if negb (ok response) then Js.Str (placeholder businessUrl)
               else
                 match json response with
                 | Thrown _ => Js.Str (placeholder businessUrl)
                 | Returned data =>
                     if (Js.nullish data
                         || Js.nullish (Js.member "choices" data))%bool
                     then Js.Str (placeholder businessUrl)
                     else
                       Js.or (read_opt (Js.member "content")
                                (read_opt (Js.member "message")
                                   (Js.index0 (Js.member "choices" data))))
                             (Js.Str "Audit generation completed.")
                 end
           end.
Proof.
  destruct (generateAIaudit_runs businessUrl) as (v & calls & Hrun & Hv).
  exists v, calls. split; [apply Hrun|]. split; [apply placeholder_embeds | exact Hv].
Qed.

(** The delivery notifier returns and never throws, whatever it is given
    and whatever the provider does. *)
Lemma sendAuditEmail_runs (customerEmail : option string) (businessUrl : string)
      (auditContent : Js.value) (orderId : string) :
  exists r calls,
    forall w, sendAuditEmail E customerEmail businessUrl auditContent orderId w
              = (Returned r, extend w calls).
Proof.
  unfold sendAuditEmail, emails_send. run_effects.
  destruct auditContent; simpl;
    try (eexists _, _; intros w; reflexivity).
  destruct (send_answer E) as [answer|e]; simpl.
  2:{ eexists _, _. intros w. rewrite <- !app_assoc. reflexivity. }
  destruct (Effect.error answer) as [e|]; simpl.
  { eexists _, _. intros w. rewrite <- !app_assoc. reflexivity. }
  destruct (data answer) as [id|]; simpl;
    eexists _, _; intros w; rewrite <- !app_assoc; reflexivity.
Qed.

End ReportGenerator.

(** * The intake workflow *)

Section Intake.
Import Effect ProcessSale.
Variable E : env.

(** The [try] block in closed form: it returns the 200 response built from
    the delivery result; the store changes exactly when the write
    succeeds. *)
Lemma handler_try_runs (event : Event.t) :
  let p := parse E (Event.body event) in
  exists auditContent emailResult pre,
    (forall w, fst (generateAIaudit E (p_businessUrl p) w) = Returned auditContent)
    /\ (forall w, fst (sendAuditEmail E (p_email p) (p_businessUrl p)
                         auditContent (p_orderId p) w) = Returned emailResult)
    /\ forall w,
        handler_try E event w
        = (Returned {| statusCode := 200;
                       body := Complete (success emailResult)
                                 "Cyrnel Origin audit workflow complete."
                                 (p_orderId p) |},
           {| sales :=
                match set_answer E with
                | Returned t =>
                    <[p_orderId p := stored t (sale_fields p emailResult)]> (sales w)
                | Thrown _ => sales w
                end;
              trace := trace w ++ pre
                       ++ [DocSet "sales" (p_orderId p) (sale_fields p emailResult);
                           persistence_line (set_answer E)] |}).
Proof.
  intros p.
  destruct (generateAIaudit_runs E (p_businessUrl p)) as (audit & c1 & Hgen & _).
  destruct (sendAuditEmail_runs E (p_email p) (p_businessUrl p) audit (p_orderId p))
    as (r & c2 & Hsend).
  exists audit, r.
  eexists (_ :: c1 ++ c2).
  split; [intros w; rewrite Hgen; reflexivity|].
  split; [intros w; rewrite Hsend; reflexivity|].
  intros w. unfold handler_try. fold p.
  unfold bind at 1. unfold console_log at 1, record at 1. cbv beta iota.
  unfold bind at 1. rewrite Hgen.
  unfold bind at 1. rewrite Hsend.
  unfold bind, try_catch, sales_doc_set, console_log, console_error, record,
    ret, extend, persistence_line.
  destruct (set_answer E) as [t|e]; simpl;
    (f_equal; f_equal; repeat rewrite <- app_assoc; reflexivity).
Qed.

(** The handler in closed form, on either side of the method check. *)
Lemma handler_runs (event : Event.t) (w : world) :
  handler E event w
  = if String.eqb (Event.httpMethod event) "POST"
    then handler_try E event (extend w [triggered_line])
    else (Returned {| statusCode := 405; body := Failure "Method not allowed" |},
          extend w [triggered_line]).
Proof.
  unfold handler. unfold bind at 1, console_log at 1, record at 1. cbv beta iota.
  change {| sales := sales w;
            trace := trace w ++ [Console log ["🚀 Cyrnel Origin Process-Sale Triggered"]] |}
    with (extend w [triggered_line]).
  destruct (String.eqb (Event.httpMethod event) "POST"); simpl; [|reflexivity].
  destruct (handler_try_runs event) as (a & r & pre & _ & _ & Hrun).
  unfold try_catch. rewrite Hrun. reflexivity.
Qed.

End Intake.

Section IntakeProperties.
Import Effect ProcessSale.

(** C1: when the invocation reaches the persistence step (the method is
    POST), a failing ledger write is caught and logged locally and the
    fault does not reach the caller: the handler returns status 200 with
    the body [{success, message, order_id}], where [success] is what the
    delivery notifier returned and [order_id] is the parsed orderId, and
    this is the very response returned when the write succeeds. The
    failed write leaves the store as it was. *)
Theorem ledger_fault_is_swallowed (E : env) (event : Event.t) (w : world)
        (fault : Error) (t : Z) :
  Event.httpMethod event = "POST" ->
  let p := parse E (Event.body event) in
  exists auditContent emailResult w_fault w_written,
    (forall w0, fst (generateAIaudit E (p_businessUrl p) w0) = Returned auditContent)
    /\ (forall w0, fst (sendAuditEmail E (p_email p) (p_businessUrl p)
                          auditContent (p_orderId p) w0) = Returned emailResult)
    /\ handler (with_set_answer (Thrown fault) E) event w
       = (Returned {| statusCode := 200;
                      body := Complete (success emailResult)
                                "Cyrnel Origin audit workflow complete."
                                (p_orderId p) |}, w_fault)
    /\ handler (with_set_answer (Returned t) E) event w
       = (Returned {| statusCode := 200;
                      body := Complete (success emailResult)
                                "Cyrnel Origin audit workflow complete."
                                (p_orderId p) |}, w_written)
    /\ sales w_fault = sales w
    /\ last (trace w_fault)
       = Some (Console error_level ["Firebase log error:"; message fault]).
Proof.
  intros Hpost p.
  destruct (handler_try_runs (with_set_answer (Thrown fault) E) event)
    as (a & r & pre & Hgen & Hsend & Hrun).
  destruct (handler_try_runs (with_set_answer (Returned t) E) event)
    as (a' & r' & pre' & Hgen' & Hsend' & Hrun').
  change (parse (with_set_answer (Thrown fault) E) (Event.body event)) with p in *.
  change (parse (with_set_answer (Returned t) E) (Event.body event)) with p in *.
  assert (a' = a) as ->.
  { specialize (Hgen empty_world). specialize (Hgen' empty_world).
    change (generateAIaudit (with_set_answer (Returned t) E))
      with (generateAIaudit (with_set_answer (Thrown fault) E)) in Hgen'.
    congruence. }
  assert (r' = r) as ->.
  { specialize (Hsend empty_world). specialize (Hsend' empty_world).
    change (sendAuditEmail (with_set_answer (Returned t) E))
      with (sendAuditEmail (with_set_answer (Thrown fault) E)) in Hsend'.
    congruence. }
  exists a, r. eexists _, _.
  split; [exact Hgen|]. split; [exact Hsend|].
  rewrite !handler_runs, Hpost. simpl String.eqb. cbv iota.
  rewrite Hrun, Hrun'. simpl set_answer. cbv iota.
  split; [reflexivity|]. split; [reflexivity|]. split; [reflexivity|].
  cbn [trace extend sales persistence_line].
  rewrite !last_app. reflexivity.
Qed.

Lemma ledger_fault_is_swallowed_witness :
  Event.httpMethod sample_event = "POST"
  /\ exists response w_fault w_written,
       handler (with_set_answer (Thrown sample_fault) sample_env) sample_event
               empty_world = (Returned response, w_fault)
       /\ handler (with_set_answer (Returned 5) sample_env) sample_event
                  empty_world = (Returned response, w_written)
       /\ statusCode response = 200
       /\ sales w_fault = ∅.
Proof.
  split; [reflexivity|].
  destruct (ledger_fault_is_swallowed sample_env sample_event empty_world
              sample_fault 5 eq_refl)
    as (a & r & wf & ww & _ & _ & Hf & Hw & Hs & _).
  eexists _, wf, ww. split; [exact Hf|]. split; [exact Hw|].
  split; [reflexivity | exact Hs].
Defined.

(** C3: the outcome of the intake handler is decided by the method and
    by nothing else. A method other than POST is answered with status 405
    and the only thing that happened is the first console line: no
    generation call, no email, no store write. A POST is answered with
    status 200, the response of the [try] block, whatever the delivery
    result. Status 500 can come only from a fault thrown by the [try]
    block (and the block throws none, so no request is answered 500). *)
Theorem handler_status_mapping (E : env) (event : Event.t) (w : world) :
  exists response w',
    handler E event w = (Returned response, w')
    /\ (Event.httpMethod event <> "POST" ->
        response = {| statusCode := 405; body := Failure "Method not allowed" |}
        /\ sales w' = sales w
        /\ trace w' = trace w ++ [triggered_line])
    /\ (Event.httpMethod event = "POST" ->
        statusCode response = 200
        /\ handler_try E event (extend w [triggered_line]) = (Returned response, w'))
    /\ (statusCode response = 500 ->
        exists fault,
          fst (handler_try E event (extend w [triggered_line])) = Thrown fault).
Proof.
  rewrite handler_runs.
  destruct (String.eqb (Event.httpMethod event) "POST") eqn:Hm.
  - apply String.eqb_eq in Hm.
    destruct (handler_try_runs E event) as (a & r & pre & _ & _ & Hrun).
    rewrite Hrun. eexists _, _. split; [reflexivity|].
    split; [intros Hne; contradiction|].
    split; [intros _; split; reflexivity|].
    simpl. intros H; discriminate H.
  - apply String.eqb_neq in Hm.
    eexists _, _. split; [reflexivity|].
    split; [intros _; repeat split|].
    split; [intros Heq; contradiction|].
    simpl. intros H; discriminate H.
Qed.

Lemma handler_status_mapping_witness :
  Event.httpMethod sample_get_event <> "POST"
  /\ exists w',
       handler sample_env sample_get_event empty_world
       = (Returned {| statusCode := 405; body := Failure "Method not allowed" |}, w')
       /\ sales w' = ∅ /\ trace w' = [triggered_line].
Proof.
  split; [discriminate|].
  destruct (handler_status_mapping sample_env sample_get_event empty_world)
    as (resp & w' & Hrun & H405 & _).
  destruct H405 as (-> & Hs & Ht); [discriminate|].
  exists w'. split; [exact Hrun|]. split; [exact Hs | exact Ht].
Defined.

(** C4: for every POST body, the record handed to the store has
    [auditGenerated] true, whatever happened to the generation (the
    flag is a constant), and its [emailDelivered] is the [success] of the
    response of the same invocation; when the write succeeds, that is the
    record found in the store under the orderId. *)
Theorem persisted_flags (E : env) (event : Event.t) (w : world) :
  Event.httpMethod event = "POST" ->
  exists delivered order_id written w',
    handler E event w
    = (Returned {| statusCode := 200;
                   body := Complete delivered
                             "Cyrnel Origin audit workflow complete." order_id |},
       w')
    /\ DocSet "sales" order_id written ∈ trace w'
    /\ auditGenerated written = Some true
    /\ emailDelivered written = Some delivered
    /\ (forall t, set_answer E = Returned t ->
        exists persisted,
          sales w' !! order_id = Some persisted
          /\ auditGenerated persisted = Some true
          /\ emailDelivered persisted = Some delivered).
Proof.
  intros Hpost.
  destruct (handler_try_runs E event) as (a & r & pre & _ & _ & Hrun).
  rewrite handler_runs, Hpost. simpl String.eqb. cbv iota. rewrite Hrun.
  eexists _, _, _, _. split; [reflexivity|].
  split.
  { cbn [trace]. rewrite !elem_of_app. right. right. apply list_elem_of_here. }
  split; [reflexivity|]. split; [reflexivity|].
  intros t Ht. cbn [sales]. rewrite Ht.
  eexists. split; [apply lookup_insert_eq|]. split; reflexivity.
Qed.

Lemma persisted_flags_witness :
  Event.httpMethod sample_event = "POST"
  /\ exists delivered persisted w',
       fst (handler sample_env sample_event empty_world)
       = Returned {| statusCode := 200;
                     body := Complete delivered
                               "Cyrnel Origin audit workflow complete." "ORD-1" |}
       /\ sales w' !! "ORD-1"%string = Some persisted
       /\ auditGenerated persisted = Some true
       /\ emailDelivered persisted = Some delivered.
Proof.
  split; [reflexivity|].
  destruct (persisted_flags sample_env sample_event empty_world eq_refl)
    as (d & oid & written & w' & Hrun & _ & _ & _ & Hstore).
  destruct (Hstore _ eq_refl) as (persisted & Hl & Ha & He).
  assert (oid = "ORD-1"%string) as ->.
  { assert (H := f_equal fst Hrun). vm_compute in H. congruence. }
  exists d, persisted, w'. rewrite Hrun. auto.
Defined.




End IntakeProperties.

(** A body with no choice in it is not the success envelope, and yet the
    report is not the placeholder: it is the fixed text "Audit generation
    completed.", which does not embed the businessUrl. *)
Lemma generateAIaudit_empty_choices :
  envelope_content empty_choices = None
  /\ fst (ProcessSale.generateAIaudit empty_choices_env "example.com" empty_world)
     = Effect.Returned (Js.Str "Audit generation completed.")
  /\ Js.Str "Audit generation completed."
     <> Js.Str (ProcessSale.placeholder "example.com")
  /\ Text.contains "example.com" "Audit generation completed." = false.
Proof.
  split; [reflexivity|]. split; [reflexivity|].
  split; [discriminate | reflexivity].
Qed.

(** * The summary aggregator *)

Section Aggregator.
Import Effect GetDashboard.

(** The dashboard handler in closed form. *)
Lemma dashboard_handler_runs (E : env) (event : Event.t) (w : world) :
  handler E event w
  = if bool_decide (supplied_key event = DASHBOARD_SECRET_KEY E) then
      match get_answer E with
      | Returned docs =>
          (Returned {| statusCode := 200;
                       headers := [("Content-Type", "application/json")];
                       body := summarize (firstn 50 docs) |},
           extend w [Console log ["📊 Dashboard data fetch requested"];
                     QueryGet "sales" "timestamp" "desc" 50])
      | Thrown e =>
          (Returned {| statusCode := 500; headers := [];
                       body := Failure "Failed to fetch data" (Some (message e)) |},
           extend w [Console log ["📊 Dashboard data fetch requested"];
                     QueryGet "sales" "timestamp" "desc" 50;
                     Console error_level ["❌ Dashboard function error:"; message e]])
      end
    else (Returned {| statusCode := 401; headers := [];
                      body := Failure "Unauthorized" None |}, w).
Proof.
  unfold handler, supplied_key.
  destruct (bool_decide _); simpl; [|reflexivity].
  unfold try_catch, sales_query_get, bind, console_log, console_error, record,
    lift, ret, extend.
  destruct (get_answer E) as [docs|e]; simpl;
    repeat rewrite <- app_assoc; reflexivity.
Qed.

(** C8: when the supplied key differs from the configured secret, the
    handler answers 401 and the world is exactly as before: no read of the
    store was made (nor anything else); the check comes first. *)
Theorem unauthorized_reads_nothing (E : env) (event : Event.t) (w : world) :
  supplied_key event <> DASHBOARD_SECRET_KEY E ->
  handler E event w
  = (Returned {| statusCode := 401; headers := [];
                 body := Failure "Unauthorized" None |}, w).
Proof.
  intros Hne. rewrite dashboard_handler_runs.
  rewrite bool_decide_eq_false_2 by exact Hne. reflexivity.
Qed.

Lemma unauthorized_reads_nothing_witness :
  supplied_key wrong_key_event <> DASHBOARD_SECRET_KEY locked_dashboard_env
  /\ handler locked_dashboard_env wrong_key_event empty_world
     = (Returned {| statusCode := 401; headers := [];
                    body := Failure "Unauthorized" None |}, empty_world).
Proof.
  assert (supplied_key wrong_key_event <> DASHBOARD_SECRET_KEY locked_dashboard_env)
    as Hne by (vm_compute; discriminate).
  split; [exact Hne|].
  exact (unauthorized_reads_nothing locked_dashboard_env wrong_key_event
           empty_world Hne).
Defined.

(** C10: the gate is the plain equality test of the supplied key with
    the configured secret: the answer is 401 exactly when they differ. So
    with no secret configured and no key supplied the check passes, the
    store is read, and a successful read gives the full 200 data response. *)
Theorem gate_is_equality (E : env) (event : Event.t) (w : world) :
  (exists response w',
     handler E event w = (Returned response, w')
     /\ (statusCode response = 401 <-> supplied_key event <> DASHBOARD_SECRET_KEY E))
  /\ (DASHBOARD_SECRET_KEY E = None -> supplied_key event = None ->
      forall docs, get_answer E = Returned docs ->
        handler E event w
        = (Returned {| statusCode := 200;
                       headers := [("Content-Type", "application/json")];
                       body := summarize (firstn 50 docs) |},
           extend w [Console log ["📊 Dashboard data fetch requested"];
                     QueryGet "sales" "timestamp" "desc" 50])).
Proof.
  rewrite dashboard_handler_runs. split.
  - destruct (bool_decide_reflect (supplied_key event = DASHBOARD_SECRET_KEY E))
      as [Heq|Hne].
    + destruct (get_answer E) as [docs|e]; eexists _, _;
        (split; [reflexivity|]); simpl;
        (split; [intros H; discriminate H | intros H; contradiction]).
    + eexists _, _. split; [reflexivity|]. simpl. split; [auto | reflexivity].
  - intros Hsecret Hkey docs Hdocs.
    rewrite Hsecret, Hkey, Hdocs. reflexivity.
Qed.

Lemma gate_is_equality_witness :
  DASHBOARD_SECRET_KEY open_dashboard_env = None
  /\ supplied_key sample_get_event = None
  /\ exists s views w',
       handler open_dashboard_env sample_get_event empty_world
       = (Returned {| statusCode := 200;
                      headers := [("Content-Type", "application/json")];
                      body := Dashboard s views |}, w')
       /\ length views = 1%nat.
Proof.
  split; [reflexivity|]. split; [reflexivity|].
  destruct (gate_is_equality open_dashboard_env sample_get_event empty_world)
    as [_ Hopen].
  specialize (Hopen eq_refl eq_refl _ eq_refl).
  eexists _, _, _. split; [exact Hopen | reflexivity].
Defined.

(** What the loop leaves in [recentSales] and in the delivery counter. *)
Lemma fold_visit_recentSales (docs : list (string * sale)) (acc : totals) :
  t_recentSales (fold_left visit docs acc)
  = t_recentSales acc ++ map (fun doc => view doc.1 doc.2) docs.
Proof.
  revert acc. induction docs as [|[doc_id r] docs IH]; intros acc; simpl.
  - rewrite app_nil_r. reflexivity.
  - rewrite IH. simpl. rewrite <- app_assoc. reflexivity.
Qed.

Lemma fold_visit_deliveries (docs : list (string * sale)) (acc : totals) :
  t_successfulDeliveries (fold_left visit docs acc)
  = t_successfulDeliveries acc + count_delivered (map snd docs).
Proof.
  revert acc. induction docs as [|[doc_id r] docs IH]; intros acc.
  - unfold count_delivered. simpl. lia.
  - simpl fold_left. rewrite IH. unfold count_delivered, delivered. simpl.
    destruct (Effect.emailDelivered r) as [[|]|]; simpl length; lia.
Qed.

(** C9 (amended): every returned record is projected by [view], which
    fills in what the record lacks: the document id for a missing orderId,
    "N/A" for a missing customerEmail, "N/A" for a missing businessUrl,
    0 for a missing amount, "ZAR" for a missing currency, false for a
    missing flag, and N/A for an absent timestamp. *)
Theorem view_defaults (E : env) (event : Event.t) (w : world)
        (docs : list (string * sale)) :
  supplied_key event = DASHBOARD_SECRET_KEY E ->
  get_answer E = Returned docs ->
  exists s views,
    fst (handler E event w)
    = Returned {| statusCode := 200;
                  headers := [("Content-Type", "application/json")];
                  body := Dashboard s views |}
    /\ views = map (fun doc => view doc.1 doc.2) (firstn 50 docs)
    /\ forall doc_id r,
        (Effect.orderId r = None -> orderId (view doc_id r) = doc_id)
        /\ (Effect.customerEmail r = None -> customerEmail (view doc_id r) = "N/A")
        /\ (Effect.businessUrl r = None -> businessUrl (view doc_id r) = "N/A")
        /\ (Effect.amount r = None -> amount (view doc_id r) = 0%float)
        /\ (Effect.currency r = None -> currency (view doc_id r) = "ZAR")
        /\ (Effect.auditGenerated r = None -> auditGenerated (view doc_id r) = false)
        /\ (Effect.emailDelivered r = None -> emailDelivered (view doc_id r) = false)
        /\ (Effect.timestamp r = None -> timestamp (view doc_id r) = NotAvailable).
Proof.
  intros Hkey Hdocs. rewrite dashboard_handler_runs, Hkey, Hdocs.
  rewrite bool_decide_eq_true_2 by reflexivity.
  unfold summarize. eexists _, _. split; [reflexivity|]. split.
  - rewrite fold_visit_recentSales. reflexivity.
  - intros doc_id r. unfold view. simpl.
    repeat split; intros ->; reflexivity.
Qed.

Lemma view_defaults_witness :
  supplied_key sample_get_event = DASHBOARD_SECRET_KEY open_dashboard_env
  /\ exists s,
       fst (handler open_dashboard_env sample_get_event empty_world)
       = Returned {| statusCode := 200;
                     headers := [("Content-Type", "application/json")];
                     body := Dashboard s [view "d1" bare_sale] |}
       /\ businessUrl (view "d1" bare_sale) = "N/A"%string.
Proof.
  split; [reflexivity|].
  destruct (view_defaults open_dashboard_env sample_get_event empty_world
              _ eq_refl eq_refl) as (s & views & Hrun & -> & Hd).
  exists s. split; [exact Hrun|].
  apply (Hd "d1"%string bare_sale). reflexivity.
Defined.

(** A record without businessUrl is shown with "N/A", which is not the
    "Not provided" of the data model. *)
Lemma missing_businessUrl_renders_NA :
  Effect.businessUrl bare_sale = None
  /\ (exists s v,
        fst (handler open_dashboard_env sample_get_event empty_world)
        = Returned {| statusCode := 200;
                      headers := [("Content-Type", "application/json")];
                      body := Dashboard s [v] |}
        /\ businessUrl v = "N/A"%string)
  /\ "N/A"%string <> "Not provided"%string.
Proof.
  split; [reflexivity|]. split; [|discriminate].
  eexists _, _. split; reflexivity.
Qed.

End Aggregator.

(** * Number lemmas *)

Lemma same_number_refl (x : float) : same_number x x.
Proof. left. reflexivity. Qed.

Lemma same_number_sym (x y : float) : same_number x y -> same_number y x.
Proof. intros [->|[Hx Hy]]; [left | right]; auto. Qed.

Lemma same_number_trans (x y z : float) :
  same_number x y -> same_number y z -> same_number x z.
Proof.
  intros [->|[Hx Hy]] [->|[Hy' Hz]]; try (left; reflexivity);
    try (right; split; assumption).
Qed.

(** Adding a zero changes at most the sign of a zero. *)
Lemma add_zeroish_r (x z : float) :
  zeroish z = true -> same_number (x + z) x.
Proof.
  unfold zeroish. intros Hz.
  destruct (Prim2SF z) as [sz| | |] eqn:Ez; try discriminate.
  destruct (Prim2SF x) as [sx|sx| |sx mx ex] eqn:Ex.
  - right. unfold zeroish. rewrite add_spec, Ex, Ez.
    split; [|reflexivity]. destruct sx, sz; reflexivity.
  - left. apply Prim2SF_inj. rewrite add_spec, Ex, Ez. reflexivity.
  - left. apply Prim2SF_inj. rewrite add_spec, Ex, Ez. reflexivity.
  - left. apply Prim2SF_inj. rewrite add_spec, Ex, Ez. reflexivity.
Qed.

(** Addition does not see the sign of a zero on its left, but for the sign
    of a zero result. *)
Lemma add_same_number (x x' b : float) :
  same_number x x' -> same_number (x + b) (x' + b).
Proof.
  intros [->|[Hx Hx']]; [left; reflexivity|].
  unfold zeroish in Hx, Hx'.
  destruct (Prim2SF x) as [sx| | |] eqn:Ex; try discriminate.
  destruct (Prim2SF x') as [sx'| | |] eqn:Ex'; try discriminate.
  destruct (Prim2SF b) as [sb|sb| |sb mb eb] eqn:Eb.
  - right. unfold zeroish. rewrite !add_spec, Ex, Ex', Eb.
    split; [destruct sx, sb | destruct sx', sb]; reflexivity.
  - left. apply Prim2SF_inj. rewrite !add_spec, Ex, Ex', Eb. reflexivity.
  - left. apply Prim2SF_inj. rewrite !add_spec, Ex, Ex', Eb. reflexivity.
  - left. apply Prim2SF_inj. rewrite !add_spec, Ex, Ex', Eb. reflexivity.
Qed.

(** A falsy number that is not NaN is a zero. *)
Lemma falsy_zeroish (v : float) :
  Number.truthy v = false -> is_nan v = false -> zeroish v = true.
Proof.
  unfold Number.truthy, zeroish. intros Ht Hn. rewrite Hn, orb_false_r in Ht.
  apply negb_false_iff in Ht.
  rewrite FloatAxioms.eqb_spec in Ht.
  change (Prim2SF zero) with (S754_zero false) in Ht.
  destruct (Prim2SF v) as [s|s| |s m e]; try reflexivity;
    try (destruct s); discriminate Ht.
Qed.

(** [toFixed] does not see the sign of a zero. *)
Lemma toFixed_same_number (f : nat) (x y : float) :
  same_number x y -> Number.toFixed f x = Number.toFixed f y.
Proof.
  intros [->|[Hx Hy]]; [reflexivity|].
  unfold zeroish in Hx, Hy. unfold Number.toFixed.
  destruct (Prim2SF x); try discriminate.
  destruct (Prim2SF y); try discriminate.
  reflexivity.
Qed.

(** The rate of the handler is the rate on integers, for every count the
    query can return: at most 50 records, by [limit(50)]. *)
Lemma rate_table :
  forallb (fun whole =>
             forallb (fun part => rate_agrees (Z.of_nat part) (Z.of_nat whole))
                     (seq 0 (S whole)))
          (seq 1 50) = true.
Proof. vm_compute. reflexivity. Qed.

Lemma rate_agrees_upto_50 (part whole : Z) :
  0 <= part <= whole -> 1 <= whole <= 50 -> rate_agrees part whole = true.
Proof.
  intros Hp Hw.
  pose proof rate_table as H. rewrite forallb_forall in H.
  specialize (H (Z.to_nat whole)). rewrite forallb_forall in H.
  specialize (fun Hin => H Hin (Z.to_nat part)).
  rewrite !Z2Nat.id in H by lia.
  apply H; apply in_seq; lia.
Qed.

(** * The aggregates *)

Section AggregatorTotals.
Import Effect GetDashboard.

(** The revenue the loop accumulates is the sum of the amounts, a missing
    or NaN amount counting as 0: the loop skips the amounts that are falsy,
    and those are the zeros and NaN. *)
Lemma fold_visit_counted (docs : list (string * sale)) (acc : totals)
      (total : float) :
  same_number (t_totalRevenue acc) total ->
  same_number (t_totalRevenue (fold_left visit docs acc))
              (fold_left (fun a r => (a + counted_amount r)%float)
                         (map snd docs) total).
Proof.
  revert acc total. induction docs as [|[doc_id r] docs IH];
    intros acc total Hsame; [exact Hsame|].
  simpl fold_left. apply IH.
  unfold visit, counted_amount. cbn [t_totalRevenue snd].
  destruct (Effect.amount r) as [v|] eqn:Hv.
  - destruct (Number.truthy v) eqn:Ht.
    + assert (is_nan v = false) as ->.
      { unfold Number.truthy in Ht.
        apply negb_true_iff, orb_false_iff in Ht. apply Ht. }
      apply add_same_number. exact Hsame.
    + apply same_number_trans with total; [exact Hsame|].
      apply same_number_sym, add_zeroish_r.
      destruct (is_nan v) eqn:Hn; [reflexivity|].
      apply falsy_zeroish; assumption.
  - apply same_number_trans with total; [exact Hsame|].
    apply same_number_sym, add_zeroish_r. reflexivity.
Qed.

(** Without a NaN among the amounts, that is the plain sum. *)
Lemma sum_counted_plain (records : list sale) :
  (forall r v, r ∈ records -> Effect.amount r = Some v -> is_nan v = false) ->
  sum_counted records = sum_amounts records.
Proof.
  unfold sum_counted, sum_amounts. generalize 0%float.
  induction records as [|r records IH]; intros acc Hnan; [reflexivity|].
  cbn [fold_left].
  assert (counted_amount r = amount_or_zero r) as ->.
  { unfold counted_amount, amount_or_zero.
    destruct (Effect.amount r) as [v|] eqn:Hv; [|reflexivity].
    rewrite (Hnan r v); [reflexivity | apply list_elem_of_here | exact Hv]. }
  apply IH. intros r' v Hin. apply Hnan. apply list_elem_of_further, Hin.
Qed.

(** C7 (amended): for every list of records the store read returns, the
    summary has: totalRevenue, the sum of the amounts printed with 2
    decimals, an amount that is missing or NaN counting as 0 (so that,
    when no amount is NaN, it is the plain sum of the amounts);
    totalSales, the number of records; successfulDeliveries, the number of
    records whose emailDelivered is true; successRate, the number 0 when
    there is no record, so that nothing is divided by zero, and otherwise
    the percentage of delivered records rounded to 1 decimal. *)
Theorem aggregates (E : env) (event : Event.t) (w : world)
        (docs : list (string * sale)) :
  supplied_key event = DASHBOARD_SECRET_KEY E ->
  get_answer E = Returned docs ->
  let records := map snd (firstn 50 docs) in
  exists views,
    fst (handler E event w)
    = Returned
        {| statusCode := 200;
           headers := [("Content-Type", "application/json")];
           body :=
             Dashboard
               {| totalRevenue := Number.toFixed 2 (sum_counted records);
                  totalSales := Z.of_nat (length records);
                  successRate :=
                    match records with
                    | [] => RateNumber 0
                    | _ :: _ =>
                        RateText
                          (Number.Known
                             (percent_one_decimal (count_delivered records)
                                                  (Z.of_nat (length records))))
                    end;
                  successfulDeliveries := count_delivered records |}
               views |}
    /\ ((forall r v, r ∈ records -> Effect.amount r = Some v -> is_nan v = false) ->
        sum_counted records = sum_amounts records)
    /\ percent_one_decimal 2 3 = "66.7"%string.
Proof.
  intros Hkey Hdocs records.
  rewrite dashboard_handler_runs, Hkey, Hdocs.
  rewrite bool_decide_eq_true_2 by reflexivity.
  unfold summarize. cbn [fst].
  rewrite fold_visit_recentSales, fold_visit_deliveries. cbn [t_recentSales
    t_successfulDeliveries app]. rewrite Z.add_0_l.
  rewrite length_map. fold records.
  replace (length (firstn 50 docs)) with (length records)
    by (unfold records; apply length_map).
  eexists. split; [|split; [apply sum_counted_plain | reflexivity]].
  f_equal. f_equal. f_equal. f_equal.
  - apply toFixed_same_number.
    apply (fold_visit_counted (firstn 50 docs)). apply same_number_refl.
  - assert (length records <= 50)%nat as Hlen.
    { unfold records. rewrite length_map, length_firstn. lia. }
    assert (0 <= count_delivered records <= Z.of_nat (length records)) as Hcount.
    { unfold count_delivered. split; [lia|].
      apply inj_le, filter_length_le. }
    destruct records as [|r rest] eqn:Hrec; [reflexivity|].
    replace (0 <? Z.of_nat (length (r :: rest))) with true
      by (symmetry; apply Z.ltb_lt; simpl length; lia).
    pose proof (rate_agrees_upto_50 _ _ Hcount
                  ltac:(simpl length in *; lia)) as Hrate.
    unfold rate_agrees in Hrate.
    destruct (Number.toFixed 1 _) as [s|neg x]; [|discriminate Hrate].
    apply String.eqb_eq in Hrate. rewrite Hrate. reflexivity.
Qed.

Lemma aggregates_witness :
  supplied_key sample_get_event = DASHBOARD_SECRET_KEY two_of_three_env
  /\ (exists views,
        fst (handler two_of_three_env sample_get_event empty_world)
        = Returned
            {| statusCode := 200;
               headers := [("Content-Type", "application/json")];
               body :=
                 Dashboard
                   {| totalRevenue := Number.Known "70.09";
                      totalSales := 3;
                      successRate := RateText (Number.Known "66.7");
                      successfulDeliveries := 2 |}
                   views |})
  /\ sum_counted (map snd (firstn 50 two_of_three))
     = sum_amounts (map snd (firstn 50 two_of_three)).
Proof.
  split; [reflexivity|].
  assert (forall r v, r ∈ map snd (firstn 50 two_of_three) ->
                      Effect.amount r = Some v -> is_nan v = false) as Hnan.
  { intros r v Hin Hv. simpl in Hin.
    repeat (apply elem_of_cons in Hin; destruct Hin as [->|Hin]);
      [inversion Hv; reflexivity ..|].
    apply elem_of_nil in Hin. contradiction. }
  destruct (aggregates two_of_three_env sample_get_event empty_world
              two_of_three eq_refl eq_refl) as (views & Hrun & Hplain & _).
  split; [|exact (Hplain Hnan)].
  exists views. rewrite Hrun. vm_compute. reflexivity.
Defined.

(** With a NaN amount in the list the revenue is not the sum of the
    amounts: the loop leaves the NaN out and the revenue is 19.99, where
    the sum of the amounts is NaN. *)
Lemma nan_amount_is_left_out :
  exists s views,
    fst (handler nan_then_19_99_env sample_get_event empty_world)
    = Returned {| statusCode := 200;
                  headers := [("Content-Type", "application/json")];
                  body := Dashboard s views |}
    /\ totalRevenue s = Number.Known "19.99"
    /\ Number.toFixed 2 (sum_amounts (map snd nan_then_19_99))
       = Number.Known "NaN".
Proof.
  eexists _, _. split; [reflexivity|].
  split; vm_compute; reflexivity.
Qed.

Example empty_store_rate_is_zero :
  exists s views,
    fst (handler empty_store_env sample_get_event empty_world)
    = Returned {| statusCode := 200;
                  headers := [("Content-Type", "application/json")];
                  body := Dashboard s views |}
    /\ successRate s = RateNumber 0 /\ totalSales s = 0
    /\ totalRevenue s = Number.Known "0.00".
Proof. eexists _, _. split; [reflexivity|]. repeat split. Qed.

End AggregatorTotals.

(** * The parse step *)

Lemma strip_prefix_append (p1 p2 s : string) :
  Text.strip_prefix (p1 +:+ p2) s
  = match Text.strip_prefix p1 s with
    | Some rest => Text.strip_prefix p2 rest
    | None => None
    end.
Proof.
  revert s. induction p1 as [|c p1 IH]; intros s; simpl; [reflexivity|].
  destruct s as [|d s]; [reflexivity|].
  destruct (Ascii.eqb c d); [apply IH | reflexivity].
Qed.

(** The pattern [/^(https?:\/\/)?(www\.)?/], replaced by the empty string,
    is the normalisation of the specification. *)
Lemma replace_scheme_www (s : string) :
  Regex.replace_at_start Regex.scheme_www "" s = normalized s.
Proof.
  assert (Text.strip_prefix "https://" s
          = match Text.strip_prefix "http" s with
            | Some r1 =>
                match Text.strip_prefix "s" r1 with
                | Some r2 => Text.strip_prefix "://" r2
                | None => None
                end
            | None => None
            end) as Hhttps.
  { change "https://"%string with ("http" +:+ "s" +:+ "://")%string.
    rewrite strip_prefix_append.
    destruct (Text.strip_prefix "http" s); [apply strip_prefix_append | reflexivity]. }
  assert (Text.strip_prefix "http://" s
          = match Text.strip_prefix "http" s with
            | Some r1 => Text.strip_prefix "://" r1
            | None => None
            end) as Hhttp.
  { change "http://"%string with ("http" +:+ "://")%string.
    apply strip_prefix_append. }
  unfold Regex.replace_at_start, Regex.scheme_www, normalized, without_scheme,
    without_prefix.
  rewrite Hhttps, Hhttp. cbn [Regex.rmatch].
  destruct (Text.strip_prefix "http" s) as [r1|]; cbn beta iota.
  - destruct (Text.strip_prefix "s" r1) as [r2|]; cbn beta iota.
    + destruct (Text.strip_prefix "://" r2) as [r3|]; cbn beta iota.
      * destruct (Text.strip_prefix "www." r3); reflexivity.
      * destruct (Text.strip_prefix "://" r1) as [r3|]; cbn beta iota.
        -- destruct (Text.strip_prefix "www." r3); reflexivity.
        -- destruct (Text.strip_prefix "www." s); reflexivity.
    + destruct (Text.strip_prefix "://" r1) as [r3|]; cbn beta iota.
      * destruct (Text.strip_prefix "www." r3); reflexivity.
      * destruct (Text.strip_prefix "www." s); reflexivity.
  - destruct (Text.strip_prefix "www." s); reflexivity.
Qed.

(** * Binary64 arithmetic: an integer divided by 100

    The quotient of an integer below 2^49 by 100, rounded to binary64, is
    within one unit in the last place of the exact quotient, which is close
    enough for [toFixed(2)] to print the integer back with its last two
    digits behind the point. *)

Section Binary64.
Local Open Scope Z_scope.

Lemma digits2_pos_bounds (p : positive) :
  2 ^ (Zpos (digits2_pos p) - 1) <= Zpos p < 2 ^ Zpos (digits2_pos p).
Proof.
  induction p as [p IH|p IH|]; cbn [digits2_pos].
  - rewrite Pos2Z.inj_succ.
    replace (Z.succ (Zpos (digits2_pos p)) - 1) with (Z.succ (Zpos (digits2_pos p) - 1)) by lia.
    rewrite !Z.pow_succ_r by lia. lia.
  - rewrite Pos2Z.inj_succ.
    replace (Z.succ (Zpos (digits2_pos p)) - 1) with (Z.succ (Zpos (digits2_pos p) - 1)) by lia.
    rewrite !Z.pow_succ_r by lia. lia.
  - simpl. lia.
Qed.

Lemma digits2_pos_iter_xO (p k : positive) :
  digits2_pos (Pos.iter xO p k) = (digits2_pos p + k)%positive.
Proof.
  induction k as [|k IH] using Pos.peano_ind.
  - simpl. lia.
  - rewrite Pos.iter_succ. cbn [digits2_pos]. rewrite IH. lia.
Qed.

Lemma iter_xO_value (p k : positive) :
  Zpos (Pos.iter xO p k) = Zpos p * 2 ^ Zpos k.
Proof.
  induction k as [|k IH] using Pos.peano_ind.
  - simpl. lia.
  - rewrite Pos.iter_succ, Pos2Z.inj_succ, Z.pow_succ_r by lia.
    rewrite Pos2Z.inj_xO, IH. lia.
Qed.

Lemma of_Z_exact (p k : positive) :
  Zpos (digits2_pos p) + Zpos k = 53 ->
  Prim2SF (Number.of_Z (Zpos p)) = S754_finite false (Pos.iter xO p k) (Zneg k).
Proof.
  intros Hd. unfold Number.of_Z.
  assert (binary_normalize prec emax (Zpos p) 0 false
          = S754_finite false (Pos.iter xO p k) (Zneg k)) as Hn.
  { unfold binary_normalize, binary_round.
    replace (fexp prec emax (Zpos (digits2_pos p) + 0)) with (Zneg k)
      by (unfold fexp, SpecFloat.emin, prec, emax; lia).
    unfold shl_align. change (Z.neg k - 0) with (Z.neg k). cbv beta iota.
    unfold binary_round_aux, shr_fexp.
    cbn [Zdigits2]. rewrite digits2_pos_iter_xO.
    replace (fexp prec emax (Zpos (digits2_pos p + k) + Zneg k) - Zneg k) with 0
      by (unfold fexp, SpecFloat.emin, prec, emax; lia).
    cbn [shr shr_record_of_loc shr_m loc_of_shr_record round_nearest_even Zdigits2].
    rewrite digits2_pos_iter_xO.
    replace (fexp prec emax (Zpos (digits2_pos p + k) + Zneg k) - Zneg k) with 0
      by (unfold fexp, SpecFloat.emin, prec, emax; lia).
    cbn [shr shr_m].
    replace (Zneg k <=? emax - prec) with true
      by (symmetry; apply Z.leb_le; unfold emax, prec; lia).
    reflexivity. }
  rewrite Hn. apply Prim2SF_SF2Prim.
  unfold valid_binary, bounded, canonical_mantissa.
  rewrite digits2_pos_iter_xO.
  apply andb_true_intro. split.
  - apply Z.eqb_eq. unfold fexp, SpecFloat.emin, prec, emax. lia.
  - apply Z.leb_le. unfold emax, prec. lia.
Qed.

Lemma shr_m_of_loc (m : Z) (l : location) : shr_m (shr_record_of_loc m l) = m.
Proof. destruct l as [|[]]; reflexivity. Qed.

Lemma shr_m_shr_1 (mrs : shr_record) :
  0 <= shr_m mrs -> shr_m (shr_1 mrs) = shr_m mrs / 2.
Proof.
  destruct mrs as [m r s]. cbn [shr_m]. intros Hm. unfold shr_1.
  destruct m as [|p|p]; [reflexivity| |lia].
  destruct p as [p|p|]; cbn [shr_m].
  - rewrite Pos2Z.inj_xI. apply Z.div_unique with 1; lia.
  - rewrite Pos2Z.inj_xO. apply Z.div_unique with 0; lia.
  - reflexivity.
Qed.

Lemma round_nearest_even_bounds (m : Z) (l : location) :
  m <= round_nearest_even m l <= m + 1.
Proof.
  unfold round_nearest_even. destruct l as [|[]]; try lia.
  destruct (Z.even m); lia.
Qed.

Lemma Zdigits2_53_54 (m : Z) :
  2 ^ 52 <= m < 2 ^ 54 ->
  (Zdigits2 m = 53 /\ m < 2 ^ 53) \/ (Zdigits2 m = 54 /\ 2 ^ 53 <= m).
Proof.
  intros [Hlo Hhi]. destruct m as [|p|p]; try (cbn in Hlo; lia).
  cbn [Zdigits2]. pose proof (digits2_pos_bounds p) as [Hd1 Hd2].
  set (d := Zpos (digits2_pos p)) in *.
  assert (52 < d) as H52.
  { destruct (Z.le_gt_cases d 52) as [Hle|]; [|lia].
    pose proof (Z.pow_le_mono_r 2 d 52 ltac:(lia) Hle). lia. }
  assert (d < 55) as H55.
  { destruct (Z.le_gt_cases 55 d) as [Hle|]; [|lia].
    pose proof (Z.pow_le_mono_r 2 54 (d - 1) ltac:(lia) ltac:(lia)). lia. }
  assert (d = 53 \/ d = 54) as [Hd|Hd] by lia; rewrite Hd in *.
  - left. split; [reflexivity|]. exact Hd2.
  - right. split; [reflexivity|]. exact Hd1.
Qed.

Lemma shr_fexp_normal (m e : Z) (l : location) :
  2 ^ 52 <= m < 2 ^ 54 -> -1000 <= e <= 0 ->
  exists mrs k,
    shr_fexp prec emax m e l = (mrs, e + k)
    /\ 2 ^ 52 <= shr_m mrs < 2 ^ 53
    /\ ((k = 0 /\ shr_m mrs = m) \/ (k = 1 /\ shr_m mrs = m / 2)).
Proof.
  intros Hm He. unfold shr_fexp.
  destruct (Zdigits2_53_54 m Hm) as [[Hd Hlt]|[Hd Hge]]; rewrite Hd.
  - replace (fexp prec emax (53 + e) - e) with 0
      by (unfold fexp, SpecFloat.emin, prec, emax; lia).
    cbn [shr]. eexists _, 0. rewrite Z.add_0_r. split; [reflexivity|].
    rewrite shr_m_of_loc. split; [lia|]. left. split; reflexivity.
  - replace (fexp prec emax (54 + e) - e) with 1
      by (unfold fexp, SpecFloat.emin, prec, emax; lia).
    cbn [shr iter_pos]. eexists _, 1. split; [reflexivity|].
    rewrite shr_m_shr_1 by (rewrite shr_m_of_loc; lia).
    rewrite shr_m_of_loc.
    assert (2 ^ 52 <= m / 2 < 2 ^ 53).
    { change (2 ^ 54) with (2 * 2 ^ 53) in Hm. change (2 ^ 53) with (2 * 2 ^ 52) in Hge.
      split; [apply Z.div_le_lower_bound; lia | apply Z.div_lt_upper_bound; lia]. }
    split; [lia|]. right. split; reflexivity.
Qed.

Lemma binary_round_aux_bounds (mx ex : Z) (lx : location) :
  2 ^ 52 <= mx < 2 ^ 54 -> -1000 <= ex <= -2 ->
  exists m k,
    binary_round_aux prec emax false mx ex lx = S754_finite false m (ex + k)
    /\ 0 <= k <= 2
    /\ 2 ^ 52 <= Zpos m < 2 ^ 53
    /\ (Zpos m - 1) * 2 ^ k <= mx < (Zpos m + 1) * 2 ^ k.
Proof.
  intros Hm He. unfold binary_round_aux.
  destruct (shr_fexp_normal mx ex lx Hm ltac:(lia)) as (mrs1 & k1 & -> & Ha & Hk1).
  pose proof (round_nearest_even_bounds (shr_m mrs1) (loc_of_shr_record mrs1)) as Hr.
  set (m1 := round_nearest_even (shr_m mrs1) (loc_of_shr_record mrs1)) in *.
  assert (0 <= k1 <= 1) as Hk1r by (destruct Hk1 as [[-> _]|[-> _]]; lia).
  destruct (shr_fexp_normal m1 (ex + k1) loc_Exact) as (mrs2 & k2 & -> & Hb & Hk2);
    [change (2 ^ 54) with (2 * 2 ^ 53); lia | lia |].
  assert (0 <= k2 <= 1) as Hk2r by (destruct Hk2 as [[-> _]|[-> _]]; lia).
  destruct (shr_m mrs2) as [|m|m] eqn:Hm2; try (cbn in Hb; lia).
  replace (ex + k1 + k2 <=? emax - prec) with true
    by (symmetry; apply Z.leb_le; unfold emax, prec; lia).
  exists m, (k1 + k2). rewrite Z.add_assoc.
  split; [reflexivity|]. split; [lia|]. split; [exact Hb|].
  assert (forall x, 0 <= x -> 2 * (x / 2) <= x < 2 * (x / 2) + 2) as Hdiv.
  { intros x Hx. pose proof (Z.div_mod x 2 ltac:(lia)).
    pose proof (Z.mod_pos_bound x 2 ltac:(lia)). lia. }
  pose proof (Hdiv mx ltac:(lia)) as Hdmx.
  pose proof (Hdiv m1 ltac:(lia)) as Hdm1.
  destruct Hk1 as [[-> Ha1]|[-> Ha1]], Hk2 as [[-> Hb1]|[-> Hb1]];
    cbn [Z.add Z.pow Z.pow_pos Pos.iter Pos.add Pos.succ Z.mul Pos.mul]; lia.
Qed.

Lemma Prim2SF_100 : Prim2SF 100%float = S754_finite false 7036874417766400 (-46).
Proof. reflexivity. Qed.

Lemma div_100_bounds (p k : positive) :
  Zpos (digits2_pos p) + Zpos k = 53 -> 4 <= Zpos k ->
  exists m e,
    Prim2SF (Number.of_Z (Zpos p) / 100)%float = S754_finite false m e
    /\ -100 <= e <= -9
    /\ Zpos m < 2 ^ 53
    /\ 100 * (Zpos m - 1) <= Zpos p * 2 ^ (- e) < 100 * (Zpos m + 1).
Proof.
  intros Hd Hk.
  assert (Zpos k <= 52) as Hk52 by (pose proof (Pos2Z.is_pos (digits2_pos p)); lia).
  rewrite div_spec, (of_Z_exact p k Hd), Prim2SF_100.
  unfold SF64div, SFdiv, SFdiv_core_binary.
  set (mz := Pos.iter xO p k).
  assert (Zdigits2 (Zpos mz) = 53) as Hdz.
  { cbn [Zdigits2]. unfold mz. rewrite digits2_pos_iter_xO. lia. }
  rewrite Hdz.
  change (Zdigits2 (Zpos 7036874417766400)) with 53.
  replace (Z.min (fexp prec emax (53 + Zneg k - (53 + -46))) (Zneg k - -46))
    with (Zneg k - 7)
    by (unfold fexp, SpecFloat.emin, prec, emax; lia).
  replace (Zneg k - -46 - (Zneg k - 7)) with 53 by lia.
  cbv beta iota.
  rewrite Z.shiftl_mul_pow2 by lia.
  pose proof (digits2_pos_bounds mz) as Hmz.
  cbn [Zdigits2] in Hdz. injection Hdz as Hdz. rewrite Hdz in Hmz.
  change (Zpos 53 - 1) with 52 in Hmz.
  pose proof (Z.div_eucl_eq (Zpos mz * 2 ^ 53) (Zpos 7036874417766400) ltac:(lia)) as Heq.
  pose proof (Z.mod_pos_bound (Zpos mz * 2 ^ 53) (Zpos 7036874417766400) ltac:(lia)) as Hr.
  unfold Z.modulo in Hr.
  destruct (Z.div_eucl (Zpos mz * 2 ^ 53) (Zpos 7036874417766400)) as [q r].
  change (2 ^ 53) with 9007199254740992 in *.
  change (2 ^ 52) with 4503599627370496 in Hmz.
  assert (2 ^ 52 <= q < 2 ^ 54) as Hq.
  { change (2 ^ 52) with 4503599627370496. change (2 ^ 54) with 18014398509481984. lia. }
  destruct (binary_round_aux_bounds q (Zneg k - 7)
              (new_location (Zpos 7036874417766400) r) Hq ltac:(lia))
    as (m & kk & Hbra & Hkk & Hm & Hb).
  cbn [xorb]. rewrite Hbra.
  exists m, (Zneg k - 7 + kk). split; [reflexivity|].
  split; [lia|]. split; [change (2 ^ 53) with 9007199254740992 in Hm; lia|].
  assert (Zpos mz = Zpos p * 2 ^ Zpos k) as Hval by apply iter_xO_value.
  replace (- (Zneg k - 7 + kk)) with (Zpos k + (7 - kk)) by lia.
  rewrite Z.pow_add_r by lia. rewrite Z.mul_assoc, <- Hval.
  assert (kk = 0 \/ kk = 1 \/ kk = 2) as [-> | [-> | ->]] by lia;
    cbn [Z.sub Z.opp Z.add Z.pos_sub Z.pow Z.pow_pos Pos.iter Z.mul Pos.mul Z.succ_double Z.pred_double Z.double Pos.pred_double] in *; lia.
Qed.

Lemma toFixed_of_cents (n : N) :
  (n < 2 ^ 49)%N ->
  Number.toFixed 2 (Number.of_Z (Z.of_N n) / 100)%float
  = Number.Known (Number.layout 2 n).
Proof.
  intros Hn. destruct n as [|p]; [reflexivity|].
  cbn [Z.of_N].
  assert (Zpos p < 2 ^ 49) as Hp.
  { change (2 ^ 49) with (Z.of_N (2 ^ 49)). lia. }
  pose proof (digits2_pos_bounds p) as [Hd _].
  assert (Zpos (digits2_pos p) <= 49) as Hd49.
  { destruct (Z.le_gt_cases (Zpos (digits2_pos p)) 49) as [|Hgt]; [assumption|].
    pose proof (Z.pow_le_mono_r 2 49 (Zpos (digits2_pos p) - 1) ltac:(lia) ltac:(lia)).
    lia. }
  destruct (div_100_bounds p (Z.to_pos (53 - Zpos (digits2_pos p))))
    as (m & e & Hx & He & Hm & Hb); [lia | lia |].
  unfold Number.toFixed. rewrite Hx.
  unfold Number.at_least_1e21, Number.nearest_scaled.
  replace (0 <=? e) with false by (symmetry; apply Z.leb_gt; lia).
  assert (512 <= 2 ^ (- e)) as HD.
  { change 512 with (2 ^ 9). apply Z.pow_le_mono_r; lia. }
  set (D := 2 ^ (- e)) in *.
  replace (10 ^ 21 * D <=? Zpos m) with false.
  2:{ symmetry. apply Z.leb_gt. change (2 ^ 53) with 9007199254740992 in Hm.
      change (10 ^ 21) with 1000000000000000000000. lia. }
  change (10 ^ Z.of_nat 2) with 100.
  replace ((2 * (Zpos m * 100) + D) / (2 * D)) with (Zpos p).
  2:{ apply Z.div_unique with (2 * (Zpos m * 100) + D - 2 * D * Zpos p); lia. }
  reflexivity.
Qed.

End Binary64.

(** * Decimal digits: printing and reading back *)

Section Decimal.
Local Open Scope N_scope.

Lemma append_assoc (a b c : string) : (a +:+ b) +:+ c = a +:+ (b +:+ c).
Proof.
  induction a as [|x a IH]; [reflexivity|].
  change (String x ((a +:+ b) +:+ c) = String x (a +:+ b +:+ c)).
  rewrite IH. reflexivity.
Qed.

Lemma digits_fuel_acc (f : nat) (n : N) (acc : string) :
  Text.digits_fuel f n acc = Text.digits_fuel f n EmptyString +:+ acc.
Proof.
  revert n acc. induction f as [|f IH]; intros n acc; [reflexivity|].
  cbn [Text.digits_fuel].
  destruct (N.eqb (n / 10) 0); [reflexivity|].
  rewrite (IH (n / 10) (String _ acc)), (IH (n / 10) (String _ EmptyString)).
  rewrite append_assoc. reflexivity.
Qed.

Lemma digits_fuel_enough (f1 f2 : nat) (n : N) :
  (0 < f1)%nat -> (0 < f2)%nat ->
  n < 2 ^ N.of_nat f1 -> n < 2 ^ N.of_nat f2 ->
  Text.digits_fuel f1 n EmptyString = Text.digits_fuel f2 n EmptyString.
Proof.
  revert f2 n. induction f1 as [|f1 IH]; intros f2 n H1 H2 Hn1 Hn2; [lia|].
  destruct f2 as [|f2]; [lia|]. cbn [Text.digits_fuel].
  destruct (N.eqb_spec (n / 10) 0) as [Hz|Hnz]; [reflexivity|].
  assert (10 <= n) as Hge.
  { destruct (N.le_gt_cases 10 n) as [|Hlt]; [assumption|].
    apply N.div_small in Hlt. contradiction. }
  assert (forall f, n < 2 ^ N.of_nat (S f) -> (0 < f)%nat /\ n / 10 < 2 ^ N.of_nat f) as Hstep.
  { intros f Hf. rewrite Nat2N.inj_succ, N.pow_succ_r' in Hf. split.
    - destruct f; [cbn in Hf; lia | lia].
    - apply N.Div0.div_lt_upper_bound; lia. }
  destruct (Hstep f1 Hn1) as [Hf1 Hd1]. destruct (Hstep f2 Hn2) as [Hf2 Hd2].
  rewrite (digits_fuel_acc f1), (digits_fuel_acc f2).
  rewrite (IH f2 (n / 10) Hf1 Hf2 Hd1 Hd2). reflexivity.
Qed.

Lemma log2_fuel (n : N) : n < 2 ^ N.of_nat (S (N.to_nat (N.log2 n))).
Proof.
  rewrite Nat2N.inj_succ, N2Nat.id.
  destruct n as [|p]; [reflexivity|].
  apply N.log2_spec. lia.
Qed.

Lemma decimal_N_small (n : N) :
  n < 10 -> Text.decimal_N n = String (Text.digit_char n) EmptyString.
Proof.
  intros Hn. unfold Text.decimal_N. cbn [Text.digits_fuel].
  rewrite (N.div_small n 10 Hn), (N.mod_small n 10 Hn). reflexivity.
Qed.

Lemma decimal_N_step (n : N) :
  10 <= n ->
  Text.decimal_N n
  = Text.decimal_N (n / 10) +:+ String (Text.digit_char (n mod 10)) EmptyString.
Proof.
  intros Hn. unfold Text.decimal_N at 1. cbn [Text.digits_fuel].
  assert (n / 10 <> 0) as Hnz.
  { intros Hz. apply N.div_small_iff in Hz; lia. }
  rewrite (proj2 (N.eqb_neq _ _) Hnz).
  rewrite digits_fuel_acc. f_equal.
  pose proof (log2_fuel n) as Hf.
  rewrite Nat2N.inj_succ, N.pow_succ_r' in Hf.
  apply digits_fuel_enough.
  - assert (N.log2 n <> 0).
    { intros H0. rewrite N2Nat.id, H0 in Hf. cbn in Hf. lia. }
    lia.
  - lia.
  - apply N.Div0.div_lt_upper_bound; lia.
  - apply log2_fuel.
Qed.

Lemma digit_cases (c : ascii) :
  Text.in_range 48 57 c = true ->
  In c ["0"; "1"; "2"; "3"; "4"; "5"; "6"; "7"; "8"; "9"]%char.
Proof.
  destruct c as [[] [] [] [] [] [] [] []]; intros H;
    try discriminate H; cbn; tauto.
Qed.

Lemma digit_char_value (d : N) :
  d < 10 ->
  Text.in_range 48 57 (Text.digit_char d) = true
  /\ Number.digit_value 10 (Text.digit_char d) = Some d.
Proof.
  intros Hd.
  assert (d = 0 \/ d = 1 \/ d = 2 \/ d = 3 \/ d = 4 \/ d = 5 \/ d = 6 \/ d = 7
          \/ d = 8 \/ d = 9) as H by lia.
  repeat (destruct H as [->|H]; [split; reflexivity|]). subst. split; reflexivity.
Qed.

Lemma all_digits_app (a b : string) :
  all_digits (a +:+ b) = (all_digits a && all_digits b)%bool.
Proof.
  induction a as [|c a IH]; [reflexivity|].
  change (all_digits (String c (a +:+ b))
          = (all_digits (String c a) && all_digits b)%bool).
  cbn [all_digits]. rewrite IH, andb_assoc. reflexivity.
Qed.

Lemma decimal_N_digits (n : N) :
  all_digits (Text.decimal_N n) = true /\ Text.decimal_N n <> EmptyString.
Proof.
  induction n as [n IH] using (well_founded_induction N.lt_wf_0).
  destruct (N.lt_ge_cases n 10) as [Hlt|Hge].
  - rewrite (decimal_N_small n Hlt). cbn [all_digits].
    destruct (digit_char_value n Hlt) as [-> _]. split; [reflexivity | discriminate].
  - rewrite (decimal_N_step n Hge), all_digits_app.
    destruct (IH (n / 10)) as [-> Hne]; [apply N.div_lt; lia|].
    destruct (digit_char_value (n mod 10)) as [Hr _]; [apply N.mod_lt; lia|].
    cbn [all_digits]. rewrite Hr. split; [reflexivity|].
    destruct (Text.decimal_N (n / 10)); [contradiction | discriminate].
Qed.

Lemma take_digits_decimal (n : N) :
  exists L, (0 < L)%nat /\
    forall rest a len,
      Number.take_digits 10 (Text.decimal_N n +:+ rest) a len
      = Number.take_digits 10 rest (a * 10 ^ N.of_nat L + n) (len + L)%nat.
Proof.
  induction n as [n IH] using (well_founded_induction N.lt_wf_0).
  destruct (N.lt_ge_cases n 10) as [Hlt|Hge].
  - exists 1%nat. split; [lia|]. intros rest a len.
    rewrite (decimal_N_small n Hlt).
    change (String (Text.digit_char n) "" +:+ rest) with (String (Text.digit_char n) rest).
    cbn [Number.take_digits].
    destruct (digit_char_value n Hlt) as [_ ->].
    f_equal; [f_equal; cbn; lia | lia].
  - destruct (IH (n / 10)) as (L & HL & Hrun); [apply N.div_lt; lia|].
    exists (S L). split; [lia|]. intros rest a len.
    rewrite (decimal_N_step n Hge), append_assoc, Hrun.
    change (String (Text.digit_char (n mod 10)) "" +:+ rest)
      with (String (Text.digit_char (n mod 10)) rest).
    cbn [Number.take_digits].
    destruct (digit_char_value (n mod 10)) as [_ ->]; [apply N.mod_lt; lia|].
    f_equal; [|lia].
    rewrite Nat2N.inj_succ, N.pow_succ_r'.
    pose proof (N.div_mod n 10 ltac:(lia)). lia.
Qed.

Lemma append_empty_r (s : string) : s +:+ "" = s.
Proof.
  induction s as [|c s IH]; [reflexivity|].
  change (String c (s +:+ "") = String c s). rewrite IH. reflexivity.
Qed.

Lemma parseInt_digits (s : string) :
  all_digits s = true -> s <> EmptyString ->
  Number.parseInt s
  = let '(value, len, _) := Number.take_digits 10 s 0 0 in
    match len with
    | O => nan
    | S _ => Number.of_Z (Z.of_N value)
    end.
Proof.
  intros Hall Hne. destruct s as [|c r]; [contradiction|].
  cbn [all_digits] in Hall. apply andb_true_iff in Hall as [Hc Hr].
  apply digit_cases in Hc.
  assert (Number.trim_start (String c r) = String c r) as Htrim.
  { unfold Number.trim_start. cbn [String.length Number.trim_start_fuel].
    replace (Number.skip_one_space (String c r)) with (@None string); [reflexivity|].
    cbn in Hc. repeat (destruct Hc as [<-|Hc]; [destruct r as [|b [|c3 r3]]; reflexivity|]).
    contradiction. }
  assert (Number.take_sign (String c r) = (false, String c r)) as Hsign.
  { cbn in Hc. repeat (destruct Hc as [<-|Hc]; [reflexivity|]). contradiction. }
  unfold Number.parseInt. rewrite Htrim, Hsign.
  assert (match String c r with
          | String z (String x rest) =>
              if (Ascii.eqb z "0" && (Ascii.eqb x "x" || Ascii.eqb x "X"))%bool
              then (16%N, rest) else (10%N, String c r)
          | _ => (10%N, String c r)
          end = (10%N, String c r)) as ->.
  { destruct r as [|x rest]; [reflexivity|].
    cbn [all_digits] in Hr. apply andb_true_iff in Hr as [Hx _].
    apply digit_cases in Hx. cbn in Hx.
    repeat (destruct Hx as [<-|Hx]; [rewrite andb_false_r; reflexivity|]).
    contradiction. }
  destruct (Number.take_digits 10 (String c r) 0 0) as [[value len] rest].
  destruct len; reflexivity.
Qed.

Lemma parseInt_decimal (n : N) :
  Number.parseInt (Text.decimal_N n) = Number.of_Z (Z.of_N n).
Proof.
  destruct (decimal_N_digits n) as [Hall Hne].
  rewrite (parseInt_digits _ Hall Hne).
  destruct (take_digits_decimal n) as (L & HL & Hrun).
  specialize (Hrun EmptyString 0 0%nat). rewrite append_empty_r in Hrun.
  rewrite Hrun. cbn [Number.take_digits].
  destruct L; [lia|]. cbn [Nat.add]. rewrite N.mul_0_l, N.add_0_l. reflexivity.
Qed.

Lemma length_append (a b : string) :
  String.length (a +:+ b) = (String.length a + String.length b)%nat.
Proof.
  induction a as [|c a IH]; [reflexivity|].
  change (S (String.length (a +:+ b)) = S (String.length a + String.length b)).
  rewrite IH. reflexivity.
Qed.

Lemma take_append (a b : string) : Text.take (String.length a) (a +:+ b) = a.
Proof.
  induction a as [|c a IH]; [destruct b; reflexivity|].
  change (String c (Text.take (String.length a) (a +:+ b)) = String c a).
  rewrite IH. reflexivity.
Qed.

Lemma drop_append (a b : string) : Text.drop (String.length a) (a +:+ b) = b.
Proof.
  induction a as [|c a IH]; [reflexivity|].
  change (Text.drop (String.length a) (a +:+ b) = b). exact IH.
Qed.

Lemma decimal_N_length (n : N) : (0 < String.length (Text.decimal_N n))%nat.
Proof.
  destruct (decimal_N_digits n) as [_ Hne].
  destruct (Text.decimal_N n); [contradiction | cbn; lia].
Qed.

Lemma layout_two_decimals (n : N) : Number.layout 2 n = two_decimals n.
Proof.
  unfold Number.layout, two_decimals.
  destruct (N.lt_ge_cases n 10) as [H10|H10].
  - rewrite (decimal_N_small n H10).
    rewrite (N.div_small n 100) by lia. rewrite (N.div_small n 10 H10).
    rewrite (N.mod_small n 10 H10). reflexivity.
  - rewrite (decimal_N_step n H10).
    destruct (N.lt_ge_cases n 100) as [H100|H100].
    + rewrite (decimal_N_small (n / 10)) by (apply N.Div0.div_lt_upper_bound; lia).
      rewrite (N.div_small n 100 H100).
      rewrite (N.mod_small (n / 10) 10) by (apply N.Div0.div_lt_upper_bound; lia).
      reflexivity.
    + rewrite (decimal_N_step (n / 10))
        by (apply N.div_le_lower_bound; lia).
      rewrite N.Div0.div_div. change (10 * 10) with 100.
      set (A := Text.decimal_N (n / 100)).
      set (d1 := Text.digit_char (n / 10 mod 10)).
      set (d0 := Text.digit_char (n mod 10)).
      rewrite append_assoc.
      change (String d1 "" +:+ String d0 "") with (String d1 (String d0 "")).
      pose proof (decimal_N_length (n / 100)) as HA. fold A in HA.
      set (m := A +:+ String d1 (String d0 "")).
      assert (String.length m = String.length A + 2)%nat as Hlen
        by (unfold m; rewrite length_append; reflexivity).
      rewrite Hlen.
      replace (3 - (String.length A + 2))%nat with 0%nat by lia.
      change (Text.repeat_char "0" 0 +:+ m) with m.
      rewrite Hlen.
      replace (String.length A + 2 - 2)%nat with (String.length A) by lia.
      unfold m. rewrite take_append, drop_append. reflexivity.
Qed.

End Decimal.

(** * The parse step of the intake workflow *)

Section ParseStep.
Import Effect ProcessSale.

Lemma or_else_first_present (x : option string) (d : string) :
  or_else x d = first_present [x] d.
Proof. destruct x as [[|c s]|]; reflexivity. Qed.

Lemma or_else_first_present2 (x y : option string) (d : string) :
  or_else x (or_else y d) = first_present [x; y] d.
Proof. destruct x as [[|c s]|], y as [[|c' s']|]; reflexivity. Qed.

Example parse_end_to_end :
  parse sample_env (Event.body sample_event)
  = {| p_email := Some "a@b.com"%string; p_orderId := "ORD-1";
       p_businessUrl := "acme.io"; p_amount := Number.Known "50.00";
       p_currency := "ZAR" |}.
Proof. vm_compute. reflexivity. Qed.

Example parse_fallbacks :
  parse sample_env (Some "website=http://shop.example&price="%string)
  = {| p_email := None; p_orderId := "ORD-1700000000000";
       p_businessUrl := "shop.example"; p_amount := Number.Known "0.00";
       p_currency := "ZAR" |}.
Proof. vm_compute. reflexivity. Qed.

End ParseStep.

(** * The end-to-end scenario *)

(** The notification of the scenario, with a failing generation service and
    a successful delivery: the response and the record found in the
    store. *)
Example end_to_end :
  let '(outcome, w) := ProcessSale.handler sample_env sample_event empty_world in
  outcome
  = Effect.Returned
      {| ProcessSale.statusCode := 200;
         ProcessSale.body :=
           ProcessSale.Complete true "Cyrnel Origin audit workflow complete."
                                "ORD-1" |}
  /\ Effect.sales w !! "ORD-1"%string
     = Some {| Effect.orderId := Some "ORD-1"%string;
               Effect.customerEmail := Some "a@b.com"%string;
               Effect.businessUrl := Some "acme.io"%string;
               Effect.amount := Some 50%float;
               Effect.currency := Some "ZAR"%string;
               Effect.auditGenerated := Some true;
               Effect.emailDelivered := Some true;
               Effect.timestamp := Some (Effect.Timestamp 1700000000500) |}.
Proof. vm_compute. split; reflexivity. Qed.

(** * Further properties: the report generator and the delivery notifier *)

Section Collaborators.
Import Effect ProcessSale.
Variable E : env.

Lemma service_calls_app (a b : list call) :
  service_calls (a ++ b) = service_calls a ++ service_calls b.
Proof. apply List.filter_app. Qed.

Lemma emails_sent_app (a b : list call) :
  emails_sent (a ++ b) = (emails_sent a + emails_sent b)%nat.
Proof. unfold emails_sent. rewrite List.filter_app, length_app. reflexivity. Qed.

(** The run of [generateAIaudit] with its calls to the outside: the one
    request, and a report that is truthy. *)
Lemma generateAIaudit_calls (businessUrl : string) :
  exists v calls req,
    (forall w, generateAIaudit E businessUrl w = (Returned v, extend w calls))
    /\ service_calls calls = [Fetch req]
    /\ req_url req = "https://api.groq.com/openai/v1/chat/completions"%string
    /\ req_method req = "POST"%string
    /\ req_Authorization req = ("Bearer " +:+ show (GROQ_API_KEY E))%string
    /\ messages (req_body req) = [("user"%string, groqPrompt businessUrl)]
    /\ Js.ToBoolean v = true.
Proof.
  assert (Js.ToBoolean (Js.Str (placeholder businessUrl)) = true) as Hph by reflexivity.
  remember (placeholder businessUrl) as ph eqn:Heq.
  unfold generateAIaudit, fetch, read. run_effects. rewrite <- Heq.
  destruct (fetch_answer E) as [response|e]; simpl.
  2:{ eexists _, _, _. split; [intros w; repeat rewrite <- app_assoc; reflexivity|].
      repeat split; assumption. }
  destruct (ok response); simpl.
  2:{ eexists _, _, _. split; [intros w; repeat rewrite <- app_assoc; reflexivity|].
      repeat split; assumption. }
  destruct (json response) as [data|e]; simpl.
  2:{ eexists _, _, _. split; [intros w; repeat rewrite <- app_assoc; reflexivity|].
      repeat split; assumption. }
  destruct (Js.nullish data) eqn:Hd; simpl.
  { eexists _, _, _. split; [intros w; repeat rewrite <- app_assoc; reflexivity|].
    repeat split; assumption. }
  destruct (Js.nullish (Js.member "choices" data)) eqn:Hc; simpl.
  { eexists _, _, _. split; [intros w; repeat rewrite <- app_assoc; reflexivity|].
    repeat split; assumption. }
  eexists _, _, _. split; [intros w; repeat rewrite <- app_assoc; reflexivity|].
  repeat split. unfold Js.or.
  destruct (Js.ToBoolean (read_opt _ _)) eqn:Hb; [exact Hb | reflexivity].
Qed.

(** X1: [generateAIaudit] asks the completion service exactly once,
    whatever the service answers (no second attempt after a failure): the
    only call to an outside service is one POST to the completions URL,
    whose single message is the prompt, and the prompt embeds the
    businessUrl. The request is made also when no API key is configured,
    with the header ["Bearer undefined"]. The store is left as it was. *)
Theorem generateAIaudit_single_attempt (businessUrl : string) (w : world) :
  exists v w' req,
    generateAIaudit E businessUrl w = (Returned v, w')
    /\ sales w' = sales w
    /\ service_calls (trace w') = service_calls (trace w) ++ [Fetch req]
    /\ req_url req = "https://api.groq.com/openai/v1/chat/completions"%string
    /\ req_method req = "POST"%string
    /\ req_Authorization req
       = ("Bearer " +:+ default "undefined" (GROQ_API_KEY E))%string
    /\ messages (req_body req) = [("user"%string, groqPrompt businessUrl)]
    /\ Text.contains businessUrl (groqPrompt businessUrl) = true.
Proof.
  destruct (generateAIaudit_calls businessUrl)
    as (v & calls & req & Hrun & Hcalls & Hurl & Hmeth & Hauth & Hmsg & _).
  exists v, (extend w calls), req. split; [apply Hrun|].
  split; [reflexivity|].
  split; [cbn [extend trace]; rewrite service_calls_app, Hcalls; reflexivity|].
  split; [exact Hurl|]. split; [exact Hmeth|].
  split; [exact Hauth|].
  split; [exact Hmsg|].
  exact (contains_app businessUrl "As a senior automation consultant, analyze " _).
Qed.

(** X2: the report [generateAIaudit] returns is never empty: whatever
    the service answers, the returned value is truthy (a non-empty text, or
    the truthy content of the answer), so the caller always has something
    to deliver. *)
Theorem generateAIaudit_report_truthy (businessUrl : string) (w : world) :
  exists v w',
    generateAIaudit E businessUrl w = (Returned v, w')
    /\ Js.ToBoolean v = true
    /\ v <> Js.Str "".
Proof.
  destruct (generateAIaudit_calls businessUrl)
    as (v & calls & req & Hrun & _ & _ & _ & _ & _ & Htruthy).
  exists v, (extend w calls). split; [apply Hrun|]. split; [exact Htruthy|].
  intros ->. discriminate Htruthy.
Qed.

(** The run of [sendAuditEmail] with its calls to the outside. *)
Lemma sendAuditEmail_calls (customerEmail : option string) (businessUrl : string)
      (auditContent : Js.value) (orderId : string) :
  exists r calls,
    (forall w, sendAuditEmail E customerEmail businessUrl auditContent orderId w
               = (Returned r, extend w calls))
    /\ success r = (is_text auditContent && provider_accepts (send_answer E))%bool
    /\ match auditContent with
       | Js.Str content =>
           exists msg,
             service_calls calls = [EmailsSend msg]
             /\ to msg = [customerEmail]
             /\ tags msg = [("audit"%string, Regex.replace_unsafe 0 orderId)]
             /\ html msg
                = ("<html><body><h1>Your AI Audit</h1><p>Analysis for <strong>"
                   +:+ businessUrl +:+ "</strong>:</p><div>"
                   +:+ Regex.replace_newlines content
                   +:+ "</div></body></html>")%string
       | _ => service_calls calls = []
              /\ error r = Some "auditContent.replace is not a function"%string
       end.
Proof.
  unfold sendAuditEmail, emails_send. run_effects.
  destruct auditContent; simpl;
    try (eexists _, _; split; [intros w; reflexivity|]; split; [reflexivity|];
         split; reflexivity).
  destruct (send_answer E) as [answer|e]; simpl.
  2:{ eexists _, _. split; [intros w; rewrite <- !app_assoc; reflexivity|].
      split; [reflexivity|]. eexists. repeat split. }
  destruct answer as [dat err]. cbn [Effect.error data].
  destruct err as [e|]; simpl.
  { eexists _, _. split; [intros w; rewrite <- !app_assoc; reflexivity|].
    split; [destruct dat; reflexivity|]. eexists. repeat split. }
  destruct dat as [id|]; simpl.
  - eexists _, _. split; [intros w; rewrite <- !app_assoc; reflexivity|].
    split; [reflexivity|]. eexists. repeat split.
  - eexists _, _. split; [intros w; rewrite <- !app_assoc; reflexivity|].
    split; [reflexivity|]. eexists. repeat split.
Qed.

(** X3: [sendAuditEmail] never throws and never touches the store, and
    it reports success exactly when the report is a string and the provider
    resolved with data and no error: a provider error, a rejected call, an
    answer without data and a report that is not a string all give
    [success = false], and then the result carries an error message. *)
Theorem sendAuditEmail_outcome (customerEmail : option string)
        (businessUrl : string) (auditContent : Js.value) (orderId : string)
        (w : world) :
  exists r w',
    sendAuditEmail E customerEmail businessUrl auditContent orderId w
    = (Returned r, w')
    /\ sales w' = sales w
    /\ success r = (is_text auditContent && provider_accepts (send_answer E))%bool
    /\ if success r then error r = None else exists m, error r = Some m.
Proof.
  destruct (sendAuditEmail_calls customerEmail businessUrl auditContent orderId)
    as (r & calls & Hrun & Hs & _).
  exists r, (extend w calls). split; [apply Hrun|]. split; [reflexivity|].
  split; [exact Hs|].
  specialize (Hrun w). revert Hrun.
  unfold sendAuditEmail, emails_send. run_effects.
  destruct auditContent; simpl;
    try (intros [= <- _]; simpl; eauto).
  destruct (send_answer E) as [[dat [e|]]|e]; simpl;
    try (intros [= <- _]; simpl; eauto).
  destruct dat; simpl; intros [= <- _]; simpl; eauto.
Qed.

(** X4: [sendAuditEmail] hands at most one message to the provider: one
    when the report is a string, addressed to the customer and tagged with
    the sanitised orderId, and none at all when the report is not a
    string. *)
Theorem sendAuditEmail_sends_once (customerEmail : option string)
        (businessUrl : string) (auditContent : Js.value) (orderId : string)
        (w : world) :
  exists r w',
    sendAuditEmail E customerEmail businessUrl auditContent orderId w
    = (Returned r, w')
    /\ match auditContent with
       | Js.Str _ =>
           exists msg,
             service_calls (trace w') = service_calls (trace w) ++ [EmailsSend msg]
             /\ to msg = [customerEmail]
             /\ tags msg = [("audit"%string, Regex.replace_unsafe 0 orderId)]
       | _ => service_calls (trace w') = service_calls (trace w)
       end.
Proof.
  destruct (sendAuditEmail_calls customerEmail businessUrl auditContent orderId)
    as (r & calls & Hrun & _ & Hcalls).
  exists r, (extend w calls). split; [apply Hrun|]. cbn [extend trace].
  rewrite service_calls_app.
  destruct auditContent;
    try (destruct Hcalls as [-> _]; apply app_nil_r).
  destruct Hcalls as (msg & -> & Hto & Htags & _). exists msg. auto.
Qed.

End Collaborators.

(** * Further properties: texts *)

Section Texts.

Lemma tag_safe_ascii (c : ascii) :
  Regex.tag_safe c = true -> N.ltb (Text.byte_of c) 128 = true.
Proof.
  destruct c as [[] [] [] [] [] [] [] []]; intros H;
    try reflexivity; discriminate H.
Qed.

Lemma replace_unsafe_safe (skip : nat) (s : string) :
  all_tag_safe (Regex.replace_unsafe skip s) = true.
Proof.
  revert skip. induction s as [|c s IH]; intros skip; [reflexivity|].
  destruct skip as [|k]; cbn [Regex.replace_unsafe]; [|apply IH].
  destruct (N.ltb (Text.byte_of c) 128).
  - cbn [all_tag_safe]. rewrite IH, andb_true_r.
    destruct (Regex.tag_safe c) eqn:Hc; [exact Hc | reflexivity].
  - destruct (N.ltb (Text.byte_of c) 240); cbn [all_tag_safe]; rewrite IH; reflexivity.
Qed.

Lemma replace_unsafe_id (s : string) :
  all_tag_safe s = true -> Regex.replace_unsafe 0 s = s.
Proof.
  induction s as [|c s IH]; [reflexivity|].
  cbn [all_tag_safe Regex.replace_unsafe]. intros H.
  apply andb_true_iff in H as [Hc Hs].
  rewrite (tag_safe_ascii c Hc), Hc, (IH Hs). reflexivity.
Qed.

(** X5: the tag value [sendAuditEmail] attaches is tag-safe whatever
    the orderId is: every character of [orderId.replace(/[^a-zA-Z0-9-_]/g,
    '_')] is a letter, a digit, ["-"] or ["_"]; and sanitising twice is
    sanitising once. *)
Theorem sanitised_tag_is_safe (orderId : string) :
  all_tag_safe (Regex.replace_unsafe 0 orderId) = true
  /\ Regex.replace_unsafe 0 (Regex.replace_unsafe 0 orderId)
     = Regex.replace_unsafe 0 orderId.
Proof.
  split; [apply replace_unsafe_safe|].
  apply replace_unsafe_id, replace_unsafe_safe.
Qed.

(** X6: an orderId that is already made of letters, digits, ["-"] and
    ["_"] is used as the tag unchanged. *)
Theorem safe_orderId_is_its_tag (orderId : string) :
  all_tag_safe orderId = true -> Regex.replace_unsafe 0 orderId = orderId.
Proof. apply replace_unsafe_id. Qed.

Lemma safe_orderId_is_its_tag_witness :
  all_tag_safe "ORD-1_a" = true /\ Regex.replace_unsafe 0 "ORD-1_a" = "ORD-1_a"%string.
Proof.
  split; [reflexivity|]. apply (safe_orderId_is_its_tag "ORD-1_a"). reflexivity.
Defined.

Lemma no_line_feed_app (a b : string) :
  no_line_feed (a +:+ b) = (no_line_feed a && no_line_feed b)%bool.
Proof.
  induction a as [|c a IH]; [reflexivity|].
  change (no_line_feed (String c (a +:+ b))
          = (no_line_feed (String c a) && no_line_feed b)%bool).
  cbn [no_line_feed]. rewrite IH, andb_assoc. reflexivity.
Qed.

Lemma replace_newlines_clean (s : string) :
  no_line_feed (Regex.replace_newlines s) = true.
Proof.
  induction s as [|c s IH]; [reflexivity|].
  cbn [Regex.replace_newlines].
  destruct (N.eqb (Text.byte_of c) 10) eqn:Hc.
  - rewrite no_line_feed_app, IH. reflexivity.
  - cbn [no_line_feed]. rewrite IH, andb_true_r.
    apply negb_true_iff, Ascii.eqb_neq. intros ->. discriminate Hc.
Qed.

(** X7: in the HTML body of the email no line feed of the report
    survives: [auditContent.replace(/\n/g, '<br>')] contains none, and a
    report is kept as it is exactly when it had none. *)
Theorem report_html_has_no_line_feed (auditContent : string) :
  no_line_feed (Regex.replace_newlines auditContent) = true
  /\ if no_line_feed auditContent
     then Regex.replace_newlines auditContent = auditContent
     else Regex.replace_newlines auditContent <> auditContent.
Proof.
  split; [apply replace_newlines_clean|].
  destruct (no_line_feed auditContent) eqn:Hn.
  - induction auditContent as [|c s IH]; [reflexivity|].
    cbn [no_line_feed] in Hn. apply andb_true_iff in Hn as [Hc Hs].
    cbn [Regex.replace_newlines].
    replace (N.eqb (Text.byte_of c) 10) with false.
    + rewrite (IH Hs). reflexivity.
    + symmetry. apply N.eqb_neq. intros Hb.
      apply negb_true_iff, Ascii.eqb_neq in Hc. apply Hc.
      rewrite <- (ascii_N_embedding c). unfold Text.byte_of in Hb. rewrite Hb.
      reflexivity.
  - intros Heq. rewrite <- Heq, replace_newlines_clean in Hn. discriminate Hn.
Qed.

Lemma strip_prefix_sound (p s rest : string) :
  Text.strip_prefix p s = Some rest -> s = p +:+ rest.
Proof.
  revert s. induction p as [|c p IH]; intros s H.
  - injection H as ->. reflexivity.
  - destruct s as [|d s]; [discriminate H|]. cbn [Text.strip_prefix] in H.
    destruct (Ascii.eqb_spec c d) as [->|]; [|discriminate H].
    change (String d s = String d (p +:+ rest)). rewrite (IH s H). reflexivity.
Qed.

(** X8: the normalisation of businessUrl only ever removes a prefix,
    and only one of six: nothing, ["www."], ["http://"], ["http://www."],
    ["https://"] or ["https://www."]. What follows the prefix is kept
    character for character (so the match is case-sensitive, and a scheme
    that is repeated is removed once). *)
Theorem normalisation_removes_a_prefix (raw : string) :
  exists prefix,
    prefix ∈ removable_prefixes
    /\ raw = prefix +:+ Regex.replace_at_start Regex.scheme_www "" raw.
Proof.
  rewrite replace_scheme_www. unfold normalized, without_scheme, without_prefix.
  unfold removable_prefixes.
  destruct (Text.strip_prefix "https://" raw) as [r1|] eqn:H1.
  - apply strip_prefix_sound in H1.
    destruct (Text.strip_prefix "www." r1) as [r2|] eqn:H2.
    + apply strip_prefix_sound in H2. exists "https://www."%string.
      split; [repeat constructor|]. rewrite H1, H2. reflexivity.
    + exists "https://"%string. split; [repeat constructor | exact H1].
  - destruct (Text.strip_prefix "http://" raw) as [r1|] eqn:H3.
    + apply strip_prefix_sound in H3.
      destruct (Text.strip_prefix "www." r1) as [r2|] eqn:H2.
      * apply strip_prefix_sound in H2. exists "http://www."%string.
        split; [repeat constructor|]. rewrite H3, H2. reflexivity.
      * exists "http://"%string. split; [repeat constructor | exact H3].
    + destruct (Text.strip_prefix "www." raw) as [r2|] eqn:H2.
      * apply strip_prefix_sound in H2. exists "www."%string.
        split; [repeat constructor | exact H2].
      * exists ""%string. split; [repeat constructor | reflexivity].
Qed.

End Texts.

(** * Further properties: the service account *)

Section ServiceAccount.

Lemma unescape_head (s : string) :
  match s with String d _ => Ascii.eqb d "n" | EmptyString => false end = false ->
  match Init.unescape_newlines 0 s with
  | String d _ => Ascii.eqb d "n"
  | EmptyString => false
  end = false.
Proof.
  destruct s as [|c s]; [reflexivity|]. intros Hc.
  cbn [Init.unescape_newlines].
  destruct (Ascii.eqb c "\") eqn:Hb; [|exact Hc].
  destruct s as [|d s]; [exact Hc|].
  destruct (Ascii.eqb d "n"); [reflexivity | exact Hc].
Qed.

Lemma unescape_clean (skip : nat) (s : string) :
  no_backslash_n (Init.unescape_newlines skip s) = true.
Proof.
  revert skip. induction s as [|c s IH]; intros skip; [reflexivity|].
  destruct skip as [|k]; cbn [Init.unescape_newlines]; [|apply IH].
  destruct (Ascii.eqb c "\") eqn:Hb.
  - destruct s as [|d s].
    + cbn. rewrite andb_false_r. reflexivity.
    + destruct (Ascii.eqb d "n") eqn:Hd.
      * change (no_backslash_n
                  (String (Text.char_of 10) (Init.unescape_newlines 1 (String d s)))
                = true).
        cbn [no_backslash_n]. rewrite IH. reflexivity.
      * change (no_backslash_n (String c (Init.unescape_newlines 0 (String d s)))
                = true).
        cbn [no_backslash_n]. rewrite IH, andb_true_r.
        rewrite (unescape_head (String d s) Hd). rewrite andb_false_r. reflexivity.
  - change (no_backslash_n (String c (Init.unescape_newlines 0 s)) = true).
    cbn [no_backslash_n]. rewrite IH, Hb. reflexivity.
Qed.

Lemma unescape_escape (s : string) :
  no_backslash_n s = true ->
  Init.unescape_newlines 0 (escape_newlines s) = s.
Proof.
  induction s as [|c s IH]; [reflexivity|].
  cbn [no_backslash_n escape_newlines]. intros H.
  apply andb_true_iff in H as [Hc Hs]. specialize (IH Hs).
  destruct (Ascii.eqb_spec c line_feed) as [->|Hlf].
  - cbn [Init.unescape_newlines]. cbn. rewrite IH. reflexivity.
  - cbn [Init.unescape_newlines].
    destruct (Ascii.eqb c "\") eqn:Hb.
    + cbn [andb] in Hc. apply negb_true_iff in Hc.
      assert (match escape_newlines s with
              | String d _ => Ascii.eqb d "n"
              | EmptyString => false
              end = false) as Hhead.
      { destruct s as [|d s]; [reflexivity|]. cbn [escape_newlines].
        destruct (Ascii.eqb d line_feed); [reflexivity | exact Hc]. }
      destruct (escape_newlines s) as [|d rest] eqn:Hesc.
      * rewrite IH. reflexivity.
      * rewrite Hhead, IH. reflexivity.
    + rewrite IH. reflexivity.
Qed.

(** X9: the service account built at module load restores a private
    key that the environment holds on one line: when
    [FIREBASE_PRIVATE_KEY] is a key text with each line feed written as a
    backslash followed by ["n"] (and the key text has no such pair of its
    own), [private_key] is the key text again. *)
Theorem private_key_is_restored (env : gmap string string) (pem : string) :
  no_backslash_n pem = true ->
  env !! "FIREBASE_PRIVATE_KEY"%string = Some (escape_newlines pem) ->
  Init.private_key (Init.serviceAccount env) = Some pem.
Proof.
  intros Hpem Henv. unfold Init.serviceAccount. cbn [Init.private_key].
  rewrite Henv. cbn. rewrite (unescape_escape pem Hpem). reflexivity.
Qed.

Lemma private_key_is_restored_witness :
  no_backslash_n sample_key = true
  /\ sample_process_env !! "FIREBASE_PRIVATE_KEY"%string
     = Some "-----BEGIN KEY-----\n-----END KEY-----"%string
  /\ Init.private_key (Init.serviceAccount sample_process_env) = Some sample_key.
Proof.
  assert (sample_process_env !! "FIREBASE_PRIVATE_KEY"%string
          = Some (escape_newlines sample_key)) as Henv
    by (vm_compute; reflexivity).
  split; [reflexivity|]. split; [rewrite Henv; vm_compute; reflexivity|].
  exact (private_key_is_restored sample_process_env sample_key eq_refl Henv).
Defined.

(** X10: whatever the environment holds, the service account never
    has a backslash followed by ["n"] left in its private key, it has no
    private key (and nothing is thrown) when the variable is not set, and
    its universe domain is never empty: it is ["googleapis.com"] when the
    variable is not set or empty. *)
Theorem service_account_defaults (env : gmap string string) :
  match Init.private_key (Init.serviceAccount env) with
  | Some key => no_backslash_n key = true
                /\ exists raw, env !! "FIREBASE_PRIVATE_KEY"%string = Some raw
  | None => env !! "FIREBASE_PRIVATE_KEY"%string = None
  end
  /\ Init.universe_domain (Init.serviceAccount env) <> ""%string
  /\ Init.universe_domain (Init.serviceAccount env)
     = first_present [env !! "FIREBASE_UNIVERSE_DOMAIN"%string] "googleapis.com".
Proof.
  unfold Init.serviceAccount. cbn [Init.private_key Init.universe_domain].
  split; [|split].
  - destruct (env !! "FIREBASE_PRIVATE_KEY"%string) as [raw|]; cbn; [|reflexivity].
    split; [apply unescape_clean | eauto].
  - destruct (env !! "FIREBASE_UNIVERSE_DOMAIN"%string) as [[|c s]|]; discriminate.
  - apply or_else_first_present.
Qed.

End ServiceAccount.

(** * Further properties: the intake workflow *)

Section Workflow.
Import Effect ProcessSale.
Variable E : env.

(** The [try] block with its calls to the outside. *)
Lemma handler_try_calls (event : Event.t) :
  let p := parse E (Event.body event) in
  exists audit r pre req,
    (forall w,
        handler_try E event w
        = (Returned {| statusCode := 200;
                       body := Complete (success r)
                                 "Cyrnel Origin audit workflow complete."
                                 (p_orderId p) |},
           {| sales :=
                match set_answer E with
                | Returned t =>
                    <[p_orderId p := stored t (sale_fields p r)]> (sales w)
                | Thrown _ => sales w
                end;
              trace := trace w ++ pre
                       ++ [DocSet "sales" (p_orderId p) (sale_fields p r);
                           persistence_line (set_answer E)] |}))
    /\ Js.ToBoolean audit = true
    /\ success r = (is_text audit && provider_accepts (send_answer E))%bool
    /\ match audit with
       | Js.Str _ =>
           exists msg,
             service_calls pre = [Fetch req; EmailsSend msg]
             /\ to msg = [p_email p]
             /\ tags msg = [("audit"%string, Regex.replace_unsafe 0 (p_orderId p))]
       | _ => service_calls pre = [Fetch req]
       end.
Proof.
  intros p.
  destruct (generateAIaudit_calls E (p_businessUrl p))
    as (audit & c1 & req & Hgen & Hc1 & _ & _ & _ & _ & Htruthy).
  destruct (sendAuditEmail_calls E (p_email p) (p_businessUrl p) audit (p_orderId p))
    as (r & c2 & Hsend & Hsuccess & Hc2).
  exists audit, r.
  eexists (_ :: c1 ++ c2). exists req.
  split.
  { intros w. unfold handler_try. fold p.
    unfold bind at 1. unfold console_log at 1, record at 1. cbv beta iota.
    unfold bind at 1. rewrite Hgen.
    unfold bind at 1. rewrite Hsend.
    unfold bind, try_catch, sales_doc_set, console_log, console_error, record,
      ret, extend, persistence_line.
    destruct (set_answer E) as [t|e]; simpl;
      (f_equal; f_equal; repeat rewrite <- app_assoc; reflexivity). }
  split; [exact Htruthy|]. split; [exact Hsuccess|].
  change (service_calls (?c :: c1 ++ c2)) with (service_calls (c1 ++ c2)).
  rewrite service_calls_app, Hc1.
  destruct audit; try (destruct Hc2 as [-> _]; reflexivity).
  destruct Hc2 as (msg & -> & Hto & Htags & _). exists msg. auto.
Qed.

(** X11: the calls a notification makes to outside services, in
    order. A POST makes exactly one request to the completion service,
    then hands at most one email to the provider, then makes exactly one
    write to the [sales] collection under the parsed orderId: the write is
    attempted whatever the delivery gave, and the record it carries says
    whether the email was accepted. Any other method reaches no outside
    service at all. *)
Theorem process_sale_call_order (event : Event.t) (w : world) :
  let p := parse E (Event.body event) in
  exists response w',
    handler E event w = (Returned response, w')
    /\ if String.eqb (Event.httpMethod event) "POST"
       then exists req sends fields,
           service_calls (trace w')
           = service_calls (trace w) ++ [Fetch req] ++ sends
             ++ [DocSet "sales" (p_orderId p) fields]
           /\ match sends with
              | [] => emailDelivered fields = Some false
              | [EmailsSend msg] =>
                  to msg = [p_email p]
                  /\ emailDelivered fields
                     = Some (provider_accepts (send_answer E))
              | _ => False
              end
       else service_calls (trace w') = service_calls (trace w).
Proof.
  intros p. rewrite handler_runs.
  destruct (String.eqb (Event.httpMethod event) "POST").
  2:{ eexists _, _. split; [reflexivity|]. cbn [extend trace].
      rewrite service_calls_app. apply app_nil_r. }
  destruct (handler_try_calls event) as (audit & r & pre & req & Hrun & _ & Hs & Hpre).
  fold p in Hrun, Hpre. rewrite Hrun. eexists _, _. split; [reflexivity|].
  cbn [extend trace]. rewrite !service_calls_app.
  change (service_calls [triggered_line]) with (@nil call).
  change (service_calls [DocSet "sales" (p_orderId p) (sale_fields p r);
                         persistence_line (set_answer E)])
    with (DocSet "sales" (p_orderId p) (sale_fields p r)
          :: service_calls [persistence_line (set_answer E)]).
  replace (service_calls [persistence_line (set_answer E)]) with (@nil call)
    by (destruct (set_answer E); reflexivity).
  rewrite app_nil_r.
  destruct audit;
    try (exists req, [], (sale_fields p r); rewrite Hpre;
         split; [reflexivity|]; cbn [sale_fields emailDelivered];
         rewrite Hs; reflexivity).
  destruct Hpre as (msg & -> & Hto & _).
  exists req, [EmailsSend msg], (sale_fields p r). split; [reflexivity|].
  split; [exact Hto|]. cbn [sale_fields emailDelivered]. rewrite Hs. reflexivity.
Qed.

(** X12: an invocation changes at most one document of the store, the
    one under its own orderId: every other document is as before, no
    document is ever removed, and the collection grows by at most one. *)
Theorem process_sale_touches_one_document (event : Event.t) (w : world) :
  let key := p_orderId (parse E (Event.body event)) in
  exists response w',
    handler E event w = (Returned response, w')
    /\ delete key (sales w') = delete key (sales w)
    /\ dom (sales w) ⊆ dom (sales w')
    /\ (size (sales w') <= S (size (sales w)))%nat.
Proof.
  intros key. rewrite handler_runs.
  destruct (String.eqb (Event.httpMethod event) "POST").
  2:{ eexists _, _. split; [reflexivity|]. cbn [extend sales].
      split; [reflexivity|]. split; [reflexivity | lia]. }
  destruct (handler_try_calls event) as (audit & r & pre & req & Hrun & _).
  rewrite Hrun. eexists _, _. split; [reflexivity|]. cbn [extend sales].
  fold key. destruct (set_answer E) as [t|e].
  - split; [apply delete_insert_eq|].
    split; [apply dom_insert_subseteq|].
    destruct (sales w !! key) as [old|] eqn:Hold.
    + rewrite map_size_insert_Some by eauto. lia.
    + rewrite map_size_insert_None by exact Hold. lia.
  - split; [reflexivity|]. split; [reflexivity | lia].
Qed.

(** X13: the sale processor never consults the store: its response
    and the calls it makes are the same whatever the store holds. So a
    notification whose order is already recorded is processed like a new
    one, and when it is processed twice in a row the emails of the run are
    handed to the provider twice. *)
Theorem process_sale_ignores_the_store (event : Event.t) :
  exists response calls,
    (forall w, exists w',
        handler E event w = (Returned response, w')
        /\ trace w' = trace w ++ calls)
    /\ forall w,
        emails_sent (trace (snd (handler E event (snd (handler E event w)))))
        = (emails_sent (trace w) + 2 * emails_sent calls)%nat.
Proof.
  destruct (handler_try_calls event) as (audit & r & pre & req & Hrun & _).
  destruct (String.eqb (Event.httpMethod event) "POST") eqn:Hm.
  - eexists _, (triggered_line :: pre ++ _). split.
    + intros w. rewrite handler_runs, Hm, Hrun. eexists. split; [reflexivity|].
      cbn [extend trace]. rewrite <- app_assoc. reflexivity.
    + intros w. rewrite !handler_runs, Hm, !Hrun. cbn [snd extend trace].
      rewrite <- !app_assoc. rewrite !emails_sent_app.
      change (emails_sent [triggered_line]) with 0%nat.
      change (emails_sent (triggered_line :: ?l)) with (emails_sent l).
      rewrite !emails_sent_app. lia.
  - eexists _, [triggered_line]. split.
    + intros w. rewrite handler_runs, Hm. eexists. split; reflexivity.
    + intros w. rewrite !handler_runs, Hm. cbn [snd extend trace].
      rewrite !emails_sent_app. change (emails_sent [triggered_line]) with 0%nat.
      lia.
Qed.

Lemma or_else_not_empty (x : option string) (d : string) :
  d <> ""%string -> or_else x d <> ""%string.
Proof.
  intros Hd. unfold or_else. destruct x as [[|c s]|]; cbn; [exact Hd | discriminate | exact Hd].
Qed.

Lemma all_tag_safe_app (a b : string) :
  all_tag_safe (a +:+ b) = (all_tag_safe a && all_tag_safe b)%bool.
Proof.
  induction a as [|c a IH]; [reflexivity|].
  change (all_tag_safe (String c (a +:+ b))
          = (all_tag_safe (String c a) && all_tag_safe b)%bool).
  cbn [all_tag_safe]. rewrite IH, andb_assoc. reflexivity.
Qed.

Lemma digit_is_tag_safe (c : ascii) :
  Text.in_range 48 57 c = true -> Regex.tag_safe c = true.
Proof.
  destruct c as [[] [] [] [] [] [] [] []]; intros H;
    try reflexivity; discriminate H.
Qed.

Lemma all_digits_tag_safe (s : string) :
  all_digits s = true -> all_tag_safe s = true.
Proof.
  induction s as [|c s IH]; [reflexivity|]. cbn [all_digits all_tag_safe].
  intros H. apply andb_true_iff in H as [Hc Hs].
  rewrite (digit_is_tag_safe c Hc), (IH Hs). reflexivity.
Qed.

(** X14: the orderId and the currency of a parsed notification are
    never empty, whatever the body is (so the document key given to the
    store is never the empty string). *)
Theorem parsed_orderId_never_empty (event_body : option string) :
  p_orderId (parse E event_body) <> ""%string
  /\ p_currency (parse E event_body) <> ""%string.
Proof.
  unfold parse. cbn [p_orderId p_currency].
  split; apply or_else_not_empty; discriminate.
Qed.

(** X15: when the notification carries no [sale_id] (or an empty
    one) the orderId is ["ORD-"] followed by the decimal digits of the
    clock, and the email is tagged with that very id: the sanitisation
    leaves it as it is. *)
Theorem generated_orderId_is_its_tag (event_body : option string) :
  0 <= now E ->
  absent (Url.fromEntries (Url.URLSearchParams_entries event_body)
            !! "sale_id"%string) = true ->
  let id := p_orderId (parse E event_body) in
  id = ("ORD-" +:+ Text.decimal_Z (now E))%string
  /\ Regex.replace_unsafe 0 id = id.
Proof.
  intros Hnow Habs id.
  assert (id = ("ORD-" +:+ Text.decimal_Z (now E))%string) as Hid.
  { subst id. unfold parse. cbn [p_orderId]. unfold or_else.
    destruct (Url.fromEntries _ !! "sale_id"%string) as [[|c s]|];
      [reflexivity | discriminate Habs | reflexivity]. }
  split; [exact Hid|]. rewrite Hid. apply replace_unsafe_id.
  rewrite all_tag_safe_app. apply andb_true_iff. split; [reflexivity|].
  apply all_digits_tag_safe. unfold Text.decimal_Z.
  destruct (now E) as [|n|n]; [reflexivity | apply decimal_N_digits | lia].
Qed.

End Workflow.

Lemma generated_orderId_is_its_tag_witness :
  0 <= ProcessSale.now sample_env
  /\ absent (Url.fromEntries (Url.URLSearchParams_entries price_only_body)
               !! "sale_id"%string) = true
  /\ ProcessSale.p_orderId (ProcessSale.parse sample_env price_only_body)
     = "ORD-1700000000000"%string
  /\ Regex.replace_unsafe 0
       (ProcessSale.p_orderId (ProcessSale.parse sample_env price_only_body))
     = ProcessSale.p_orderId (ProcessSale.parse sample_env price_only_body).
Proof.
  assert (absent (Url.fromEntries (Url.URLSearchParams_entries price_only_body)
                    !! "sale_id"%string) = true) as Habs
    by (vm_compute; reflexivity).
  assert (0 <= ProcessSale.now sample_env) as Hnow by (vm_compute; discriminate).
  destruct (generated_orderId_is_its_tag sample_env price_only_body Hnow Habs)
    as [Hid Htag].
  split; [exact Hnow|]. split; [exact Habs|]. split; [|exact Htag].
  rewrite Hid. vm_compute. reflexivity.
Defined.

(** * Further properties: the dashboard reader *)

Section Dashboard.
Import Effect GetDashboard.

(** X16: the dashboard reader never throws and never writes: the
    store is as before, and the only call to an outside service is one
    query of the [sales] collection, newest first and limited to 50, made
    exactly when the key check passes. A fault of the query is answered
    with status 500, and the body carries the message of the fault. *)
Theorem dashboard_reads_once (E : env) (event : Event.t) (w : world) :
  let authorised := bool_decide (supplied_key event = DASHBOARD_SECRET_KEY E) in
  exists response w',
    handler E event w = (Returned response, w')
    /\ sales w' = sales w
    /\ service_calls (trace w')
       = service_calls (trace w)
         ++ (if authorised then [QueryGet "sales" "timestamp" "desc" 50] else [])
    /\ match get_answer E with
       | Thrown fault =>
           if authorised
           then response
                = {| statusCode := 500; headers := [];
                     body := Failure "Failed to fetch data" (Some (message fault)) |}
           else statusCode response = 401
       | Returned _ => statusCode response = if authorised then 200 else 401
       end.
Proof.
  intros authorised. rewrite dashboard_handler_runs. fold authorised.
  destruct authorised.
  - destruct (get_answer E) as [docs|fault]; eexists _, _;
      (split; [reflexivity|]); (split; [reflexivity|]);
      (split; [cbn [extend trace]; rewrite service_calls_app; reflexivity|]);
      reflexivity.
  - eexists _, _. split; [reflexivity|]. split; [reflexivity|].
    split; [symmetry; apply app_nil_r|]. destruct (get_answer E); reflexivity.
Qed.

Lemma delivered_views (docs : list (string * sale)) :
  length (List.filter emailDelivered (map (fun doc => view doc.1 doc.2) docs))
  = length (List.filter delivered (map snd docs)).
Proof.
  induction docs as [|[doc_id r] docs IH]; [reflexivity|].
  cbn [map List.filter fst snd]. unfold delivered at 1, view at 1.
  cbn [emailDelivered].
  destruct (Effect.emailDelivered r) as [[|]|]; cbn; rewrite ?IH; reflexivity.
Qed.

Lemma number_or_not_nan (x : option float) : is_nan (number_or x 0) = false.
Proof.
  unfold number_or. destruct x as [v|]; [|reflexivity].
  destruct (Number.truthy v) eqn:Ht; [|reflexivity].
  unfold Number.truthy in Ht. apply negb_true_iff, orb_false_iff in Ht.
  apply Ht.
Qed.

(** X17: whenever the dashboard reader answers with a dashboard, what
    it shows is consistent: at most 50 sales, in the order of the query
    and under their document ids; [totalSales] is the number of sales
    shown; [successfulDeliveries] is the number of sales shown as
    delivered, between 0 and [totalSales]; and no sale is shown with an
    amount that is NaN or with an empty customerEmail, businessUrl or
    currency. *)
Theorem dashboard_is_consistent (E : env) (event : Event.t) (w : world) :
  exists response w',
  handler E event w = (Returned response, w') /\
  match body response with
  | Dashboard s views =>
      exists docs,
        get_answer E = Returned docs
        /\ map id views = map fst (firstn 50 docs)
        /\ (length views <= 50)%nat
        /\ totalSales s = Z.of_nat (length views)
        /\ successfulDeliveries s
           = Z.of_nat (length (List.filter emailDelivered views))
        /\ 0 <= successfulDeliveries s <= totalSales s
        /\ Forall (fun v => is_nan (amount v) = false
                            /\ customerEmail v <> ""%string
                            /\ businessUrl v <> ""%string
                            /\ currency v <> ""%string) views
  | Failure _ _ => statusCode response <> 200
  end.
Proof.
  rewrite dashboard_handler_runs.
  destruct (bool_decide _);
    [|eexists _, _; split; [reflexivity | discriminate]].
  destruct (get_answer E) as [docs|fault];
    [|eexists _, _; split; [reflexivity | discriminate]].
  eexists _, _. split; [reflexivity|].
  cbn [body]. unfold summarize.
  rewrite fold_visit_recentSales, fold_visit_deliveries.
  cbn [t_recentSales t_successfulDeliveries app totalSales successfulDeliveries].
  exists docs. split; [reflexivity|].
  split. { rewrite map_map. reflexivity. }
  rewrite length_map.
  assert (length (firstn 50 docs) <= 50)%nat as Hlen
    by (rewrite length_firstn; lia).
  split; [exact Hlen|]. split; [reflexivity|].
  rewrite delivered_views, Z.add_0_l. unfold count_delivered.
  split; [reflexivity|].
  split. { split; [lia|]. apply inj_le. rewrite <- (length_map snd (firstn 50 docs)).
           apply filter_length_le. }
  apply Forall_forall. intros v Hv. apply list_elem_of_In, in_map_iff in Hv.
  destruct Hv as ([doc_id r] & <- & _). unfold view. cbn.
  split; [apply number_or_not_nan|].
  repeat split; apply or_else_not_empty; discriminate.
Qed.

End Dashboard.

(** * Further properties: the amount *)

Section Amount.
Import Effect ProcessSale.

Lemma digit_starts_number (c : ascii) (r : string) :
  Text.in_range 48 57 c = true ->
  Number.trim_start (String c r) = String c r
  /\ Number.take_sign (String c r) = (false, String c r)
  /\ Text.strip_prefix "Infinity" (String c r) = None.
Proof.
  intros Hc. apply digit_cases in Hc. cbn in Hc.
  repeat (destruct Hc as [<-|Hc];
          [split; [destruct r as [|b [|c3 r3]]; reflexivity|]; split; reflexivity|]).
  contradiction.
Qed.

(** The text of an amount with two decimals reads back as the binary64
    nearest to the amount. *)
Lemma parseFloat_two_decimals (n : N) :
  Number.parseFloat (two_decimals n) = Number.of_ratio false n 100.
Proof.
  unfold two_decimals.
  set (d1 := Text.digit_char (n / 10 mod 10)).
  set (d0 := Text.digit_char (n mod 10)).
  change ("." +:+ String d1 (String d0 ""))
    with (String "." (String d1 (String d0 ""))).
  destruct (take_digits_decimal (n / 100)) as (L & HL & Hrun).
  specialize (Hrun (String "." (String d1 (String d0 ""))) 0%N 0%nat).
  destruct (decimal_N_digits (n / 100)) as [Hall Hne].
  destruct (Text.decimal_N (n / 100)) as [|c r] eqn:HA; [contradiction|].
  cbn [all_digits] in Hall. apply andb_true_iff in Hall as [Hc _].
  change (String c r +:+ String "." (String d1 (String d0 "")))
    with (String c (r +:+ String "." (String d1 (String d0 "")))) in *.
  destruct (digit_starts_number c (r +:+ String "." (String d1 (String d0 ""))) Hc)
    as (Htrim & Hsign & Hinf).
  unfold Number.parseFloat. rewrite Htrim, Hsign, Hinf, Hrun.
  change (Number.take_digits 10 (String "." (String d1 (String d0 "")))
            (0 * 10 ^ N.of_nat L + n / 100) (0 + L))
    with ((0 * 10 ^ N.of_nat L + n / 100)%N, (0 + L)%nat,
          String "." (String d1 (String d0 ""))).
  cbv beta iota. rewrite Ascii.eqb_refl.
  cbn [Number.take_digits]. unfold d1, d0.
  destruct (digit_char_value (n / 10 mod 10)) as [_ ->]; [apply N.mod_lt; lia|].
  destruct (digit_char_value (n mod 10)) as [_ ->]; [apply N.mod_lt; lia|].
  destruct L as [|L']; [lia|]. cbn [Nat.add].
  replace (10 * (10 * (0 * 10 ^ N.of_nat (S L') + n / 100) + n / 10 mod 10)
           + n mod 10)%N with n.
  - reflexivity.
  - pose proof (N.div_mod n 10 ltac:(lia)) as H1.
    pose proof (N.div_mod (n / 10) 10 ltac:(lia)) as H2.
    rewrite N.Div0.div_div in H2. change (10 * 10)%N with 100%N in H2. lia.
Qed.

(** X18: the amount written to the store for a price of [n] minor
    units is the binary64 number nearest to [n / 100]: the amount is
    printed with two decimals and read back, and the reading gives the
    nearest number again. *)
Theorem stored_amount_reads_back (E : env) (event_body : option string) (n : N)
        (r : email_result) :
  (n < 2 ^ 49)%N ->
  Url.fromEntries (Url.URLSearchParams_entries event_body) !! "price"%string
  = Some (Text.decimal_N n) ->
  p_amount (parse E event_body) = Number.Known (two_decimals n)
  /\ amount (sale_fields (parse E event_body) r)
     = Some (Number.of_ratio false n 100).
Proof.
  intros Hn Hprice.
  assert (p_amount (parse E event_body) = Number.Known (two_decimals n)) as Ha.
  { unfold parse. cbn [p_amount]. rewrite Hprice.
    destruct (decimal_N_digits n) as [_ Hne].
    destruct (Text.decimal_N n) as [|c s] eqn:Hdec; [contradiction|].
    rewrite <- Hdec, parseInt_decimal, (toFixed_of_cents n Hn), layout_two_decimals.
    reflexivity. }
  split; [exact Ha|].
  unfold sale_fields. cbn [amount]. rewrite Ha.
  cbn [Number.parseFloat_text]. rewrite parseFloat_two_decimals. reflexivity.
Qed.

Lemma letter_is_not_a_number (c : ascii) (rest : string) :
  is_letter c = true -> Number.parseInt (String c rest) = nan.
Proof.
  destruct c as [[] [] [] [] [] [] [] []]; intros H;
    try discriminate H; destruct rest as [|b [|c3 r3]]; reflexivity.
Qed.

(** X19: a price that starts with a letter is not refused: the amount
    of the notification is the text ["NaN"], the record written to the
    store carries the number NaN, and the dashboard shows that record with
    the amount 0 and leaves it out of the revenue. *)
Theorem letter_price_is_recorded_as_NaN (E : env) (event_body : option string)
        (c : ascii) (rest : string) (r : email_result) :
  Url.fromEntries (Url.URLSearchParams_entries event_body) !! "price"%string
  = Some (String c rest) ->
  is_letter c = true ->
  let p := parse E event_body in
  p_amount p = Number.Known "NaN"
  /\ exists v,
       amount (sale_fields p r) = Some v
       /\ is_nan v = true
       /\ forall doc_id acc,
           GetDashboard.amount (GetDashboard.view doc_id (sale_fields p r)) = 0%float
           /\ GetDashboard.t_totalRevenue
                (GetDashboard.visit acc (doc_id, sale_fields p r))
              = GetDashboard.t_totalRevenue acc.
Proof.
  intros Hprice Hc p.
  assert (p_amount p = Number.Known "NaN") as Ha.
  { unfold p, parse. cbn [p_amount]. rewrite Hprice.
    rewrite (letter_is_not_a_number c rest Hc). vm_compute. reflexivity. }
  split; [exact Ha|].
  assert (amount (sale_fields p r) = Some nan) as Hv.
  { unfold sale_fields. cbn [amount]. rewrite Ha. vm_compute. reflexivity. }
  exists nan. split; [exact Hv|]. split; [reflexivity|].
  intros doc_id acc. unfold GetDashboard.view, GetDashboard.visit.
  cbn [GetDashboard.amount GetDashboard.t_totalRevenue]. rewrite Hv.
  split; reflexivity.
Qed.

End Amount.

Lemma stored_amount_reads_back_witness :
  (1999 < 2 ^ 49)%N
  /\ Url.fromEntries (Url.URLSearchParams_entries price_only_body) !! "price"%string
     = Some (Text.decimal_N 1999)
  /\ Effect.amount
       (ProcessSale.sale_fields (ProcessSale.parse sample_env price_only_body)
          {| ProcessSale.success := true; ProcessSale.emailId := None;
             ProcessSale.error := None |})
     = Some 0x1.3fd70a3d70a3dp+4%float.
Proof.
  assert (Url.fromEntries (Url.URLSearchParams_entries price_only_body)
            !! "price"%string = Some (Text.decimal_N 1999)) as Hprice
    by (vm_compute; reflexivity).
  assert (1999 < 2 ^ 49)%N as Hn by (vm_compute; reflexivity).
  split; [exact Hn|]. split; [exact Hprice|].
  destruct (stored_amount_reads_back sample_env price_only_body 1999
              {| ProcessSale.success := true; ProcessSale.emailId := None;
                 ProcessSale.error := None |} Hn Hprice) as [_ Hstored].
  rewrite Hstored. vm_compute. reflexivity.
Defined.

Lemma letter_price_is_recorded_as_NaN_witness :
  Url.fromEntries (Url.URLSearchParams_entries letter_price_body) !! "price"%string
  = Some "free"%string
  /\ is_letter "f" = true
  /\ ProcessSale.p_amount (ProcessSale.parse sample_env letter_price_body)
     = Number.Known "NaN".
Proof.
  assert (Url.fromEntries (Url.URLSearchParams_entries letter_price_body)
            !! "price"%string = Some "free"%string) as Hprice
    by (vm_compute; reflexivity).
  split; [exact Hprice|]. split; [reflexivity|].
  exact (proj1 (letter_price_is_recorded_as_NaN sample_env letter_price_body
                  "f" "ree"
                  {| ProcessSale.success := true; ProcessSale.emailId := None;
                     ProcessSale.error := None |} Hprice eq_refl)).
Defined.

(** * Further properties: from the notification to the dashboard *)

Section EndToEnd.
Import Effect ProcessSale.

Lemma or_else_same (s d : string) : s <> ""%string -> or_else (Some s) d = s.
Proof. destruct s; [contradiction | reflexivity]. Qed.

(** X20: a sale recorded by the sale processor is shown by the
    dashboard reader as it was processed. When the write succeeds and the
    query returns the stored document among its first 50, the dashboard
    lists it under the orderId of the response, with the currency of the
    notification, [auditGenerated] true, [emailDelivered] equal to the
    [success] of the response and the time of the server; the customer
    email and the businessUrl are the parsed ones, or ["N/A"] when they
    are missing or empty. *)
Theorem recorded_sale_is_shown (E : env) (D : GetDashboard.env)
        (event get_event : Event.t) (w : world) (t : Z)
        (docs : list (string * sale)) (doc : sale) :
  Event.httpMethod event = "POST" ->
  set_answer E = Returned t ->
  supplied_key get_event = GetDashboard.DASHBOARD_SECRET_KEY D ->
  GetDashboard.get_answer D = Returned docs ->
  let p := parse E (Event.body event) in
  let outcome := handler E event w in
  sales (snd outcome) !! p_orderId p = Some doc ->
  (p_orderId p, doc) ∈ firstn 50 docs ->
  exists delivered s views v,
    fst outcome
    = Returned {| statusCode := 200;
                  body := Complete delivered
                            "Cyrnel Origin audit workflow complete."
                            (p_orderId p) |}
    /\ fst (GetDashboard.handler D get_event (snd outcome))
       = Returned {| GetDashboard.statusCode := 200;
                     GetDashboard.headers := [("Content-Type", "application/json")];
                     GetDashboard.body := GetDashboard.Dashboard s views |}
    /\ v ∈ views
    /\ GetDashboard.id v = p_orderId p
    /\ GetDashboard.orderId v = p_orderId p
    /\ GetDashboard.customerEmail v = first_present [p_email p] "N/A"
    /\ GetDashboard.businessUrl v = first_present [Some (p_businessUrl p)] "N/A"
    /\ GetDashboard.currency v = p_currency p
    /\ GetDashboard.auditGenerated v = true
    /\ GetDashboard.emailDelivered v = delivered
    /\ GetDashboard.timestamp v = GetDashboard.LocaleString t.
Proof.
  intros Hpost Hset Hkey Hdocs p outcome Hdoc Hin.
  destruct (handler_try_calls E event) as (audit & r & pre & req & Hrun & _).
  fold p in Hrun.
  assert (outcome = handler_try E event (extend w [triggered_line])) as Hout.
  { unfold outcome. rewrite handler_runs, Hpost. reflexivity. }
  rewrite Hout, Hrun in *. cbn [fst snd sales] in *.
  rewrite Hset, lookup_insert_eq in Hdoc. injection Hdoc as <-.
  rewrite dashboard_handler_runs, Hkey, Hdocs.
  rewrite bool_decide_eq_true_2 by reflexivity.
  unfold GetDashboard.summarize. rewrite fold_visit_recentSales. cbn [fst app].
  exists (success r). eexists _, _.
  exists (GetDashboard.view (p_orderId p) (stored t (sale_fields p r))).
  split; [reflexivity|]. split; [reflexivity|].
  split.
  { apply list_elem_of_fmap. eexists. split; [|exact Hin]. reflexivity. }
  assert (p_orderId p <> ""%string) as Hid
    by (apply or_else_not_empty; discriminate).
  assert (p_currency p <> ""%string) as Hcur
    by (apply or_else_not_empty; discriminate).
  unfold GetDashboard.view, stored, sale_fields.
  cbn [GetDashboard.id GetDashboard.orderId GetDashboard.customerEmail
       GetDashboard.businessUrl GetDashboard.currency
       GetDashboard.auditGenerated GetDashboard.emailDelivered
       GetDashboard.timestamp orderId customerEmail businessUrl currency
       auditGenerated emailDelivered timestamp].
  split; [reflexivity|]. split; [apply or_else_same, Hid|].
  split; [apply or_else_first_present|]. split; [apply or_else_first_present|].
  split; [apply or_else_same, Hcur|]. repeat split.
Qed.

End EndToEnd.

Lemma recorded_sale_is_shown_witness :
  Event.httpMethod sample_event = "POST"
  /\ ProcessSale.set_answer sample_env = Effect.Returned 1700000000500
  /\ supplied_key sample_get_event
     = GetDashboard.DASHBOARD_SECRET_KEY (reading [("ORD-1"%string, sample_recorded)])
  /\ Effect.sales (snd (ProcessSale.handler sample_env sample_event empty_world))
       !! "ORD-1"%string = Some sample_recorded
  /\ exists s views v,
       fst (GetDashboard.handler (reading [("ORD-1"%string, sample_recorded)])
              sample_get_event
              (snd (ProcessSale.handler sample_env sample_event empty_world)))
       = Effect.Returned
           {| GetDashboard.statusCode := 200;
              GetDashboard.headers := [("Content-Type", "application/json")];
              GetDashboard.body := GetDashboard.Dashboard s views |}
       /\ v ∈ views
       /\ GetDashboard.orderId v = "ORD-1"%string
       /\ GetDashboard.businessUrl v = "acme.io"%string
       /\ GetDashboard.timestamp v = GetDashboard.LocaleString 1700000000500.
Proof.
  assert (ProcessSale.p_orderId
            (ProcessSale.parse sample_env (Event.body sample_event))
          = "ORD-1"%string) as Hid by (vm_compute; reflexivity).
  assert (ProcessSale.p_businessUrl
            (ProcessSale.parse sample_env (Event.body sample_event))
          = "acme.io"%string) as Hurl by (vm_compute; reflexivity).
  assert (Effect.sales
            (snd (ProcessSale.handler sample_env sample_event empty_world))
            !! "ORD-1"%string = Some sample_recorded) as Hdoc
    by (vm_compute; reflexivity).
  split; [reflexivity|]. split; [reflexivity|]. split; [reflexivity|].
  split; [exact Hdoc|].
  destruct (recorded_sale_is_shown sample_env
              (reading [("ORD-1"%string, sample_recorded)])
              sample_event sample_get_event empty_world 1700000000500
              [("ORD-1"%string, sample_recorded)] sample_recorded
              eq_refl eq_refl eq_refl eq_refl)
    as (delivered & s & views & v & _ & Hdash & Hv & _ & Horder & _ & Hb & _
        & _ & _ & Htime).
  { rewrite Hid. exact Hdoc. }
  { rewrite Hid. apply list_elem_of_here. }
  rewrite Hid in Horder. rewrite Hurl in Hb.
  exists s, views, v. split; [exact Hdash|]. split; [exact Hv|].
  split; [exact Horder|]. split; [exact Hb | exact Htime].
Defined.

(** * Further properties: the form parser *)

Section FormParser.

Lemma split_on_not_nil (sep : ascii) (s : string) : Url.split_on sep s <> [].
Proof.
  induction s as [|c s IH]; [discriminate|]. cbn [Url.split_on].
  destruct (Ascii.eqb c sep); [discriminate|].
  destruct (Url.split_on sep s); discriminate.
Qed.

Lemma split_on_app (sep : ascii) (a b : string) :
  Url.split_on sep (a +:+ String sep b) = Url.split_on sep a ++ Url.split_on sep b.
Proof.
  induction a as [|c a IH].
  - change (Url.split_on sep (String sep b) = [""%string] ++ Url.split_on sep b).
    cbn [Url.split_on]. rewrite Ascii.eqb_refl. reflexivity.
  - change (Url.split_on sep (String c (a +:+ String sep b))
            = Url.split_on sep (String c a) ++ Url.split_on sep b).
    cbn [Url.split_on]. destruct (Ascii.eqb c sep).
    + rewrite IH. reflexivity.
    + rewrite IH. pose proof (split_on_not_nil sep a) as Hne.
      destruct (Url.split_on sep a) as [|h t]; [contradiction | reflexivity].
Qed.

Lemma split_on_free (sep : ascii) (s : string) :
  free_of sep s = true -> Url.split_on sep s = [s].
Proof.
  induction s as [|c s IH]; [reflexivity|]. cbn [free_of Url.split_on].
  intros H. apply andb_true_iff in H as [Hc Hs]. apply negb_true_iff in Hc.
  rewrite Hc, (IH Hs). reflexivity.
Qed.

Lemma free_of_app (sep : ascii) (a b : string) :
  free_of sep (a +:+ b) = (free_of sep a && free_of sep b)%bool.
Proof.
  induction a as [|c a IH]; [reflexivity|].
  change (free_of sep (String c (a +:+ b))
          = (free_of sep (String c a) && free_of sep b)%bool).
  cbn [free_of]. rewrite IH, andb_assoc. reflexivity.
Qed.

Lemma plain_free (s : string) :
  plain s = true -> free_of "&" s = true /\ free_of "=" s = true.
Proof.
  induction s as [|c s IH]; [split; reflexivity|]. cbn [plain free_of].
  intros H. apply andb_true_iff in H as [Hc Hs]. destruct (IH Hs) as [-> ->].
  unfold plain_char in Hc. repeat (apply andb_true_iff in Hc as [Hc ?]).
  split; apply andb_true_iff; split; auto.
Qed.

Lemma split_pair_app (k v : string) :
  free_of "=" k = true -> Url.split_pair (k +:+ String "=" v) = (k, v).
Proof.
  induction k as [|c k IH]; [reflexivity|]. cbn [free_of]. intros H.
  apply andb_true_iff in H as [Hc Hk]. apply negb_true_iff in Hc.
  change (Url.split_pair (String c (k +:+ String "=" v)) = (String c k, v)).
  cbn [Url.split_pair]. rewrite Hc, (IH Hk). reflexivity.
Qed.

Lemma decode_plain (s : string) : plain s = true -> Url.decode_component s = s.
Proof.
  unfold Url.decode_component. intros H.
  assert (Url.plus_to_space s = s) as ->.
  { induction s as [|c s IH]; [reflexivity|]. cbn [plain] in H.
    apply andb_true_iff in H as [Hc Hs]. cbn [Url.plus_to_space].
    unfold plain_char in Hc. repeat (apply andb_true_iff in Hc as [Hc ?]).
    replace (Ascii.eqb c "+") with false by (symmetry; apply negb_true_iff; assumption).
    rewrite (IH Hs). reflexivity. }
  assert (Url.percent_decode 0 s = s) as ->.
  { induction s as [|c s IH]; [reflexivity|]. cbn [plain] in H.
    apply andb_true_iff in H as [Hc Hs]. cbn [Url.percent_decode].
    unfold plain_char in Hc. repeat (apply andb_true_iff in Hc as [Hc ?]).
    replace (Ascii.eqb c "%") with false by (symmetry; apply negb_true_iff; assumption).
    rewrite (IH Hs). reflexivity. }
  induction s as [|c s IH]; [reflexivity|]. cbn [plain] in H.
  apply andb_true_iff in H as [Hc Hs]. cbn [Url.utf8_decode].
  unfold plain_char in Hc. repeat (apply andb_true_iff in Hc as [Hc ?]).
  rewrite Hc, (IH Hs). reflexivity.
Qed.

Lemma fromEntries_last (entries : list (string * string)) (k v : string) :
  Url.fromEntries (entries ++ [(k, v)]) !! k = Some v.
Proof.
  unfold Url.fromEntries. rewrite fold_left_app. cbn [fold_left fst snd].
  apply lookup_insert_eq.
Qed.

(** X21: the last field of a notification wins. Whatever the body
    holds before it (the same name included), a final [&name=value] with a
    plain name and a plain value (ASCII, without ["+"], ["%"], ["&"] and
    ["="]) makes [saleData[name]] that value. *)
Theorem last_field_wins (before name value : string) :
  plain name = true ->
  plain value = true ->
  Url.fromEntries
    (Url.URLSearchParams_entries
       (Some (before +:+ "&" +:+ name +:+ "=" +:+ value)))
    !! name = Some value.
Proof.
  intros Hname Hvalue.
  destruct (plain_free name Hname) as [Hn1 Hn2].
  destruct (plain_free value Hvalue) as [Hv1 _].
  change ("&" +:+ name +:+ "=" +:+ value)
    with (String "&" (name +:+ String "=" value)).
  assert (forall a,
             Url.fromEntries
               (Url.parse_urlencoded (a +:+ String "&" (name +:+ String "=" value)))
               !! name = Some value) as Hparse.
  { intros a. unfold Url.parse_urlencoded.
    rewrite split_on_app, List.filter_app, map_app.
    rewrite (split_on_free "&" (name +:+ String "=" value)).
    2:{ rewrite free_of_app, Hn1. cbn [free_of]. rewrite Hv1. reflexivity. }
    cbn [List.filter map].
    replace (Text.is_empty (name +:+ String "=" value)) with false
      by (destruct name; reflexivity).
    cbn [negb map]. rewrite (split_pair_app name value Hn2).
    rewrite (decode_plain name Hname), (decode_plain value Hvalue).
    apply fromEntries_last. }
  unfold Url.URLSearchParams_entries.
  destruct before as [|c rest]; [apply (Hparse ""%string)|].
  change (String c rest +:+ String "&" (name +:+ String "=" value))
    with (String c (rest +:+ String "&" (name +:+ String "=" value))).
  cbv beta iota. destruct (Ascii.eqb c "?").
  - apply Hparse.
  - apply (Hparse (String c rest)).
Qed.

End FormParser.

Lemma last_field_wins_witness :
  plain "sale_id" = true /\ plain "B2" = true
  /\ Url.fromEntries
       (Url.URLSearchParams_entries (Some "sale_id=A1&price=5&sale_id=B2"%string))
       !! "sale_id"%string = Some "B2"%string.
Proof.
  split; [reflexivity|]. split; [reflexivity|].
  exact (last_field_wins "sale_id=A1&price=5" "sale_id" "B2" eq_refl eq_refl).
Defined.

(** * The parse step, from the form-encoded body *)

Section FormEncoding.
Import Effect ProcessSale.

Lemma decode_encode_byte (c : ascii) (rest : string) :
  Url.percent_decode 0 (Url.plus_to_space (encode_byte c +:+ rest))
  = String c (Url.percent_decode 0 (Url.plus_to_space rest)).
Proof. destruct c as [[] [] [] [] [] [] [] []]; reflexivity. Qed.

Lemma decode_encode_bytes (s : string) :
  Url.percent_decode 0 (Url.plus_to_space (encode_component s)) = s.
Proof.
  induction s as [|c s IH]; [reflexivity|].
  cbn [encode_component]. rewrite decode_encode_byte, IH. reflexivity.
Qed.

Lemma encode_byte_free (c : ascii) :
  free_of "&" (encode_byte c) = true
  /\ free_of "=" (encode_byte c) = true
  /\ free_of "?" (encode_byte c) = true.
Proof. destruct c as [[] [] [] [] [] [] [] []]; repeat split. Qed.

Lemma encode_component_free (s : string) :
  free_of "&" (encode_component s) = true
  /\ free_of "=" (encode_component s) = true
  /\ free_of "?" (encode_component s) = true.
Proof.
  induction s as [|c s (IH1 & IH2 & IH3)]; [repeat split|].
  cbn [encode_component]. rewrite !free_of_app, IH1, IH2, IH3.
  destruct (encode_byte_free c) as (-> & -> & ->). repeat split.
Qed.

Lemma utf8_decode_start (lower upper : N) (pending : string) (c : ascii)
      (s : string) :
  Url.utf8_decode 0 lower upper pending (String c s)
  = let b := Text.byte_of c in
    let one := String c EmptyString in
    if N.leb b 127 then String c (Url.utf8_decode 0 128 191 EmptyString s)
    else if (N.leb 194 b && N.leb b 223)%bool then
      Url.utf8_decode 1 128 191 one s
    else if (N.leb 224 b && N.leb b 239)%bool then
      Url.utf8_decode 2 (if N.eqb b 224 then 160 else 128)
                        (if N.eqb b 237 then 159 else 191) one s
    else if (N.leb 240 b && N.leb b 244)%bool then
      Url.utf8_decode 3 (if N.eqb b 240 then 144 else 128)
                        (if N.eqb b 244 then 143 else 191) one s
    else Url.replacement +:+ Url.utf8_decode 0 128 191 EmptyString s.
Proof. reflexivity. Qed.

Lemma utf8_decode_last (lower upper : N) (pending : string) (c : ascii)
      (s : string) :
  Text.in_range lower upper c = true ->
  Url.utf8_decode 1 lower upper pending (String c s)
  = pending +:+ String c EmptyString
    +:+ Url.utf8_decode 0 128 191 EmptyString s.
Proof.
  intros H. unfold Text.in_range in H. cbn [Url.utf8_decode]. rewrite H.
  reflexivity.
Qed.

Lemma utf8_decode_more (n : nat) (lower upper : N) (pending : string)
      (c : ascii) (s : string) :
  Text.in_range lower upper c = true ->
  Url.utf8_decode (S (S n)) lower upper pending (String c s)
  = Url.utf8_decode (S n) 128 191 (pending +:+ String c EmptyString) s.
Proof.
  intros H. unfold Text.in_range in H.
  destruct s as [|d s']; cbn [Url.utf8_decode]; rewrite H; reflexivity.
Qed.

Lemma utf8_decode_well_formed (s : string) :
  well_formed s = true -> Url.utf8_decode 0 128 191 EmptyString s = s.
Proof.
  remember (String.length s) as n eqn:Hn.
  assert (String.length s <= n)%nat as Hlen by lia. clear Hn.
  revert s Hlen. induction n as [|n IH]; intros s Hlen Hw.
  { destruct s; [reflexivity | cbn in Hlen; lia]. }
  destruct s as [|a r1]; [reflexivity|].
  cbn [String.length] in Hlen. cbn [well_formed] in Hw.
  rewrite utf8_decode_start. cbv zeta.
  destruct (N.leb (Text.byte_of a) 127) eqn:H1.
  { rewrite (IH r1) by (lia || exact Hw). reflexivity. }
  destruct r1 as [|b r2]; [discriminate Hw|]. cbn [String.length] in Hlen.
  change (N.leb 194 (Text.byte_of a) && N.leb (Text.byte_of a) 223)%bool
    with (Text.in_range 194 223 a).
  destruct (Text.in_range 194 223 a) eqn:H2.
  { apply andb_true_iff in Hw as [Hb Hr].
    rewrite (utf8_decode_last _ _ _ _ _ Hb), (IH r2) by (lia || exact Hr).
    reflexivity. }
  destruct r2 as [|c r3]; [discriminate Hw|]. cbn [String.length] in Hlen.
  change (N.leb 224 (Text.byte_of a) && N.leb (Text.byte_of a) 239)%bool
    with (Text.in_range 224 239 a).
  destruct (Text.in_range 224 239 a) eqn:H3.
  { apply andb_true_iff in Hw as [Hw Hr]. apply andb_true_iff in Hw as [Hb Hc].
    rewrite (utf8_decode_more _ _ _ _ _ _ Hb), (utf8_decode_last _ _ _ _ _ Hc).
    rewrite (IH r3) by (lia || exact Hr). reflexivity. }
  destruct r3 as [|d r4]; [discriminate Hw|]. cbn [String.length] in Hlen.
  apply andb_true_iff in Hw as [Hw Hr]. apply andb_true_iff in Hw as [Hw Hd].
  apply andb_true_iff in Hw as [Hw Hc]. apply andb_true_iff in Hw as [Ha Hb].
  change (N.leb 240 (Text.byte_of a) && N.leb (Text.byte_of a) 244)%bool
    with (Text.in_range 240 244 a). rewrite Ha.
  rewrite (utf8_decode_more _ _ _ _ _ _ Hb), (utf8_decode_more _ _ _ _ _ _ Hc),
    (utf8_decode_last _ _ _ _ _ Hd).
  rewrite (IH r4) by (lia || exact Hr). reflexivity.
Qed.

(** Decoding undoes the encoding of a well-formed text. *)
Lemma decode_encode_component (s : string) :
  well_formed s = true -> Url.decode_component (encode_component s) = s.
Proof.
  intros Hw. unfold Url.decode_component.
  rewrite decode_encode_bytes. apply utf8_decode_well_formed, Hw.
Qed.

Lemma parse_urlencoded_app (a b : string) :
  Url.parse_urlencoded (a +:+ String "&" b)
  = Url.parse_urlencoded a ++ Url.parse_urlencoded b.
Proof.
  unfold Url.parse_urlencoded.
  rewrite split_on_app, List.filter_app, map_app. reflexivity.
Qed.

Lemma parse_encode_field (field : string * string) :
  well_formed_field field = true ->
  Url.parse_urlencoded (encode_field field) = [field].
Proof.
  destruct field as [n v]. unfold well_formed_field, encode_field. cbn [fst snd].
  intros H. apply andb_true_iff in H as [Hn Hv].
  destruct (encode_component_free n) as (Hn1 & Hn2 & _).
  destruct (encode_component_free v) as (Hv1 & _ & _).
  unfold Url.parse_urlencoded.
  rewrite (split_on_free "&").
  2:{ rewrite free_of_app, Hn1. cbn [free_of]. rewrite Hv1. reflexivity. }
  cbn [List.filter].
  replace (Text.is_empty (encode_component n +:+ String "=" (encode_component v)))
    with false by (destruct (encode_component n); reflexivity).
  cbn [negb map]. rewrite (split_pair_app _ _ Hn2).
  rewrite (decode_encode_component n Hn), (decode_encode_component v Hv).
  reflexivity.
Qed.

Lemma parse_form_encode (fields : list (string * string)) :
  forallb well_formed_field fields = true ->
  Url.parse_urlencoded (form_encode fields) = fields.
Proof.
  induction fields as [|field rest IH]; [reflexivity|].
  cbn [forallb]. intros H. apply andb_true_iff in H as [Hf Hr].
  destruct rest as [|next rest'].
  - apply parse_encode_field, Hf.
  - change (form_encode (field :: next :: rest'))
      with (encode_field field +:+ String "&" (form_encode (next :: rest'))).
    rewrite parse_urlencoded_app, (parse_encode_field field Hf), (IH Hr).
    reflexivity.
Qed.

Lemma form_encode_free (fields : list (string * string)) :
  free_of "?" (form_encode fields) = true.
Proof.
  assert (forall field, free_of "?" (encode_field field) = true) as Hfield.
  { intros [n v]. unfold encode_field. cbn [fst snd]. rewrite free_of_app.
    destruct (encode_component_free n) as (_ & _ & ->).
    destruct (encode_component_free v) as (_ & _ & Hv). cbn [free_of].
    rewrite Hv. reflexivity. }
  induction fields as [|field rest IH]; [reflexivity|].
  destruct rest as [|next rest']; [apply Hfield|].
  change (form_encode (field :: next :: rest'))
    with (encode_field field +:+ String "&" (form_encode (next :: rest'))).
  rewrite free_of_app, Hfield. cbn [free_of]. rewrite IH. reflexivity.
Qed.

(** The entries of a form-encoded body are the fields it encodes. *)
Lemma entries_form_encode (fields : list (string * string)) :
  forallb well_formed_field fields = true ->
  Url.URLSearchParams_entries (Some (form_encode fields)) = fields.
Proof.
  intros Hw. unfold Url.URLSearchParams_entries.
  pose proof (form_encode_free fields) as Hfree.
  destruct (form_encode fields) as [|c s] eqn:Hbody.
  - rewrite <- Hbody. apply parse_form_encode, Hw.
  - cbn [free_of] in Hfree. apply andb_true_iff in Hfree as [Hc _].
    apply negb_true_iff in Hc. rewrite Hc, <- Hbody.
    apply parse_form_encode, Hw.
Qed.

Lemma fold_insert_field (fields : list (string * string))
      (m : gmap string string) (name : string) :
  fold_left (fun (m : gmap string string) kv => <[kv.1 := kv.2]> m) fields m
  !! name
  = match field_value fields name with
    | Some v => Some v
    | None => m !! name
    end.
Proof.
  revert m. induction fields as [|[n v] rest IH]; intros m; [reflexivity|].
  cbn [fold_left field_value fst snd]. rewrite IH.
  destruct (field_value rest name) as [later|]; [reflexivity|].
  destruct (String.eqb_spec n name) as [->|Hne].
  - apply lookup_insert_eq.
  - apply lookup_insert_ne, Hne.
Qed.

Lemma fromEntries_field_value (fields : list (string * string)) (name : string) :
  Url.fromEntries fields !! name = field_value fields name.
Proof.
  unfold Url.fromEntries. rewrite fold_insert_field.
  destruct (field_value fields name); [reflexivity | apply lookup_empty].
Qed.

End FormEncoding.

Section ParseFormEncoded.
Import Effect ProcessSale.

(** C6 (amended): for every body, with [saleData] the name/value mapping
    decoded from it, the parse step gives: orderId, the [sale_id] when
    there is one, else ORD-<currentEpochMillis>; businessUrl, the
    [custom_fields[website]] value when there is one, else the [website]
    value, else "Not provided", with one leading scheme ("https://" or
    "http://") and then a leading "www." removed, so that
    "https://www.example.com" gives "example.com" and "example.com"
    stays; amount, "0.00" when there is no price, and for a price of n
    minor units below 2^49, n divided by 100 with 2 decimals, so that 1999
    gives "19.99". When the body is the form encoding of a list of fields
    (names and values of well-formed UTF-8), [saleData] holds for every
    name the value of the last field with that name. *)
Theorem parse_extracts (E : env) (event_body : option string) :
  let saleData := Url.fromEntries (Url.URLSearchParams_entries event_body) in
  let p := parse E event_body in
  (forall fields,
      forallb well_formed_field fields = true ->
      event_body = Some (form_encode fields) ->
      Url.URLSearchParams_entries event_body = fields
      /\ forall name, saleData !! name = field_value fields name)
  /\ p_orderId p
     = first_present [saleData !! "sale_id"%string]
                     ("ORD-" +:+ Text.decimal_Z (now E))
  /\ p_businessUrl p
     = normalized (first_present [saleData !! "custom_fields[website]"%string;
                                  saleData !! "website"%string]
                                 "Not provided")
  /\ normalized "https://www.example.com" = "example.com"%string
  /\ normalized "example.com" = "example.com"%string
  /\ normalized "Not provided" = "Not provided"%string
  /\ (saleData !! "price"%string = None -> p_amount p = Number.Known "0.00")
  /\ (forall n : N,
        (n < 2 ^ 49)%N ->
        saleData !! "price"%string = Some (Text.decimal_N n) ->
        p_amount p = Number.Known (two_decimals n))
  /\ two_decimals 1999 = "19.99"%string.
Proof.
  intros saleData p. split.
  { intros fields Hw ->. unfold saleData.
    rewrite (entries_form_encode fields Hw). split; [reflexivity|].
    intros name. apply fromEntries_field_value. }
  unfold p, parse. fold saleData.
  cbn [p_orderId p_businessUrl p_amount].
  split; [apply or_else_first_present|].
  split; [rewrite replace_scheme_www, or_else_first_present2; reflexivity|].
  split; [reflexivity|]. split; [reflexivity|]. split; [reflexivity|].
  split; [intros ->; reflexivity|].
  split; [|reflexivity].
  intros n Hn ->.
  destruct (decimal_N_digits n) as [_ Hne].
  destruct (Text.decimal_N n) as [|c s] eqn:Hdec; [contradiction|].
  rewrite <- Hdec, parseInt_decimal, (toFixed_of_cents n Hn), layout_two_decimals.
  reflexivity.
Qed.

Lemma parse_extracts_witness :
  forallb well_formed_field posted_fields = true
  /\ form_encode posted_fields
     = "email=a+b%40c.com&sale_id=ORD-1&custom_fields%5Bwebsite%5D=https%3A%2F%2Fwww.acme.io%2F%3Fq%3D1%26r%3D2&price=1999"%string
  /\ (1999 < 2 ^ 49)%N
  /\ p_orderId (parse sample_env (Some (form_encode posted_fields)))
     = "ORD-1"%string
  /\ p_businessUrl (parse sample_env (Some (form_encode posted_fields)))
     = "acme.io/?q=1&r=2"%string
  /\ p_amount (parse sample_env (Some (form_encode posted_fields)))
     = Number.Known "19.99".
Proof.
  assert (forallb well_formed_field posted_fields = true) as Hw
    by (vm_compute; reflexivity).
  assert (1999 < 2 ^ 49)%N as Hn by (vm_compute; reflexivity).
  split; [exact Hw|]. split; [vm_compute; reflexivity|]. split; [exact Hn|].
  destruct (parse_extracts sample_env (Some (form_encode posted_fields)))
    as (Hfields & Hid & Hurl & _ & _ & _ & _ & Hamount & Hex).
  destruct (Hfields posted_fields Hw eq_refl) as [_ Hvalue].
  split; [rewrite Hid, Hvalue; vm_compute; reflexivity|].
  split; [rewrite Hurl, !Hvalue; vm_compute; reflexivity|].
  rewrite (Hamount 1999%N Hn); [rewrite Hex; reflexivity|].
  rewrite Hvalue. vm_compute. reflexivity.
Defined.

(** A price that binary64 does not hold is rounded: 9007199254740993
    minor units are read as 9007199254740992, and the amount is
    90071992547409.92 where the price divided by 100 with 2 decimals is
    90071992547409.93. *)
Lemma large_price_is_rounded :
  Url.fromEntries (Url.URLSearchParams_entries large_price_body) !! "price"%string
  = Some (Text.decimal_N 9007199254740993)
  /\ p_amount (parse sample_env large_price_body)
     = Number.Known "90071992547409.92"
  /\ two_decimals 9007199254740993 = "90071992547409.93"%string
  /\ Number.Known "90071992547409.92" <> Number.Known "90071992547409.93".
Proof.
  split; [vm_compute; reflexivity|]. split; [vm_compute; reflexivity|].
  split; [vm_compute; reflexivity | discriminate].
Qed.

End ParseFormEncoded.
